(** * Street tree planting assistant: benefit model and scenario store

    A shallow embedding of [main.py]: the species catalog, the benefit
    model ([canopy_radius_m], [canopy_area_m2], [annual_benefits],
    [project_tree]), the in-memory scenario ([SCENARIO]) and the route
    handlers that read and mutate it.

    Python floats are IEEE 754 binary64 numbers and are modelled by Rocq's
    primitive floats, whose operations are specified against [SpecFloat].
    Python dictionaries keep insertion order and are modelled by association
    lists with the dictionary operations written out.  A handler is a
    function from the scenario to a result (a value or a raised exception)
    and the scenario it leaves behind: an exception does not roll back the
    writes made before it. *)

From Stdlib Require Import ZArith Lia List String Ascii Bool.
From Stdlib Require Import DecimalString DecimalZ DecimalPos.
From Stdlib Require Import Floats.
Import ListNotations.

#[local] Set Warnings "-inexact-float,-register-all".
#[local] Open Scope string_scope.

(* ================================================================== *)
(** ** Python values, exceptions and results *)

(** The exceptions the modelled code can raise.  [HTTPException] carries the
    status code and which of the four detail messages of [main.py] it has. *)
Inductive PyErr : Type :=
  | KeyError (key : string)
  | TypeError
  | ValueError
  | OverflowError.

Inductive Detail : Type :=
  | BadPayload (cause : PyErr)   (* f"Bad payload: {e}" *)
  | UnknownSpecies               (* "Unknown species_id" *)
  | TreeNotFound                 (* "Tree not found" *)
  | BadHorizon.                  (* "horizon must be one of 5,10,15,20" *)

Inductive Exn : Type :=
  | Uncaught (e : PyErr)
  | HTTPException (status_code : Z) (detail : Detail).

Inductive Res (A : Type) : Type :=
  | Ok (a : A)
  | Raise (e : Exn).
Arguments Ok {A} a.
Arguments Raise {A} e.

Definition res_bind {A B} (r : Res A) (k : A -> Res B) : Res B :=
  match r with
  | Ok a => k a
  | Raise e => Raise e
  end.

(** A decoded JSON value, as the request body [Dict[str, Any]] holds them. *)
Inductive PyVal : Type :=
  | PyNone
  | PyBool (b : bool)
  | PyInt (z : Z)
  | PyFloat (f : float)
  | PyStr (s : string)
  | PyList (items : list PyVal)
  | PyObj (fields : list (string * PyVal)).

(* ================================================================== *)
(** ** Insertion-ordered dictionaries *)

Module PyDict.
Section Ops.
Context {V : Type}.

Definition t := list (string * V).

Definition empty : t := [].

(** [d.get(k)] *)
Fixpoint get (k : string) (d : t) : option V :=
  match d with
  | [] => None
  | (k', v) :: rest => if String.eqb k k' then Some v else get k rest
  end.

(** [k in d] *)
Definition contains (k : string) (d : t) : bool :=
  match get k d with Some _ => true | None => false end.

(** [d[k] = v]: an existing key keeps its position, a new key goes last. *)
Fixpoint set (k : string) (v : V) (d : t) : t :=
  match d with
  | [] => [(k, v)]
  | (k', v') :: rest =>
      if String.eqb k k' then (k', v) :: rest else (k', v') :: set k v rest
  end.

(** [del d[k]] for a key known to be present (keys are unique in a
    dictionary, so at most one entry goes). *)
Definition del (k : string) (d : t) : t :=
  filter (fun kv => negb (String.eqb k (fst kv))) d.

(** [d.values()], [d.keys()] and [len(d)] *)
Definition values (d : t) : list V := map snd d.
Definition keys (d : t) : list string := map fst d.
Definition len (d : t) : nat := List.length d.

(** In-place mutation of the object stored under [k]. *)
Definition alter (f : V -> V) (k : string) (d : t) : t :=
  map (fun kv => if String.eqb k (fst kv) then (fst kv, f (snd kv)) else kv) d.
End Ops.
Arguments t : clear implicits.
End PyDict.

(* ================================================================== *)
(** ** Python float and int built-ins *)

Module Py.

(** [max(a, b)] on two floats: Python keeps the first argument unless the
    second compares strictly greater. *)
Definition max (a b : float) : float := if (a <? b)%float then b else a.

(** [str(n)] for an int. *)
Definition str_of_int (z : Z) : string := NilZero.string_of_int (Z.to_int z).

(** Conversion of an int to a float, as [float(n)] and mixed arithmetic do:
    round to nearest even, [OverflowError] when the int is too large. *)
Definition float_of_int (z : Z) : Res float :=
  match binary_normalize prec emax z 0 false with
  | S754_infinity _ => Raise (Uncaught OverflowError)
  | sf => Ok (SF2Prim sf)
  end.

(** [int(x)] for a float: truncation toward zero. *)
Definition int_of_float (f : float) : Res Z :=
  match Prim2SF f with
  | S754_zero _ => Ok 0%Z
  | S754_finite s m e => Ok (cond_Zopp s (Z.shiftl (Z.pos m) e))
  | S754_infinity _ => Raise (Uncaught OverflowError)
  | S754_nan => Raise (Uncaught ValueError)
  end.

(** The parts of the built-ins that are Python's own library code: parsing
    a string as a float or an int, and [str] of a value that is not
    already a string. *)
Class Builtins : Type := {
  float_of_str : string -> option float;
  int_of_str : string -> option Z;
  repr : PyVal -> string
}.

Section Conversions.
Context {B : Builtins}.

(** [float(v)] *)
Definition float (v : PyVal) : Res float :=
  match v with
  | PyNone => Raise (Uncaught TypeError)
  | PyBool b => Ok (if b then 1 else 0)%float
  | PyInt z => float_of_int z
  | PyFloat f => Ok f
  | PyStr s =>
      match float_of_str s with
      | Some f => Ok f
      | None => Raise (Uncaught ValueError)
      end
  | PyList _ | PyObj _ => Raise (Uncaught TypeError)
  end.

(** [int(v)] *)
Definition int (v : PyVal) : Res Z :=
  match v with
  | PyNone => Raise (Uncaught TypeError)
  | PyBool b => Ok (if b then 1 else 0)%Z
  | PyInt z => Ok z
  | PyFloat f => int_of_float f
  | PyStr s =>
      match int_of_str s with
      | Some z => Ok z
      | None => Raise (Uncaught ValueError)
      end
  | PyList _ | PyObj _ => Raise (Uncaught TypeError)
  end.

(** [str(v)] *)
Definition str (v : PyVal) : string :=
  match v with
  | PyStr s => s
  | _ => repr v
  end.
End Conversions.

(** [payload[k]] *)
Definition index (payload : PyDict.t PyVal) (k : string) : Res PyVal :=
  match PyDict.get k payload with
  | Some v => Ok v
  | None => Raise (Uncaught (KeyError k))
  end.

(** [payload.get(k, default)] *)
Definition get_default (payload : PyDict.t PyVal) (k : string) (default : PyVal) : PyVal :=
  match PyDict.get k payload with
  | Some v => v
  | None => default
  end.

(** A built-in environment whose string parsers reject every string; used
    to run the handlers on payloads that carry numbers as numbers. *)
Definition numeric_builtins : Builtins :=
  {| float_of_str := fun _ => None;
     int_of_str := fun _ => None;
     repr := fun v => match v with PyNone => "None" | _ => "" end |}.
End Py.

(* ================================================================== *)
(** ** Species library *)

Module Species.
Record t : Type := {
  species_id : string;
  common : string;
  latin : string;
  dbh_growth_in_per_year : float;
  canopy_k_m_per_in : float;
  carbon_kg_per_in_dbh : float;
  stormwater_l_per_m2_canopy : float;
  pollution_g_per_m2_canopy : float
}.
End Species.

Definition red_maple : Species.t :=
  {| Species.species_id := "red_maple";
     Species.common := "Red Maple";
     Species.latin := "Acer rubrum";
     Species.dbh_growth_in_per_year := 0.35;
     Species.canopy_k_m_per_in := 0.45;
     Species.carbon_kg_per_in_dbh := 3.0;
     Species.stormwater_l_per_m2_canopy := 45.0;
     Species.pollution_g_per_m2_canopy := 12.0 |}.

Definition london_plane : Species.t :=
  {| Species.species_id := "london_plane";
     Species.common := "London Plane";
     Species.latin := "Platanus × acerifolia";
     Species.dbh_growth_in_per_year := 0.50;
     Species.canopy_k_m_per_in := 0.55;
     Species.carbon_kg_per_in_dbh := 4.2;
     Species.stormwater_l_per_m2_canopy := 55.0;
     Species.pollution_g_per_m2_canopy := 14.0 |}.

Definition ginkgo : Species.t :=
  {| Species.species_id := "ginkgo";
     Species.common := "Ginkgo";
     Species.latin := "Ginkgo biloba";
     Species.dbh_growth_in_per_year := 0.25;
     Species.canopy_k_m_per_in := 0.35;
     Species.carbon_kg_per_in_dbh := 2.2;
     Species.stormwater_l_per_m2_canopy := 35.0;
     Species.pollution_g_per_m2_canopy := 9.0 |}.

Definition SPECIES_DB : list Species.t := [red_maple; london_plane; ginkgo].

(** [{s["species_id"]: s for s in SPECIES_DB}] *)
Definition SPECIES_BY_ID : PyDict.t Species.t :=
  fold_left (fun d s => PyDict.set (Species.species_id s) s d) SPECIES_DB PyDict.empty.

(** [SPECIES_BY_ID[species_id]] *)
Definition species_lookup (species_id : string) : Res Species.t :=
  match PyDict.get species_id SPECIES_BY_ID with
  | Some s => Ok s
  | None => Raise (Uncaught (KeyError species_id))
  end.

(* ================================================================== *)
(** ** Benefit model *)

Module Benefits.
Record t : Type := {
  canopy_radius_m : float;
  canopy_area_m2 : float;
  carbon_kg_per_year : float;
  stormwater_l_per_year : float;
  pollution_g_per_year : float
}.

(** Field-wise identity of two snapshots (bitwise on each float). *)
Definition eqb (a b : t) : bool :=
  PrimFloat.Leibniz.eqb (canopy_radius_m a) (canopy_radius_m b)
  && PrimFloat.Leibniz.eqb (canopy_area_m2 a) (canopy_area_m2 b)
  && PrimFloat.Leibniz.eqb (carbon_kg_per_year a) (carbon_kg_per_year b)
  && PrimFloat.Leibniz.eqb (stormwater_l_per_year a) (stormwater_l_per_year b)
  && PrimFloat.Leibniz.eqb (pollution_g_per_year a) (pollution_g_per_year b).
End Benefits.

(** [math.pi], the double nearest to pi. *)
Definition math_pi : float := 0x1.921fb54442d18p+1%float.

Definition canopy_radius_m (species_id : string) (dbh_in : float) : Res float :=
  res_bind (species_lookup species_id) (fun s =>
  Ok (Py.max 0.5 (Species.canopy_k_m_per_in s * Py.max 0.0 dbh_in))%float).

Definition canopy_area_m2 (radius_m : float) : float :=
  (math_pi * radius_m * radius_m)%float.

Definition annual_benefits (species_id : string) (dbh_in : float) : Res Benefits.t :=
  res_bind (species_lookup species_id) (fun s =>
  res_bind (canopy_radius_m species_id dbh_in) (fun r =>
  let a := canopy_area_m2 r in
  let carbon := (Species.carbon_kg_per_in_dbh s * Py.max 0.0 dbh_in)%float in
  let stormwater := (Species.stormwater_l_per_m2_canopy s * a)%float in
  let pollution := (Species.pollution_g_per_m2_canopy s * a)%float in
  Ok {| Benefits.canopy_radius_m := r;
        Benefits.canopy_area_m2 := a;
        Benefits.carbon_kg_per_year := carbon;
        Benefits.stormwater_l_per_year := stormwater;
        Benefits.pollution_g_per_year := pollution |})).

Definition project_tree (species_id : string) (dbh_in : float) (years : Z) : Res Benefits.t :=
  res_bind (species_lookup species_id) (fun s =>
  res_bind (Py.float_of_int years) (fun y =>
  let dbh_t := (dbh_in + Species.dbh_growth_in_per_year s * y)%float in
  annual_benefits species_id dbh_t)).

(* ================================================================== *)
(** ** In-memory scenario state *)

Module Tree.
Record t : Type := {
  id : string;
  lon : float;
  lat : float;
  species_id : string;
  dbh_in : float;
  planting_year : Z;
  benefits : Benefits.t
}.

Definition set_lon (v : float) (x : t) : t :=
  {| id := id x; lon := v; lat := lat x; species_id := species_id x;
     dbh_in := dbh_in x; planting_year := planting_year x; benefits := benefits x |}.
Definition set_lat (v : float) (x : t) : t :=
  {| id := id x; lon := lon x; lat := v; species_id := species_id x;
     dbh_in := dbh_in x; planting_year := planting_year x; benefits := benefits x |}.
Definition set_dbh_in (v : float) (x : t) : t :=
  {| id := id x; lon := lon x; lat := lat x; species_id := species_id x;
     dbh_in := v; planting_year := planting_year x; benefits := benefits x |}.
Definition set_planting_year (v : Z) (x : t) : t :=
  {| id := id x; lon := lon x; lat := lat x; species_id := species_id x;
     dbh_in := dbh_in x; planting_year := v; benefits := benefits x |}.
Definition set_species_id (v : string) (x : t) : t :=
  {| id := id x; lon := lon x; lat := lat x; species_id := v;
     dbh_in := dbh_in x; planting_year := planting_year x; benefits := benefits x |}.
Definition set_benefits (v : Benefits.t) (x : t) : t :=
  {| id := id x; lon := lon x; lat := lat x; species_id := species_id x;
     dbh_in := dbh_in x; planting_year := planting_year x; benefits := v |}.
End Tree.

(** The module-level [SCENARIO] dictionary. *)
Module Scenario.
Record t : Type := {
  id : string;
  created_at : float;
  planted_trees : PyDict.t Tree.t
}.

Definition with_planted_trees (d : PyDict.t Tree.t) (s : t) : t :=
  {| id := id s; created_at := created_at s; planted_trees := d |}.

(** The state the module is loaded with, at clock reading [now]. *)
Definition initial (now : float) : t :=
  {| id := "default"; created_at := now; planted_trees := PyDict.empty |}.
End Scenario.

(** A route handler runs against the global scenario: it returns a value or
    raises, and in both cases leaves a scenario behind. *)
Definition Handler (A : Type) : Type := Scenario.t -> Res A * Scenario.t.

Definition ret {A} (a : A) : Handler A := fun s => (Ok a, s).
Definition raise {A} (e : Exn) : Handler A := fun s => (Raise e, s).
Definition bind {A B} (m : Handler A) (k : A -> Handler B) : Handler B :=
  fun s =>
    match m s with
    | (Ok a, s') => k a s'
    | (Raise e, s') => (Raise e, s')
    end.
Definition lift {A} (r : Res A) : Handler A := fun s => (r, s).
Definition read : Handler Scenario.t := fun s => (Ok s, s).
Definition write_trees (f : PyDict.t Tree.t -> PyDict.t Tree.t) : Handler unit :=
  fun s => (Ok tt, Scenario.with_planted_trees (f (Scenario.planted_trees s)) s).

Declare Scope handler_scope.
Delimit Scope handler_scope with handler.
Notation "x <- m ;; k" := (bind m (fun x => k))
  (at level 61, m at next level, right associativity) : handler_scope.
Notation "m ;;; k" := (bind m (fun _ => k))
  (at level 61, right associativity) : handler_scope.
#[local] Open Scope handler_scope.

(** [try: body except Exception as e: raise HTTPException(400, f"Bad payload: {e}")]
    around a computation that touches no state. *)
Definition try_bad_payload {A} (r : Res A) : Handler A :=
  match r with
  | Ok a => ret a
  | Raise (Uncaught e) => raise (HTTPException 400 (BadPayload e))
  | Raise e => raise e
  end.

(** [if k in payload: body(payload[k])] *)
Definition when_in (k : string) (payload : PyDict.t PyVal) (body : PyVal -> Handler unit)
  : Handler unit :=
  match PyDict.get k payload with
  | Some v => body v
  | None => ret tt
  end.

(** The identifier of a new tree:
    [f"planted_{int(time.time()*1000)}_{len(SCENARIO['planted_trees'])+1}"]. *)
Definition tree_id_of (now_ms : Z) (size : nat) : string :=
  "planted_" ++ Py.str_of_int now_ms ++ "_" ++ Py.str_of_int (Z.of_nat size + 1).

Module ScenarioView.
Record t : Type := {
  scenario_id : string;
  planted_trees : list Tree.t
}.
End ScenarioView.

Module Totals.
Record t : Type := {
  carbon_kg_per_year : float;
  stormwater_l_per_year : float;
  pollution_g_per_year : float;
  canopy_area_m2 : float
}.

Definition zero : t :=
  {| carbon_kg_per_year := 0.0; stormwater_l_per_year := 0.0;
     pollution_g_per_year := 0.0; canopy_area_m2 := 0.0 |}.

(** The four [total[...] += proj[...]] statements of the loop body. *)
Definition accumulate (total : t) (proj : Benefits.t) : t :=
  {| carbon_kg_per_year := (carbon_kg_per_year total + Benefits.carbon_kg_per_year proj)%float;
     stormwater_l_per_year := (stormwater_l_per_year total + Benefits.stormwater_l_per_year proj)%float;
     pollution_g_per_year := (pollution_g_per_year total + Benefits.pollution_g_per_year proj)%float;
     canopy_area_m2 := (canopy_area_m2 total + Benefits.canopy_area_m2 proj)%float |}.
End Totals.

Module Projection.
Record t : Type := {
  horizon_years : Z;
  total : Totals.t;
  per_tree : list (string * Benefits.t)
}.
End Projection.

Section Routes.
Context {B : Py.Builtins}.

(** [GET /api/scenario] *)
Definition get_scenario : Handler ScenarioView.t :=
  s <- read ;;
  let planted := PyDict.values (Scenario.planted_trees s) in
  ret {| ScenarioView.scenario_id := Scenario.id s;
         ScenarioView.planted_trees := planted |}.

(** The conversions inside the [try] block of [add_planted_tree]. *)
Definition parse_add_payload (payload : PyDict.t PyVal)
  : Res (float * float * string * float * Z) :=
  res_bind (res_bind (Py.index payload "lon") Py.float) (fun lon =>
  res_bind (res_bind (Py.index payload "lat") Py.float) (fun lat =>
  let species_id := Py.str (Py.get_default payload "species_id" (PyStr "red_maple")) in
  res_bind (Py.float (Py.get_default payload "dbh_in" (PyFloat 2.0))) (fun dbh_in =>
  res_bind (Py.int (Py.get_default payload "planting_year" (PyInt 2026))) (fun planting_year =>
  Ok (lon, lat, species_id, dbh_in, planting_year))))).

(** [POST /api/scenario/trees]; [now_ms] is [int(time.time()*1000)] as read
    when the identifier is built. *)
Definition add_planted_tree (now_ms : Z) (payload : PyDict.t PyVal) : Handler Tree.t :=
  fields <- try_bad_payload (parse_add_payload payload) ;;
  let '(lon, lat, species_id, dbh_in, planting_year) := fields in
  if negb (PyDict.contains species_id SPECIES_BY_ID)
  then raise (HTTPException 400 UnknownSpecies)
  else
    s <- read ;;
    let tid := tree_id_of now_ms (PyDict.len (Scenario.planted_trees s)) in
    benefits <- lift (annual_benefits species_id dbh_in) ;;
    let tree := {| Tree.id := tid; Tree.lon := lon; Tree.lat := lat;
                   Tree.species_id := species_id; Tree.dbh_in := dbh_in;
                   Tree.planting_year := planting_year; Tree.benefits := benefits |} in
    write_trees (PyDict.set tid tree) ;;;
    ret tree.

(** [t[...] = v] where [t] is the dictionary stored under [tree_id]: the
    write goes through to the scenario. *)
Definition assign (tree_id : string) (f : Tree.t -> Tree.t) : Handler unit :=
  write_trees (PyDict.alter f tree_id).

(** Reading [t], the dictionary stored under [tree_id]. *)
Definition deref (tree_id : string) : Handler Tree.t :=
  s <- read ;;
  match PyDict.get tree_id (Scenario.planted_trees s) with
  | Some t => ret t
  | None => raise (Uncaught (KeyError tree_id))
  end.

(** [PATCH /api/scenario/trees/{tree_id}] *)
Definition update_planted_tree (tree_id : string) (payload : PyDict.t PyVal) : Handler Tree.t :=
  s <- read ;;
  if negb (PyDict.contains tree_id (Scenario.planted_trees s))
  then raise (HTTPException 404 TreeNotFound)
  else
    when_in "lon" payload (fun v =>
      x <- lift (Py.float v) ;; assign tree_id (Tree.set_lon x)) ;;;
    when_in "lat" payload (fun v =>
      x <- lift (Py.float v) ;; assign tree_id (Tree.set_lat x)) ;;;
    when_in "dbh_in" payload (fun v =>
      x <- lift (Py.float v) ;; assign tree_id (Tree.set_dbh_in x)) ;;;
    when_in "planting_year" payload (fun v =>
      x <- lift (Py.int v) ;; assign tree_id (Tree.set_planting_year x)) ;;;
    when_in "species_id" payload (fun v =>
      let sid := Py.str v in
      if negb (PyDict.contains sid SPECIES_BY_ID)
      then raise (HTTPException 400 UnknownSpecies)
      else assign tree_id (Tree.set_species_id sid)) ;;;
    t <- deref tree_id ;;
    benefits <- lift (annual_benefits (Tree.species_id t) (Tree.dbh_in t)) ;;
    assign tree_id (Tree.set_benefits benefits) ;;;
    deref tree_id.

(** [DELETE /api/scenario/trees/{tree_id}] *)
Definition delete_planted_tree (tree_id : string) : Handler unit :=
  s <- read ;;
  if PyDict.contains tree_id (Scenario.planted_trees s)
  then write_trees (PyDict.del tree_id)
  else ret tt.

(** The [for t in SCENARIO["planted_trees"].values()] loop;
    [float(t["dbh_in"])] is the identity on the float a stored tree holds. *)
Fixpoint projection_loop (horizon : Z) (trees : list Tree.t)
    (total : Totals.t) (per_tree : list (string * Benefits.t))
  : Res (Totals.t * list (string * Benefits.t)) :=
  match trees with
  | [] => Ok (total, per_tree)
  | t :: rest =>
      res_bind (project_tree (Tree.species_id t) (Tree.dbh_in t) horizon) (fun proj =>
      projection_loop horizon rest
        (Totals.accumulate total proj) (per_tree ++ [(Tree.id t, proj)])%list)
  end.

(** [horizon not in (5, 10, 15, 20)] *)
Definition horizon_allowed (horizon : Z) : bool :=
  existsb (Z.eqb horizon) [5; 10; 15; 20]%Z.

(** [GET /api/scenario/projection] *)
Definition scenario_projection (horizon : Z) : Handler Projection.t :=
  if negb (horizon_allowed horizon)
  then raise (HTTPException 400 BadHorizon)
  else
    s <- read ;;
    acc <- lift (projection_loop horizon (PyDict.values (Scenario.planted_trees s))
                   Totals.zero []) ;;
    ret {| Projection.horizon_years := horizon;
           Projection.total := fst acc;
           Projection.per_tree := snd acc |}.
End Routes.

(* ================================================================== *)
(** ** Census trees *)

(** [REMOVED_EXISTING_IDS]: a set of strings, read only through membership. *)
Module PySet.
Definition t := list string.

Definition empty : t := [].

(** [x in s] *)
Definition mem (x : string) (s : t) : bool := existsb (String.eqb x) s.

(** [s.add(x)] *)
Definition add (x : string) (s : t) : t := if mem x s then s else x :: s.
End PySet.

(** What [requests.get] hands back: [resp.ok], [resp.status_code],
    [resp.text], and the value [resp.json()] decodes the body to, [None]
    when the body is not JSON. *)
Module Response.
Record t : Type := {
  ok : bool;
  status_code : Z;
  text : string;
  json : option PyVal
}.
End Response.

(** The exceptions of the census route: the [HTTPException] that relays the
    upstream status code and body, and the errors nothing catches. *)
Inductive CensusExn : Type :=
  | UpstreamFailure (status_code : Z) (detail : string)
  | JSONDecodeError      (* [resp.json()] on a body that is not JSON *)
  | NotIterable          (* [for r in rows] over a number, a boolean or [None] *)
  | AttributeError.      (* [r.get] on a row that is not an object *)

(** A returned value, or a raised exception. *)
Definition CensusRes (A : Type) : Type := (A + CensusExn)%type.

(** [make_feature(lon, lat, props)] *)
Definition make_feature (lon lat : float) (props : PyDict.t PyVal) : PyVal :=
  PyObj [("type", PyStr "Feature");
         ("geometry", PyObj [("type", PyStr "Point");
                             ("coordinates", PyList [PyFloat lon; PyFloat lat])]);
         ("properties", PyObj props)].

(** What [for r in rows] iterates over: the items of a list, the keys of an
    object, the one-character strings of a string. *)
Definition iterate (rows : PyVal) : CensusRes (list PyVal) :=
  match rows with
  | PyList items => inl items
  | PyObj fields => inl (map (fun kv => PyStr (fst kv)) fields)
  | PyStr s => inl (map (fun c => PyStr (String c EmptyString)) (list_ascii_of_string s))
  | PyNone | PyBool _ | PyInt _ | PyFloat _ => inr NotIterable
  end.

Section Census.
Context {B : Py.Builtins}.

(** [tid is not None and str(tid) in REMOVED_EXISTING_IDS] *)
Definition is_removed (removed : PySet.t) (tid : PyVal) : bool :=
  match tid with
  | PyNone => false
  | _ => PySet.mem (Py.str tid) removed
  end.

(** The [props] dictionary built from a row [r]; [r.get(k)] is [None] for a
    missing key. *)
Definition props_of (r : PyDict.t PyVal) : PyDict.t PyVal :=
  [("source", PyStr "nyc_tree_census_2015");
   ("tree_id", Py.get_default r "tree_id" PyNone);
   ("spc_common", Py.get_default r "spc_common" PyNone);
   ("spc_latin", Py.get_default r "spc_latin" PyNone);
   ("health", Py.get_default r "health" PyNone);
   ("status", Py.get_default r "status" PyNone);
   ("tree_dbh", Py.get_default r "tree_dbh" PyNone);
   ("steward", Py.get_default r "steward" PyNone);
   ("curb_loc", Py.get_default r "curb_loc" PyNone);
   ("zipcode", Py.get_default r "zipcode" PyNone);
   ("boroname", Py.get_default r "boroname" PyNone);
   ("nta", Py.get_default r "nta" PyNone)].

(** The [for r in rows] loop: a removed row and a row whose latitude or
    longitude [float] rejects are skipped; a row that is not an object has
    no [get] and ends the call. *)
Fixpoint census_loop (removed : PySet.t) (rows : list PyVal) (features : list PyVal)
  : CensusRes (list PyVal) :=
  match rows with
  | [] => inl features
  | PyObj r :: rest =>
      if is_removed removed (Py.get_default r "tree_id" PyNone)
      then census_loop removed rest features
      else
        match Py.float (Py.get_default r "latitude" PyNone) with
        | Raise _ => census_loop removed rest features
        | Ok lat =>
            match Py.float (Py.get_default r "longitude" PyNone) with
            | Raise _ => census_loop removed rest features
            | Ok lon =>
                census_loop removed rest (features ++ [make_feature lon lat (props_of r)])
            end
        end
  | _ :: _ => inr AttributeError
  end.

(** [GET /api/existing-trees], from the response of the census endpoint on.
    The bounding box and the limit only shape the query that is sent. *)
Definition existing_trees (resp : Response.t) (removed : PySet.t) : CensusRes PyVal :=
  if negb (Response.ok resp)
  then inr (UpstreamFailure (Response.status_code resp) (Response.text resp))
  else
    match Response.json resp with
    | None => inr JSONDecodeError
    | Some body =>
        match iterate body with
        | inr e => inr e
        | inl rows =>
            match census_loop removed rows [] with
            | inr e => inr e
            | inl features =>
                inl (PyObj [("type", PyStr "FeatureCollection");
                            ("features", PyList features)])
            end
        end
    end.

(** [POST /api/existing-trees/{tree_id}/remove]; [str(tree_id)] is the
    identity on the string of the path. *)
Definition remove_existing_tree (tree_id : string) (removed : PySet.t) : PyVal * PySet.t :=
  (PyObj [("ok", PyBool true); ("removed_tree_id", PyStr tree_id)],
   PySet.add tree_id removed).
End Census.

(* ================================================================== *)
(** ** Vocabulary of the statements *)

(** What [annual_benefits] returns once the species has been looked up. *)
Definition snapshot_of (s : Species.t) (dbh_in : float) : Benefits.t :=
  let r := Py.max 0.5 (Species.canopy_k_m_per_in s * Py.max 0.0 dbh_in)%float in
  let a := canopy_area_m2 r in
  {| Benefits.canopy_radius_m := r;
     Benefits.canopy_area_m2 := a;
     Benefits.carbon_kg_per_year := (Species.carbon_kg_per_in_dbh s * Py.max 0.0 dbh_in)%float;
     Benefits.stormwater_l_per_year := (Species.stormwater_l_per_m2_canopy s * a)%float;
     Benefits.pollution_g_per_year := (Species.pollution_g_per_m2_canopy s * a)%float |}.

(** The maximum of two floats read as the larger of the two in the order of
    the floats (the second argument when they compare equal). *)
Definition spec_max (a b : float) : float := if (a <=? b)%float then b else a.

(** The canopy radius as the specification words it:
    [radius = max(0.5, k_canopy * max(0, dbh))]. *)
Definition spec_canopyRadius (s : Species.t) (dbh : float) : float :=
  spec_max 0.5 (Species.canopy_k_m_per_in s * spec_max 0 dbh)%float.

(** Sum of a list of floats, accumulated from [0.0] in list order. *)
Definition sum_in_order (xs : list float) : float :=
  fold_left PrimFloat.add xs 0.0%float.

(** A stored tree whose species resolves in the catalog. *)
Definition species_known (t : Tree.t) : bool :=
  PyDict.contains (Tree.species_id t) SPECIES_BY_ID.

(** A stored tree whose snapshot is [annual_benefits] of its stored species
    and diameter. *)
Definition snapshot_consistent (t : Tree.t) : bool :=
  match annual_benefits (Tree.species_id t) (Tree.dbh_in t) with
  | Ok b => Benefits.eqb b (Tree.benefits t)
  | Raise _ => false
  end.

(** The tree [add_planted_tree] builds from converted fields. *)
Definition new_tree (tid : string) (lon lat : float) (sp : Species.t) (species_id : string)
    (dbh_in : float) (planting_year : Z) : Tree.t :=
  {| Tree.id := tid; Tree.lon := lon; Tree.lat := lat; Tree.species_id := species_id;
     Tree.dbh_in := dbh_in; Tree.planting_year := planting_year;
     Tree.benefits := snapshot_of sp dbh_in |}.

(** [number_unusable payload k]: [payload] has no key [k], or [float] rejects
    the value stored under it. *)
Definition number_unusable {B : Py.Builtins} (payload : PyDict.t PyVal) (k : string) : Prop :=
  match PyDict.get k payload with
  | None => True
  | Some v => forall x, Py.float v <> Ok x
  end.

(** A handler keeps an invariant of the scenario, whether it returns or raises. *)
Definition preserves (P : Scenario.t -> Prop) {A} (m : Handler A) : Prop :=
  forall s, P s -> P (snd (m s)).

(** *** Traces of requests *)

Inductive Request : Type :=
  | ReqAdd (now_ms : Z) (payload : PyDict.t PyVal)
  | ReqUpdate (tree_id : string) (payload : PyDict.t PyVal)
  | ReqDelete (tree_id : string)
  | ReqProjection (horizon : Z)
  | ReqGetScenario.

(** One entry per successful add: the identifier it generated and whether
    that identifier was already a key of the store. *)
Record AddLog : Type := { added_id : string; overwrote : bool }.

Section Serving.
Context {B : Py.Builtins}.

Definition serve (r : Request) (s : Scenario.t) : option AddLog * Scenario.t :=
  match r with
  | ReqAdd now_ms payload =>
      match add_planted_tree now_ms payload s with
      | (Ok t, s') =>
          (Some {| added_id := Tree.id t;
                   overwrote := PyDict.contains (Tree.id t) (Scenario.planted_trees s) |}, s')
      | (Raise _, s') => (None, s')
      end
  | ReqUpdate tree_id payload => (None, snd (update_planted_tree tree_id payload s))
  | ReqDelete tree_id => (None, snd (delete_planted_tree tree_id s))
  | ReqProjection horizon => (None, snd (scenario_projection horizon s))
  | ReqGetScenario => (None, snd (get_scenario s))
  end.

(** Single-writer access: the requests are served one after the other. *)
Fixpoint run (rs : list Request) (s : Scenario.t) : list AddLog * Scenario.t :=
  match rs with
  | [] => ([], s)
  | r :: rest =>
      let '(entry, s') := serve r s in
      let '(log, s'') := run rest s' in
      (match entry with Some e => e :: log | None => log end, s'')
  end.
End Serving.

(** The clock readings of the add requests of a trace. *)
Fixpoint add_times (rs : list Request) : list Z :=
  match rs with
  | [] => []
  | ReqAdd now_ms _ :: rest => now_ms :: add_times rest
  | _ :: rest => add_times rest
  end.

(** An identifier stamped with a clock reading outside [ts]. *)
Definition stamped_outside (ts : list Z) (k : string) : Prop :=
  exists t n, k = tree_id_of t n /\ ~ In t ts.

Fixpoint has_underscore (s : string) : bool :=
  match s with
  | EmptyString => false
  | String c rest => Ascii.eqb c "_" || has_underscore rest
  end.

(** *** Sample inputs *)

(** A payload that names only the two required fields. *)
Definition lon_lat_payload : PyDict.t PyVal :=
  [("lon", PyFloat (-73.99)); ("lat", PyFloat 40.67)].

(** A trace in which three adds read the same millisecond and the first tree
    is removed before the third add. *)
Definition same_ms_trace : list Request :=
  [ReqAdd 1000 lon_lat_payload; ReqAdd 1000 lon_lat_payload;
   ReqDelete "planted_1000_1"; ReqAdd 1000 lon_lat_payload].

(** A trace whose adds read three different milliseconds. *)
Definition distinct_ms_trace : list Request :=
  [ReqAdd 1000 lon_lat_payload; ReqAdd 1001 lon_lat_payload;
   ReqDelete "planted_1000_1"; ReqAdd 1002 lon_lat_payload].

(** The scenario after one add at clock reading 1000 ms. *)
Definition one_tree_scenario : Scenario.t :=
  snd (@add_planted_tree Py.numeric_builtins 1000 lon_lat_payload (Scenario.initial 0)).

(** *** Rounding and order of binary64 numbers

    [SpecFloat] rounds the exact product of two mantissas with
    [binary_round_aux].  The definitions below describe that rounding and the
    order of non-negative floats through integers. *)

Section FloatVocabulary.
#[local] Open Scope Z_scope.

(** [M / 2^N] rounded to the nearest integer, ties to even. *)
Definition rne_at (M N : Z) : Z :=
  let q := M / 2 ^ N in
  let r := M mod 2 ^ N in
  match 2 * r ?= 2 ^ N with
  | Lt => q
  | Gt => q + 1
  | Eq => if Z.even q then q else q + 1
  end.

(** The location bits of a shift: how the dropped remainder [r] compares
    with half of the unit [P]. *)
Definition loc_of_rem (r P : Z) : location :=
  if r =? 0 then loc_Exact else loc_Inexact (2 * r ?= P).

(** [mrs] is [m] shifted right by [j] bits. *)
Definition shr_inv (m : Z) (j : Z) (mrs : shr_record) : Prop :=
  shr_m mrs = m / 2 ^ j /\ loc_of_shr_record mrs = loc_of_rem (m mod 2 ^ j) (2 ^ j).

(** The float with mantissa [k] and exponent [c], or infinity past the
    largest exponent. *)
Definition pack (k c : Z) : spec_float :=
  if k =? 0 then S754_zero false
  else if c <=? 971 then S754_finite false (Z.to_pos k) c
  else S754_infinity false.

(** The rounding of [m * 2^e], [m] positive, to binary64. *)
Definition round_pos (m e : Z) : spec_float :=
  let c := fexp prec emax (Zdigits2 m + e) in
  let k := rne_at m (c - e) in
  if k =? 2 ^ 53 then pack (2 ^ 52) (c + 1) else pack k c.

(** Non-negative and not NaN: [+0], a positive finite number or [+inf]. *)
Definition nn (x : spec_float) : bool :=
  match x with
  | S754_zero false | S754_infinity false | S754_finite false _ _ => true
  | _ => false
  end.

(** The value of a non-negative float in units of [2^-1074]; infinity sits
    above every finite value. *)
Definition nnval (x : spec_float) : Z :=
  match x with
  | S754_zero _ => 0
  | S754_finite _ m e => Z.pos m * 2 ^ (e + 1074)
  | S754_infinity _ => 2 ^ 2200
  | S754_nan => -1
  end.

(** The product is not [0 * inf]. *)
Definition mul_defined (x y : spec_float) : bool :=
  match x, y with
  | S754_zero _, S754_infinity _ | S754_infinity _, S754_zero _ => false
  | _, _ => true
  end.

Definition fnn (x : float) : bool := nn (Prim2SF x).

Definition fval (x : float) : Z := nnval (Prim2SF x).

Definition finite_pos (x : float) : bool :=
  match Prim2SF x with S754_finite false _ _ => true | _ => false end.

(** The five coefficients of a species are positive finite numbers. *)
Definition species_coefs_ok (s : Species.t) : bool :=
  finite_pos (Species.dbh_growth_in_per_year s)
  && finite_pos (Species.canopy_k_m_per_in s)
  && finite_pos (Species.carbon_kg_per_in_dbh s)
  && finite_pos (Species.stormwater_l_per_m2_canopy s)
  && finite_pos (Species.pollution_g_per_m2_canopy s).
End FloatVocabulary.

(** *** Vocabulary of the further properties *)

(** Both floats are non-negative and the first is at most the second. *)
Definition nn_le (x y : float) : Prop :=
  fnn x = true /\ fnn y = true /\ (fval x <= fval y)%Z.

(** [nn_le] on the four summed fields of two totals. *)
Definition totals_le (a b : Totals.t) : Prop :=
  nn_le (Totals.carbon_kg_per_year a) (Totals.carbon_kg_per_year b) /\
  nn_le (Totals.stormwater_l_per_year a) (Totals.stormwater_l_per_year b) /\
  nn_le (Totals.pollution_g_per_year a) (Totals.pollution_g_per_year b) /\
  nn_le (Totals.canopy_area_m2 a) (Totals.canopy_area_m2 b).

(** A stored tree with a catalog species and a diameter that is not negative. *)
Definition plantable (t : Tree.t) : Prop :=
  species_known t = true /\ (0 <=? Tree.dbh_in t)%float = true.

(** The value a field has after an update: converted from the payload when
    the payload names it, the stored value otherwise. *)
Definition field_or {A : Type} (conv : PyVal -> Res A) (payload : PyDict.t PyVal)
    (k : string) (old : A) : Res A :=
  match PyDict.get k payload with
  | Some v => conv v
  | None => Ok old
  end.

(** A stored tree whose snapshot is [annual_benefits] of its stored species
    and diameter, as an equation. *)
Definition consistent (t : Tree.t) : Prop :=
  annual_benefits (Tree.species_id t) (Tree.dbh_in t) = Ok (Tree.benefits t).

(** Every tree is stored under its own identifier, and no identifier is
    stored twice. *)
Definition keyed_by_id (d : PyDict.t Tree.t) : Prop :=
  Forall (fun kv => Tree.id (snd kv) = fst kv) d /\ NoDup (PyDict.keys d).

(** A handler run from a state with [P] either returns in a state with [P]
    or raises an exception with [Q]. *)
Definition raises_only (P : Scenario.t -> Prop) (Q : Exn -> Prop) {A} (m : Handler A) : Prop :=
  forall s, P s -> match fst (m s) with
                   | Ok _ => P (snd (m s))
                   | Raise e => Q e
                   end.

(** The exceptions of a rejected update of a stored tree: an unknown species
    named by the payload, or the error of [float] or [int] on a value the
    payload gives for a numeric field. *)
Definition update_rejection {B : Py.Builtins} (payload : PyDict.t PyVal) (e : Exn) : Prop :=
  (e = HTTPException 400 UnknownSpecies /\
   exists v, PyDict.get "species_id" payload = Some v /\
             PyDict.contains (Py.str v) SPECIES_BY_ID = false)
  \/ (exists k v pe, In k ["lon"; "lat"; "dbh_in"] /\ PyDict.get k payload = Some v /\
                     e = Uncaught pe /\ Py.float v = Raise (Uncaught pe))
  \/ (exists v pe, PyDict.get "planting_year" payload = Some v /\
                   e = Uncaught pe /\ Py.int v = Raise (Uncaught pe)).

(** The tree addressed by an update is stored, and every stored tree has a
    catalog species. *)
Definition update_ready (tree_id : string) (s : Scenario.t) : Prop :=
  PyDict.contains tree_id (Scenario.planted_trees s) = true /\
  Forall (fun t => species_known t = true) (PyDict.values (Scenario.planted_trees s)).

(** *** Reading a feature collection *)

(** The list under [features] of a returned collection. *)
Definition features_of (collection : PyVal) : list PyVal :=
  match collection with
  | PyObj fields =>
      match PyDict.get "features" fields with
      | Some (PyList features) => features
      | _ => []
      end
  | _ => []
  end.

(** The value a feature has under [properties.tree_id]. *)
Definition feature_tree_id (feature : PyVal) : PyVal :=
  match feature with
  | PyObj fields =>
      match PyDict.get "properties" fields with
      | Some (PyObj props) => Py.get_default props "tree_id" PyNone
      | _ => PyNone
      end
  | _ => PyNone
  end.

(** The feature carries a census identifier whose [str] is [tree_id]. *)
Definition names_tree {B : Py.Builtins} (tree_id : string) (feature : PyVal) : bool :=
  match feature_tree_id feature with
  | PyNone => false
  | v => String.eqb (Py.str v) tree_id
  end.

(** A GeoJSON point feature with the twelve census properties. *)
Definition census_feature (feature : PyVal) : Prop :=
  exists lon lat props,
    feature = make_feature lon lat props /\
    PyDict.keys props
    = ["source"; "tree_id"; "spc_common"; "spc_latin"; "health"; "status"; "tree_dbh";
       "steward"; "curb_loc"; "zipcode"; "boroname"; "nta"] /\
    PyDict.get "source" props = Some (PyStr "nyc_tree_census_2015").

(** A row that is a JSON object, the only kind with a [get]. *)
Definition is_object (v : PyVal) : bool :=
  match v with PyObj _ => true | _ => false end.

(** The rows of a response: the second has no usable coordinates. *)
Definition sample_rows : list PyVal :=
  [PyObj [("tree_id", PyStr "180683"); ("latitude", PyFloat 40.67);
          ("longitude", PyFloat (-73.99))];
   PyObj [("tree_id", PyStr "200540"); ("latitude", PyNone)];
   PyObj [("tree_id", PyStr "203719"); ("latitude", PyFloat 40.68);
          ("longitude", PyFloat (-73.98))]].

(** A successful response of the census endpoint with those rows. *)
Definition sample_response : Response.t :=
  {| Response.ok := true; Response.status_code := 200; Response.text := "";
     Response.json := Some (PyList sample_rows) |}.

(** The features one row contributes to the listing: one or none. *)
Definition row_features {B : Py.Builtins} (removed : PySet.t) (r : PyVal) : list PyVal :=
  match r with
  | PyObj f =>
      if is_removed removed (Py.get_default f "tree_id" PyNone) then []
      else match Py.float (Py.get_default f "latitude" PyNone),
                 Py.float (Py.get_default f "longitude" PyNone) with
           | Ok lat, Ok lon => [make_feature lon lat (props_of f)]
           | _, _ => []
           end
  | _ => []
  end.

(** [g] when the payload names [k], nothing otherwise. *)
Definition when_named (payload : PyDict.t PyVal) (k : string) (g : Tree.t -> Tree.t)
    (t : Tree.t) : Tree.t :=
  if PyDict.contains k payload then g t else t.

(** The field writes of an accepted update, in the order of the code. *)
Definition update_writes (payload : PyDict.t PyVal) (lon lat dbh : float) (year : Z)
    (sid : string) (b : Benefits.t) (t : Tree.t) : Tree.t :=
  Tree.set_benefits b
    (when_named payload "species_id" (Tree.set_species_id sid)
      (when_named payload "planting_year" (Tree.set_planting_year year)
        (when_named payload "dbh_in" (Tree.set_dbh_in dbh)
          (when_named payload "lat" (Tree.set_lat lat)
            (when_named payload "lon" (Tree.set_lon lon) t))))).

(** The species an update leaves on a tree: the one the payload names, or
    the stored one. *)
Definition species_after {B : Py.Builtins} (payload : PyDict.t PyVal) (old : string) : string :=
  match PyDict.get "species_id" payload with
  | Some v => Py.str v
  | None => old
  end.

(** The trace holds no request to remove a tree. *)
Definition no_removals (rs : list Request) : bool :=
  forallb (fun r => match r with ReqDelete _ => false | _ => true end) rs.

(** Every key of the store is an identifier whose size part is below the
    present size of the store. *)
Definition sized_keys (s : Scenario.t) : Prop :=
  Forall (fun k => exists t n, k = tree_id_of t n /\
                               (n < PyDict.len (Scenario.planted_trees s))%nat)
         (PyDict.keys (Scenario.planted_trees s)).

(* ================================================================== *)
(** * Proofs *)

(* ================================================================== *)
(** ** Binary64 rounding is monotone *)

Section Rounding.
#[local] Open Scope Z_scope.

Lemma digits2_pos_bounds (m : positive) :
  2 ^ (Z.pos (digits2_pos m) - 1) <= Z.pos m < 2 ^ Z.pos (digits2_pos m).
Proof.
  induction m as [m IH | m IH |]; cbn [digits2_pos].
  - rewrite Pos2Z.inj_succ.
    replace (Z.succ (Z.pos (digits2_pos m)) - 1) with (Z.succ (Z.pos (digits2_pos m) - 1)) by lia.
    rewrite !Z.pow_succ_r by lia. lia.
  - rewrite Pos2Z.inj_succ.
    replace (Z.succ (Z.pos (digits2_pos m)) - 1) with (Z.succ (Z.pos (digits2_pos m) - 1)) by lia.
    rewrite !Z.pow_succ_r by lia. lia.
  - cbn. lia.
Qed.

Lemma iter_pos_nat {A} (f : A -> A) (p : positive) (x : A) :
  iter_pos f p x = Nat.iter (Pos.to_nat p) f x.
Proof.
  revert x. induction p as [p IH | p IH |]; intro x; cbn [iter_pos].
  - rewrite !IH. rewrite Pos2Nat.inj_xI. cbn [Nat.iter Nat.mul].
    rewrite Nat.add_0_r, <- Nat.iter_add. 
    rewrite <- Nat.iter_succ_r. reflexivity.
  - rewrite !IH. rewrite Pos2Nat.inj_xO. cbn [Nat.mul]. rewrite Nat.add_0_r, <- Nat.iter_add. reflexivity.
  - reflexivity.
Qed.

Lemma pos_xI_div2 p : Z.pos p~1 / 2 = Z.pos p /\ Z.pos p~1 mod 2 = 1.
Proof.
  rewrite Pos2Z.inj_xI. split.
  - symmetry. apply Z.div_unique with 1; lia.
  - symmetry. apply Z.mod_unique with (Z.pos p); lia.
Qed.

Lemma pos_xO_div2 p : Z.pos p~0 / 2 = Z.pos p /\ Z.pos p~0 mod 2 = 0.
Proof.
  rewrite Pos2Z.inj_xO. split.
  - symmetry. apply Z.div_unique with 0; lia.
  - symmetry. apply Z.mod_unique with (Z.pos p); lia.
Qed.

Lemma shr_1_inv m j mrs : 0 <= m -> 0 <= j ->
  shr_inv m j mrs -> shr_inv m (j + 1) (shr_1 mrs).
Proof.
  intros Hm Hj [Hq Hl].
  assert (Hp : 0 < 2 ^ j) by (apply Z.pow_pos_nonneg; lia).
  assert (Hpow : 2 ^ (j + 1) = 2 * 2 ^ j) by (rewrite Z.pow_add_r by lia; lia).
  pose proof (Z.div_mod m (2 ^ j) ltac:(lia)) as Hdm.
  pose proof (Z.mod_pos_bound m (2 ^ j) Hp) as Hrb.
  pose proof (Z.div_pos m (2 ^ j) Hm Hp) as Hq0.
  set (q := m / 2 ^ j) in *. set (r := m mod 2 ^ j) in *.
  assert (Hq' : m / 2 ^ (j + 1) = q / 2).
  { rewrite Hpow. rewrite Z.mul_comm. rewrite <- Z.div_div by lia. reflexivity. }
  assert (Hr' : m mod 2 ^ (j + 1) = r + (q mod 2) * 2 ^ j).
  { rewrite Hpow. rewrite Z.mul_comm. rewrite Z.rem_mul_r by lia. fold q r. lia. }
  unfold shr_inv. rewrite Hq', Hr', Hpow.
  pose proof (Z.div_mod q 2 ltac:(lia)) as Hq2.
  pose proof (Z.mod_pos_bound q 2 ltac:(lia)) as Hb.
  destruct mrs as [mm rr ss]. cbn [shr_m] in Hq. subst mm.
  unfold loc_of_rem in *.
  assert (Hs : orb rr ss = negb (r =? 0)).
  { destruct rr, ss; cbn in Hl |- *; destruct (r =? 0); try discriminate; reflexivity. }
  clear Hl.
  destruct q as [|p|p]; [ | | lia].
  - cbn [shr_1 shr_m loc_of_shr_record]. rewrite Hs. change (0 / 2) with 0. change (0 mod 2) with 0.
    split; [reflexivity|]. rewrite Z.mul_0_l, Z.add_0_r.
    destruct (Z.eqb_spec r 0); cbn -[Z.mul Z.pow Z.compare Z.add]; [reflexivity|].
    f_equal. symmetry. apply Z.compare_lt_iff. lia.
  - destruct p as [p|p|]; cbn [shr_1 shr_m loc_of_shr_record]; rewrite Hs.
    + destruct (pos_xI_div2 p) as [-> ->].
      split; [reflexivity|].
      destruct (Z.eqb_spec (r + 1 * 2 ^ j) 0); [lia|].
      destruct (Z.eqb_spec r 0); cbn -[Z.mul Z.pow Z.compare Z.add]; f_equal; symmetry.
      * apply Z.compare_eq_iff. lia.
      * apply Z.compare_gt_iff. lia.
    + destruct (pos_xO_div2 p) as [-> ->].
      split; [reflexivity|]. rewrite Z.mul_0_l, Z.add_0_r.
      destruct (Z.eqb_spec r 0); cbn -[Z.mul Z.pow Z.compare Z.add]; [reflexivity|].
      f_equal. symmetry. apply Z.compare_lt_iff. lia.
    + change (1 / 2) with 0. change (1 mod 2) with 1.
      split; [reflexivity|].
      destruct (Z.eqb_spec (r + 1 * 2 ^ j) 0); [lia|].
      destruct (Z.eqb_spec r 0); cbn -[Z.mul Z.pow Z.compare Z.add]; f_equal; symmetry.
      * apply Z.compare_eq_iff. lia.
      * apply Z.compare_gt_iff. lia.
Qed.

Lemma shr_iter_inv m mrs (n : nat) : 0 <= m ->
  shr_inv m 0 mrs -> shr_inv m (Z.of_nat n) (Nat.iter n shr_1 mrs).
Proof.
  intros Hm H0. induction n as [|n IH]; [exact H0|].
  rewrite Nat2Z.inj_succ, <- Z.add_1_r. cbn [Nat.iter].
  apply shr_1_inv; [assumption | lia | assumption].
Qed.

Lemma shr_inv_init m : shr_inv m 0 (shr_record_of_loc m loc_Exact).
Proof.
  unfold shr_inv. cbn [shr_record_of_loc shr_m loc_of_shr_record].
  rewrite Z.pow_0_r, Z.div_1_r, Z.mod_1_r. split; reflexivity.
Qed.

Lemma shr_exact_inv m e n : 0 <= m -> 0 <= n ->
  shr_inv m n (fst (shr (shr_record_of_loc m loc_Exact) e n)) /\
  snd (shr (shr_record_of_loc m loc_Exact) e n) = e + n.
Proof.
  intros Hm Hn. destruct n as [|p|p]; [ | | lia]; cbn [shr fst snd].
  - split; [apply shr_inv_init | lia].
  - split; [|reflexivity]. rewrite iter_pos_nat, <- positive_nat_Z.
    apply shr_iter_inv; [assumption | apply shr_inv_init].
Qed.

Lemma round_of_shr_inv m j mrs : 0 <= j -> shr_inv m j mrs ->
  round_nearest_even (shr_m mrs) (loc_of_shr_record mrs) = rne_at m j.
Proof.
  intros Hj [Hq Hl]. rewrite Hq, Hl. unfold rne_at, loc_of_rem.
  assert (Hp : 0 < 2 ^ j) by (apply Z.pow_pos_nonneg; lia).
  destruct (Z.eqb_spec (m mod 2 ^ j) 0) as [E | E].
  - rewrite E, Z.mul_0_r. cbn [round_nearest_even].
    destruct (Z.compare_spec 0 (2 ^ j)); [lia | reflexivity | lia].
  - cbn [round_nearest_even]. destruct (2 * (m mod 2 ^ j) ?= 2 ^ j); reflexivity.
Qed.

Lemma rne_at_bounds M N : M / 2 ^ N <= rne_at M N <= M / 2 ^ N + 1.
Proof.
  unfold rne_at. destruct (2 * (M mod 2 ^ N) ?= 2 ^ N); [destruct (Z.even _) | | ]; lia.
Qed.

Lemma rne_at_scale m n j : 0 <= n -> 0 <= j ->
  rne_at (m * 2 ^ j) (n + j) = rne_at m n.
Proof.
  intros Hn Hj. unfold rne_at.
  assert (Hp : 0 < 2 ^ j) by (apply Z.pow_pos_nonneg; lia).
  assert (Hq : 0 < 2 ^ n) by (apply Z.pow_pos_nonneg; lia).
  rewrite Z.pow_add_r by assumption.
  rewrite Z.div_mul_cancel_r by lia.
  rewrite Z.mul_mod_distr_r by lia.
  rewrite Z.mul_assoc, <- Zmult_compare_compat_r by lia.
  reflexivity.
Qed.

Lemma rne_at_mono M1 M2 N : 0 <= N -> M1 <= M2 -> rne_at M1 N <= rne_at M2 N.
Proof.
  intros HN HM.
  assert (Hp : 0 < 2 ^ N) by (apply Z.pow_pos_nonneg; lia).
  pose proof (Z.div_le_mono M1 M2 (2 ^ N) Hp HM) as Hq.
  destruct (Z.eq_dec (M1 / 2 ^ N) (M2 / 2 ^ N)) as [E | E].
  - pose proof (Z.div_mod M1 (2 ^ N) ltac:(lia)) as D1.
    pose proof (Z.div_mod M2 (2 ^ N) ltac:(lia)) as D2.
    unfold rne_at. rewrite <- E in *.
    destruct (Z.compare_spec (2 * (M1 mod 2 ^ N)) (2 ^ N));
      destruct (Z.compare_spec (2 * (M2 mod 2 ^ N)) (2 ^ N));
      destruct (Z.even (M1 / 2 ^ N)); lia.
  - pose proof (rne_at_bounds M1 N). pose proof (rne_at_bounds M2 N). lia.
Qed.

Lemma fexp_ge_emin x : -1074 <= fexp prec emax x.
Proof. unfold fexp, SpecFloat.emin, prec, emax. lia. Qed.

Lemma fexp_eq x : fexp prec emax x = Z.max (x - 53) (-1074).
Proof. reflexivity. Qed.

Lemma rne_at_small m n d : 0 < m -> 0 <= n -> m < 2 ^ d -> d - n <= 53 ->
  0 <= rne_at m n <= 2 ^ 53.
Proof.
  intros Hm Hn Hd Hdn.
  assert (Hp : 0 < 2 ^ n) by (apply Z.pow_pos_nonneg; lia).
  pose proof (rne_at_bounds m n) as Hb.
  pose proof (Z.div_pos m (2 ^ n) ltac:(lia) Hp).
  assert (m / 2 ^ n < 2 ^ 53); [|lia].
  apply Z.div_lt_upper_bound; [assumption|].
  rewrite <- Z.pow_add_r by lia.
  eapply Z.lt_le_trans; [exact Hd|]. apply Z.pow_le_mono_r; lia.
Qed.

Lemma binary_round_aux_pos (m : positive) (e : Z) :
  e <= fexp prec emax (Z.pos (digits2_pos m) + e) ->
  binary_round_aux prec emax false (Z.pos m) e loc_Exact = round_pos (Z.pos m) e.
Proof.
  intro Hc. unfold binary_round_aux, round_pos, shr_fexp.
  cbn [Zdigits2].
  set (c := fexp prec emax (Z.pos (digits2_pos m) + e)) in *.
  destruct (shr_exact_inv (Z.pos m) e (c - e) ltac:(lia) ltac:(lia)) as [Hinv He].
  destruct (shr (shr_record_of_loc (Z.pos m) loc_Exact) e (c - e)) as [mrs e'].
  cbn [fst snd] in Hinv, He. subst e'.
  rewrite (round_of_shr_inv (Z.pos m) (c - e) mrs ltac:(lia) Hinv).
  replace (e + (c - e)) with c by lia.
  pose proof (digits2_pos_bounds m) as [_ Hd].
  assert (Hcd : Z.pos (digits2_pos m) - (c - e) <= 53).
  { unfold c. rewrite fexp_eq. lia. }
  pose proof (rne_at_small (Z.pos m) (c - e) _ ltac:(lia) ltac:(lia) Hd Hcd) as Hk.
  pose proof (fexp_ge_emin (Z.pos (digits2_pos m) + e)) as Hcmin. fold c in Hcmin.
  set (k := rne_at (Z.pos m) (c - e)) in *.
  unfold pack.
  destruct (Z.eqb_spec k 0) as [K0 | K0].
  - rewrite K0. cbn [Zdigits2]. rewrite fexp_eq. change (0 =? 2 ^ 53) with false. cbv iota.
    assert (Hn : Z.max (0 + c - 53) (-1074) - c <= 0) by lia.
    destruct (Z.max (0 + c - 53) (-1074) - c) as [|p|p]; [ | lia | ]; reflexivity.
  - destruct (Z.eqb_spec k (2 ^ 53)) as [K1 | K1].
    + rewrite K1. change (Zdigits2 (2 ^ 53)) with 54. rewrite fexp_eq.
      replace (Z.max (54 + c - 53) (-1074) - c) with 1 by lia.
      cbn [shr shr_record_of_loc iter_pos]. 
      change (shr_m (shr_1 {| shr_m := 2 ^ 53; shr_r := false; shr_s := false |})) with (Z.pos (2 ^ 52)).
      cbv beta iota. change (emax - prec) with 971. reflexivity.
    + change (2 ^ 53 =? 0) with false in *. cbv iota.
      destruct k as [|kp|kp]; [lia | | lia].
      cbn [Zdigits2]. rewrite fexp_eq.
      pose proof (digits2_pos_bounds kp) as [Hkd _].
      assert (Z.pos (digits2_pos kp) <= 53).
      { destruct (Z.le_gt_cases (Z.pos (digits2_pos kp)) 53) as [L | G]; [exact L|].
        exfalso. assert (2 ^ 53 <= 2 ^ (Z.pos (digits2_pos kp) - 1)) by (apply Z.pow_le_mono_r; lia). lia. }
      assert (Hn : Z.max (Z.pos (digits2_pos kp) + c - 53) (-1074) - c <= 0) by lia.
      destruct (Z.max (Z.pos (digits2_pos kp) + c - 53) (-1074) - c) as [|p|p]; [ | lia | ];
        cbn [shr shr_record_of_loc shr_m]; change (emax - prec) with 971; reflexivity.
Qed.

Lemma pack_le k1 x1 k2 x2 :
  0 <= k1 -> 0 <= k2 ->
  k1 = 0 \/ (0 < k2 /\ (x1 < x2 \/ (x1 = x2 /\ k1 <= k2))) ->
  SFleb (pack k1 x1) (pack k2 x2) = true.
Proof.
  intros H1 H2 H. unfold pack.
  destruct (Z.eqb_spec k1 0) as [K1 | K1].
  - destruct (k2 =? 0); [reflexivity|]. destruct (x2 <=? 971); reflexivity.
  - destruct H as [H | [Hk2 H]]; [contradiction|].
    destruct (Z.eqb_spec k2 0) as [K2 | K2]; [lia|].
    destruct (Z.leb_spec x1 971) as [L1 | L1]; destruct (Z.leb_spec x2 971) as [L2 | L2];
      try reflexivity; try lia.
    unfold SFleb, SFcompare.
    destruct (Z.compare_spec x1 x2) as [E | L | G]; [ | reflexivity | lia].
    destruct H as [H | [_ H]]; [lia|].
    rewrite Pos.compare_cont_spec; cbn [Pos.switch_Eq].
    assert (Z.to_pos k1 <= Z.to_pos k2)%positive as Hle by lia.
    apply Pos.compare_le_iff in Hle.
    destruct (Z.to_pos k1 ?= Z.to_pos k2)%positive; [reflexivity | reflexivity | contradiction].
Qed.

Lemma round_pos_mono m1 e1 m2 e2 E :
  0 < m1 -> 0 < m2 -> E <= e1 -> E <= e2 ->
  e1 <= fexp prec emax (Zdigits2 m1 + e1) ->
  e2 <= fexp prec emax (Zdigits2 m2 + e2) ->
  m1 * 2 ^ (e1 - E) <= m2 * 2 ^ (e2 - E) ->
  SFleb (round_pos m1 e1) (round_pos m2 e2) = true.
Proof.
  intros Hm1 Hm2 He1 He2 Hc1 Hc2 Hle.
  destruct m1 as [|p1|p1]; [lia | | lia]. destruct m2 as [|p2|p2]; [lia | | lia].
  unfold round_pos. cbn [Zdigits2] in *.
  pose proof (digits2_pos_bounds p1) as [Hd1l Hd1u].
  pose proof (digits2_pos_bounds p2) as [Hd2l Hd2u].
  set (d1 := Z.pos (digits2_pos p1)) in *. set (d2 := Z.pos (digits2_pos p2)) in *.
  assert (Hd1 : 0 < d1) by (unfold d1; lia). assert (Hd2 : 0 < d2) by (unfold d2; lia).
  assert (Hmag : d1 + e1 <= d2 + e2).
  { assert (2 ^ (d1 - 1 + (e1 - E)) < 2 ^ (d2 + (e2 - E))) as Hlt.
    { rewrite !Z.pow_add_r by lia.
      eapply Z.le_lt_trans; [ apply Z.mul_le_mono_nonneg_r; [apply Z.pow_nonneg; lia | exact Hd1l] |].
      eapply Z.le_lt_trans; [ exact Hle |].
      apply Z.mul_lt_mono_pos_r; [apply Z.pow_pos_nonneg; lia | exact Hd2u]. }
    apply Z.pow_lt_mono_r_iff in Hlt; lia. }
  rewrite !fexp_eq in *.
  set (c1 := Z.max (d1 + e1 - 53) (-1074)) in *.
  set (c2 := Z.max (d2 + e2 - 53) (-1074)) in *.
  assert (Hc12 : c1 <= c2) by lia.
  assert (Hcd1 : d1 - (c1 - e1) <= 53) by lia.
  assert (Hcd2 : d2 - (c2 - e2) <= 53) by lia.
  pose proof (rne_at_small (Z.pos p1) (c1 - e1) d1 ltac:(lia) ltac:(lia) Hd1u Hcd1) as Hk1.
  pose proof (rne_at_small (Z.pos p2) (c2 - e2) d2 ltac:(lia) ltac:(lia) Hd2u Hcd2) as Hk2.
  assert (Hcases : (c1 = c2 /\ rne_at (Z.pos p1) (c1 - e1) <= rne_at (Z.pos p2) (c2 - e2))
                   \/ (c1 < c2 /\ 2 ^ 52 <= rne_at (Z.pos p2) (c2 - e2))).
  { destruct (Z.eq_dec c1 c2) as [Ec | Nc]; [left | right]; split; try lia.
    - rewrite <- (rne_at_scale (Z.pos p1) (c1 - e1) (e1 - E)) by lia.
      rewrite <- (rne_at_scale (Z.pos p2) (c2 - e2) (e2 - E)) by lia.
      replace (c1 - e1 + (e1 - E)) with (c2 - E) by lia.
      replace (c2 - e2 + (e2 - E)) with (c2 - E) by lia.
      apply rne_at_mono; [lia | exact Hle].
    - assert (Hn2 : c2 - e2 = d2 - 53) by lia. rewrite Hn2.
      eapply Z.le_trans; [| apply rne_at_bounds].
      apply Z.div_le_lower_bound; [apply Z.pow_pos_nonneg; lia|].
      rewrite <- Z.pow_add_r by lia. replace (d2 - 53 + 52) with (d2 - 1) by lia. exact Hd2l. }
  set (k1 := rne_at (Z.pos p1) (c1 - e1)) in *.
  set (k2 := rne_at (Z.pos p2) (c2 - e2)) in *.
  assert (P52 : 2 ^ 52 = 4503599627370496) by reflexivity.
  assert (P53 : 2 ^ 53 = 9007199254740992) by reflexivity.
  rewrite P52, P53 in *.
  destruct (Z.eqb_spec k1 9007199254740992); destruct (Z.eqb_spec k2 9007199254740992);
    apply pack_le; lia.
Qed.

Lemma bounded_facts m e : bounded prec emax m e = true ->
  -1074 <= e <= 971 /\ Z.pos (digits2_pos m) <= 53 /\
  (Z.pos (digits2_pos m) = 53 \/ e = -1074).
Proof.
  unfold bounded, canonical_mantissa. rewrite andb_true_iff, Z.eqb_eq, Z.leb_le, fexp_eq.
  change (emax - prec) with 971. lia.
Qed.

Lemma nnval_finite_bounds s m e : -1074 <= e ->
  2 ^ (Z.pos (digits2_pos m) - 1 + (e + 1074)) <= nnval (S754_finite s m e)
    < 2 ^ (Z.pos (digits2_pos m) + (e + 1074)).
Proof.
  intro He. cbn [nnval]. pose proof (digits2_pos_bounds m) as [Hl Hu].
  assert (0 < 2 ^ (e + 1074)) by (apply Z.pow_pos_nonneg; lia).
  rewrite (Z.pow_add_r 2 (Z.pos (digits2_pos m) - 1)) by lia.
  rewrite (Z.pow_add_r 2 (Z.pos (digits2_pos m))) by lia.
  split.
  - apply Z.mul_le_mono_nonneg_r; lia.
  - apply Zmult_lt_compat_r; lia.
Qed.

Lemma nnval_finite_lt_big s m e : bounded prec emax m e = true ->
  0 < nnval (S754_finite s m e) < 2 ^ 2200.
Proof.
  intro Hb. destruct (bounded_facts _ _ Hb) as (He & Hd & _).
  pose proof (nnval_finite_bounds s m e ltac:(lia)) as [Hl Hu]. split.
  - eapply Z.lt_le_trans; [| exact Hl]. apply Z.pow_pos_nonneg; lia.
  - eapply Z.lt_le_trans; [exact Hu|]. apply Z.pow_le_mono_r; lia.
Qed.

Lemma SFcompare_nnval x y :
  nn x = true -> nn y = true ->
  valid_binary x = true -> valid_binary y = true ->
  SFcompare x y = Some (nnval x ?= nnval y).
Proof.
  intros Nx Ny Vx Vy.
  destruct x as [[|]|[|]| |[|] m1 e1]; try discriminate Nx;
  destruct y as [[|]|[|]| |[|] m2 e2]; try discriminate Ny;
  cbn [valid_binary] in Vx, Vy; cbn [SFcompare]; f_equal; symmetry;
  try reflexivity;
  try (pose proof (nnval_finite_lt_big false m1 e1 Vx));
  try (pose proof (nnval_finite_lt_big false m2 e2 Vy));
  try solve [ first [apply Z.compare_lt_iff | apply Z.compare_gt_iff];
              cbn [nnval] in *; lia ].
  - destruct (bounded_facts _ _ Vx) as (He1 & Hd1 & Hn1).
    destruct (bounded_facts _ _ Vy) as (He2 & Hd2 & Hn2).
    pose proof (nnval_finite_bounds false m1 e1 ltac:(lia)) as [Hl1 Hu1].
    pose proof (nnval_finite_bounds false m2 e2 ltac:(lia)) as [Hl2 Hu2].
    destruct (Z.compare_spec e1 e2) as [E | L | G].
    + subst e2. rewrite Pos.compare_cont_spec. cbn [Pos.switch_Eq nnval].
      rewrite <- Zmult_compare_compat_r by (apply Z.lt_gt, Z.pow_pos_nonneg; lia).
      change (Z.pos m1 ?= Z.pos m2) with (m1 ?= m2)%positive.
      destruct (m1 ?= m2)%positive; reflexivity.
    + apply Z.compare_lt_iff.
      eapply Z.lt_le_trans; [exact Hu1|]. eapply Z.le_trans; [|exact Hl2].
      apply Z.pow_le_mono_r; lia.
    + apply Z.compare_gt_iff.
      eapply Z.lt_le_trans; [exact Hu2|]. eapply Z.le_trans; [|exact Hl1].
      apply Z.pow_le_mono_r; lia.
Qed.

Lemma SFleb_nnval x y :
  nn x = true -> nn y = true ->
  valid_binary x = true -> valid_binary y = true ->
  SFleb x y = (nnval x <=? nnval y).
Proof.
  intros. unfold SFleb. rewrite SFcompare_nnval by assumption.
  unfold Z.leb. destruct (nnval x ?= nnval y); reflexivity.
Qed.

Lemma SFltb_nnval x y :
  nn x = true -> nn y = true ->
  valid_binary x = true -> valid_binary y = true ->
  SFltb x y = (nnval x <? nnval y).
Proof.
  intros. unfold SFltb. rewrite SFcompare_nnval by assumption.
  unfold Z.ltb. destruct (nnval x ?= nnval y); reflexivity.
Qed.

(* ---------- multiplication of non-negative floats is monotone ---------- *)

Lemma mul_shift_ok m1 e1 m2 e2 :
  bounded prec emax m1 e1 = true -> bounded prec emax m2 e2 = true ->
  e1 + e2 <= fexp prec emax (Z.pos (digits2_pos (m1 * m2)) + (e1 + e2)).
Proof.
  intros B1 B2.
  destruct (bounded_facts _ _ B1) as (He1 & Hd1 & Hn1).
  destruct (bounded_facts _ _ B2) as (He2 & Hd2 & Hn2).
  pose proof (digits2_pos_bounds m1) as [Hl1 _].
  pose proof (digits2_pos_bounds m2) as [Hl2 _].
  pose proof (digits2_pos_bounds (m1 * m2)) as [_ Hu].
  set (d1 := Z.pos (digits2_pos m1)) in *. set (d2 := Z.pos (digits2_pos m2)) in *.
  set (d := Z.pos (digits2_pos (m1 * m2))) in *.
  assert (Hd : d1 + d2 - 1 <= d).
  { assert (2 ^ (d1 - 1 + (d2 - 1)) < 2 ^ d) as Hlt.
    { rewrite Z.pow_add_r by (unfold d1, d2; lia).
      eapply Z.le_lt_trans; [| exact Hu]. rewrite Pos2Z.inj_mul.
      apply Z.mul_le_mono_nonneg; try assumption; apply Z.pow_nonneg; lia. }
    apply Z.pow_lt_mono_r_iff in Hlt; unfold d; lia. }
  rewrite fexp_eq. assert (0 < d1) by (unfold d1; lia). assert (0 < d2) by (unfold d2; lia). lia.
Qed.

Lemma scaled_mul m1 e1 m2 e2 : -1074 <= e1 -> -1074 <= e2 ->
  Z.pos (m1 * m2) * 2 ^ (e1 + e2 - -2148)
  = (Z.pos m1 * 2 ^ (e1 + 1074)) * (Z.pos m2 * 2 ^ (e2 + 1074)).
Proof.
  intros H1 H2. replace (e1 + e2 - -2148) with ((e1 + 1074) + (e2 + 1074)) by lia.
  rewrite Z.pow_add_r by lia. rewrite Pos2Z.inj_mul. ring.
Qed.

Lemma SFmul_finite_nn m1 e1 m2 e2 :
  bounded prec emax m1 e1 = true -> bounded prec emax m2 e2 = true ->
  SFmul prec emax (S754_finite false m1 e1) (S754_finite false m2 e2)
  = round_pos (Z.pos (m1 * m2)) (e1 + e2).
Proof.
  intros B1 B2. cbn [SFmul xorb]. apply binary_round_aux_pos, mul_shift_ok; assumption.
Qed.

Lemma nn_pack k c : nn (pack k c) = true.
Proof. unfold pack. destruct (k =? 0); [reflexivity|]. destruct (c <=? 971); reflexivity. Qed.

Lemma nn_round_pos m e : nn (round_pos m e) = true.
Proof. unfold round_pos. destruct (_ =? _); apply nn_pack. Qed.

Lemma SFleb_zero_nn y : nn y = true -> SFleb (S754_zero false) y = true.
Proof. destruct y as [[|]|[|]| |[|] m e]; try discriminate; reflexivity. Qed.

Lemma SFleb_nn_inf x : nn x = true -> SFleb x (S754_infinity false) = true.
Proof. destruct x as [[|]|[|]| |[|] m e]; try discriminate; reflexivity. Qed.

Lemma SFmul_nn_mono a a' b b' :
  valid_binary a = true -> valid_binary a' = true ->
  valid_binary b = true -> valid_binary b' = true ->
  nn a = true -> nn a' = true -> nn b = true -> nn b' = true ->
  SFleb a a' = true -> SFleb b b' = true ->
  mul_defined a b = true -> mul_defined a' b' = true ->
  nn (SFmul prec emax a b) = true /\ nn (SFmul prec emax a' b') = true /\
  SFleb (SFmul prec emax a b) (SFmul prec emax a' b') = true.
Proof.
  intros Va Va' Vb Vb' Na Na' Nb Nb' Laa Lbb Dab Dab'.
  pose proof (SFleb_nnval a a' Na Na' Va Va') as Haa. rewrite Laa in Haa.
  pose proof (SFleb_nnval b b' Nb Nb' Vb Vb') as Hbb. rewrite Lbb in Hbb.
  symmetry in Haa, Hbb. apply Z.leb_le in Haa, Hbb.
  destruct a as [[|]|[|]| |[|] ma ea]; try discriminate Na;
  destruct a' as [[|]|[|]| |[|] ma' ea']; try discriminate Na'; try discriminate Laa;
  destruct b as [[|]|[|]| |[|] mb eb]; try discriminate Nb; try discriminate Dab;
  destruct b' as [[|]|[|]| |[|] mb' eb']; try discriminate Nb'; try discriminate Lbb;
    try discriminate Dab';
  cbn [valid_binary] in Va, Va', Vb, Vb';
  rewrite ?SFmul_finite_nn by assumption;
  try (split; [| split]; first [ reflexivity | apply nn_round_pos
                              | apply SFleb_zero_nn, nn_round_pos
                              | apply SFleb_nn_inf, nn_round_pos ]).
  split; [apply nn_round_pos | split; [apply nn_round_pos|]].
  destruct (bounded_facts _ _ Va) as (Hea & _). destruct (bounded_facts _ _ Va') as (Hea' & _).
  destruct (bounded_facts _ _ Vb) as (Heb & _). destruct (bounded_facts _ _ Vb') as (Heb' & _).
  apply round_pos_mono with (E := -2148); try lia.
  - cbn [Zdigits2]. apply mul_shift_ok; assumption.
  - cbn [Zdigits2]. apply mul_shift_ok; assumption.
  - cbn [nnval] in Haa, Hbb. rewrite !scaled_mul by lia.
    assert (0 < 2 ^ (ea + 1074)) by (apply Z.pow_pos_nonneg; lia).
    assert (0 < 2 ^ (eb + 1074)) by (apply Z.pow_pos_nonneg; lia).
    apply Z.mul_le_mono_nonneg; try assumption; apply Z.mul_nonneg_nonneg; lia.
Qed.

End Rounding.

(* ================================================================== *)
(** ** The order of non-negative primitive floats *)

Section FloatOrder.
#[local] Open Scope Z_scope.

Lemma leb_fval x y : fnn x = true -> fnn y = true -> (x <=? y)%float = (fval x <=? fval y).
Proof.
  intros Hx Hy. rewrite leb_spec. apply SFleb_nnval; auto using Prim2SF_valid.
Qed.

Lemma ltb_fval x y : fnn x = true -> fnn y = true -> (x <? y)%float = (fval x <? fval y).
Proof.
  intros Hx Hy. rewrite ltb_spec. apply SFltb_nnval; auto using Prim2SF_valid.
Qed.

Lemma fval_nonneg x : fnn x = true -> 0 <= fval x.
Proof.
  unfold fnn, fval. intro H. pose proof (Prim2SF_valid x) as V.
  destruct (Prim2SF x) as [[|]|[|]| |[|] m e]; try discriminate; cbn [nnval]; try lia.
  all: pose proof (nnval_finite_lt_big false m e V); cbn [nnval] in *; lia.
Qed.

Lemma finite_pos_fnn k : finite_pos k = true -> fnn k = true /\ 0 < fval k < 2 ^ 2200.
Proof.
  unfold finite_pos, fnn, fval. intro H. pose proof (Prim2SF_valid k) as V.
  destruct (Prim2SF k) as [[|]|[|]| |[|] m e]; try discriminate. split; [reflexivity|].
  apply nnval_finite_lt_big. exact V.
Qed.

Lemma mul_defined_of_pos x y : nn x = true -> nn y = true ->
  (0 < nnval x /\ 0 < nnval y) \/ 0 < nnval x < 2 ^ 2200 -> mul_defined x y = true.
Proof.
  intros Hx Hy H.
  destruct x as [[|]|[|]| |[|] m1 e1]; try discriminate;
  destruct y as [[|]|[|]| |[|] m2 e2]; try discriminate; try reflexivity;
  cbn [nnval] in H; lia.
Qed.

Lemma mul_mono a a' b b' :
  fnn a = true -> fnn a' = true -> fnn b = true -> fnn b' = true ->
  fval a <= fval a' -> fval b <= fval b' ->
  (0 < fval a /\ 0 < fval b) \/ 0 < fval a < 2 ^ 2200 ->
  (0 < fval a' /\ 0 < fval b') \/ 0 < fval a' < 2 ^ 2200 ->
  fnn (a * b) = true /\ fnn (a' * b') = true /\ fval (a * b) <= fval (a' * b').
Proof.
  intros Na Na' Nb Nb' Haa Hbb D D'.
  destruct (SFmul_nn_mono (Prim2SF a) (Prim2SF a') (Prim2SF b) (Prim2SF b'))
    as (N1 & N2 & L); auto using Prim2SF_valid.
  - rewrite <- leb_spec, leb_fval by assumption. apply Z.leb_le; assumption.
  - rewrite <- leb_spec, leb_fval by assumption. apply Z.leb_le; assumption.
  - apply mul_defined_of_pos; assumption.
  - apply mul_defined_of_pos; assumption.
  - unfold fnn. rewrite !mul_spec. unfold SF64mul. split; [exact N1 | split; [exact N2 |]].
    apply Z.leb_le. rewrite <- leb_fval by (unfold fnn; rewrite mul_spec; assumption).
    rewrite leb_spec, !mul_spec. exact L.
Qed.

End FloatOrder.

#[local] Open Scope Z_scope.
#[local] Open Scope float_scope.

(* ================================================================== *)
(** ** The benefit model *)
Lemma catalog_cases sid sp : PyDict.get sid SPECIES_BY_ID = Some sp ->
  In sp SPECIES_DB /\ Species.species_id sp = sid.
Proof.
  change SPECIES_BY_ID with
    (map (fun s => (Species.species_id s, s)) SPECIES_DB).
  unfold SPECIES_DB. cbn [map PyDict.get].
  change (Species.species_id red_maple) with "red_maple".
  change (Species.species_id london_plane) with "london_plane".
  change (Species.species_id ginkgo) with "ginkgo".
  destruct (String.eqb_spec sid "red_maple") as [-> | _].
  { intros [= <-]. split; [left; reflexivity | reflexivity]. }
  destruct (String.eqb_spec sid "london_plane") as [-> | _].
  { intros [= <-]. split; [right; left; reflexivity | reflexivity]. }
  destruct (String.eqb_spec sid "ginkgo") as [-> | _].
  { intros [= <-]. split; [right; right; left; reflexivity | reflexivity]. }
  discriminate.
Qed.

Lemma catalog_coefs_ok sid sp : PyDict.get sid SPECIES_BY_ID = Some sp ->
  species_coefs_ok sp = true.
Proof.
  intro H. apply catalog_cases in H as [Hin _].
  repeat (destruct Hin as [<- | Hin]; [vm_compute; reflexivity|]). destruct Hin.
Qed.

Lemma species_lookup_ok sid sp : PyDict.get sid SPECIES_BY_ID = Some sp ->
  species_lookup sid = Ok sp.
Proof. unfold species_lookup. intros ->. reflexivity. Qed.

Lemma SFltb_SFleb x y : SFltb x y = true -> SFleb x y = true.
Proof. unfold SFltb, SFleb. destruct (SFcompare x y) as [[| |]|]; congruence. Qed.

Lemma ltb_leb x y : (x <? y) = true -> (x <=? y) = true.
Proof. rewrite ltb_spec, leb_spec. apply SFltb_SFleb. Qed.

Lemma max_ge_left a b : (a <=? a) = true -> (a <=? Py.max a b) = true.
Proof.
  intro Ha. unfold Py.max. destruct (a <? b) eqn:E; [apply ltb_leb; exact E | exact Ha].
Qed.

Lemma max0_cases d :
  ((0 <? d) = true /\ Py.max 0 d = d /\ fnn d = true /\ (0 < fval d)%Z)
  \/ ((0 <? d) = false /\ Py.max 0 d = 0).
Proof.
  unfold Py.max. destruct (0 <? d) eqn:E; [left | right; split; reflexivity].
  split; [reflexivity | split; [reflexivity|]].
  rewrite ltb_spec in E. change (Prim2SF 0) with (S754_zero false) in E.
  unfold fnn, fval. pose proof (Prim2SF_valid d) as V.
  destruct (Prim2SF d) as [[|]|[|]| |[|] m e]; try discriminate E; split; try reflexivity.
  all: first [ apply nnval_finite_lt_big; exact V
             | cbn [nnval]; apply Z.pow_pos_nonneg; lia ].
Qed.

Lemma fnn_zero : fnn 0 = true.
Proof. reflexivity. Qed.

Lemma fval_zero : fval 0 = 0%Z.
Proof. reflexivity. Qed.

Lemma max0_nn d : fnn (Py.max 0 d) = true.
Proof. destruct (max0_cases d) as [(_ & -> & H & _) | (_ & ->)]; [exact H | reflexivity]. Qed.

Lemma pos_leb_pos d1 d2 : (0 <? d1) = true -> (d1 <=? d2) = true -> (0 <? d2) = true.
Proof.
  rewrite !ltb_spec, leb_spec. change (Prim2SF 0) with (S754_zero false).
  destruct (Prim2SF d1) as [[|]|[|]| |[|] m1 e1]; try discriminate;
  destruct (Prim2SF d2) as [[|]|[|]| |[|] m2 e2]; try discriminate; reflexivity.
Qed.

Lemma max0_mono d1 d2 : (d1 <=? d2) = true ->
  (fval (Py.max 0 d1) <= fval (Py.max 0 d2))%Z.
Proof.
  intro L. destruct (max0_cases d1) as [(P1 & -> & N1 & V1) | (P1 & ->)].
  - pose proof (pos_leb_pos _ _ P1 L) as P2.
    destruct (max0_cases d2) as [(_ & -> & N2 & V2) | (P2' & _)]; [|congruence].
    apply Z.leb_le. rewrite <- leb_fval by assumption. exact L.
  - rewrite fval_zero. apply fval_nonneg, max0_nn.
Qed.

Lemma max_fval a b : fnn a = true -> fnn b = true ->
  fnn (Py.max a b) = true /\ fval (Py.max a b) = Z.max (fval a) (fval b).
Proof.
  intros Na Nb. unfold Py.max. rewrite ltb_fval by assumption.
  destruct (Z.ltb_spec (fval a) (fval b)); split; try assumption; lia.
Qed.

Lemma canopy_radius_m_ok sid sp d : PyDict.get sid SPECIES_BY_ID = Some sp ->
  canopy_radius_m sid d = Ok (Py.max 0.5 (Species.canopy_k_m_per_in sp * Py.max 0.0 d)).
Proof.
  intro H. unfold canopy_radius_m. rewrite (species_lookup_ok _ _ H). reflexivity.
Qed.

Lemma annual_benefits_ok sid sp d : PyDict.get sid SPECIES_BY_ID = Some sp ->
  annual_benefits sid d = Ok (snapshot_of sp d).
Proof.
  intro H. unfold annual_benefits.
  rewrite (species_lookup_ok _ _ H). cbn [res_bind].
  rewrite (canopy_radius_m_ok _ _ _ H). reflexivity.
Qed.

Lemma const_mul_mono k x1 x2 : finite_pos k = true ->
  fnn x1 = true -> fnn x2 = true -> (fval x1 <= fval x2)%Z ->
  fnn (k * x1) = true /\ fnn (k * x2) = true /\ (fval (k * x1) <= fval (k * x2))%Z.
Proof.
  intros Hk N1 N2 L. destruct (finite_pos_fnn k Hk) as [Nk Vk].
  apply mul_mono; auto; lia.
Qed.

Lemma radius_mono k d1 d2 : finite_pos k = true -> (d1 <=? d2) = true ->
  let r1 := Py.max 0.5 (k * Py.max 0 d1) in
  let r2 := Py.max 0.5 (k * Py.max 0 d2) in
  fnn r1 = true /\ fnn r2 = true /\ (fval 0.5 <= fval r1 <= fval r2)%Z.
Proof.
  intros Hk L r1 r2.
  destruct (const_mul_mono k _ _ Hk (max0_nn d1) (max0_nn d2) (max0_mono _ _ L))
    as (Ny1 & Ny2 & Ly).
  destruct (max_fval 0.5 (k * Py.max 0 d1) eq_refl Ny1) as [Nr1 Vr1].
  destruct (max_fval 0.5 (k * Py.max 0 d2) eq_refl Ny2) as [Nr2 Vr2].
  fold r1 in Nr1, Vr1. fold r2 in Nr2, Vr2.
  split; [exact Nr1 | split; [exact Nr2 | lia]].
Qed.

Lemma half_pos : (0 < fval 0.5 < 2 ^ 2200)%Z.
Proof. apply finite_pos_fnn. reflexivity. Qed.

Lemma area_mono r1 r2 : fnn r1 = true -> fnn r2 = true ->
  (fval 0.5 <= fval r1 <= fval r2)%Z ->
  fnn (canopy_area_m2 r1) = true /\ fnn (canopy_area_m2 r2) = true /\
  (fval (canopy_area_m2 r1) <= fval (canopy_area_m2 r2))%Z.
Proof.
  intros N1 N2 L. unfold canopy_area_m2. pose proof half_pos as Hh.
  assert (Hpi : finite_pos math_pi = true) by reflexivity.
  assert (Hph : (0 < fval (math_pi * 0.5))%Z).
  { apply (finite_pos_fnn (math_pi * 0.5)). reflexivity. }
  destruct (const_mul_mono math_pi 0.5 r1 Hpi eq_refl N1 ltac:(lia)) as (_ & Nu1 & Lu1).
  destruct (const_mul_mono math_pi r1 r2 Hpi N1 N2 ltac:(lia)) as (_ & Nu2 & Lu).
  apply mul_mono; auto; try lia; left; lia.
Qed.

Lemma snapshot_mono sp d1 d2 : species_coefs_ok sp = true -> (d1 <=? d2) = true ->
  let b1 := snapshot_of sp d1 in
  let b2 := snapshot_of sp d2 in
  (Benefits.canopy_area_m2 b1 <=? Benefits.canopy_area_m2 b2) = true /\
  (Benefits.carbon_kg_per_year b1 <=? Benefits.carbon_kg_per_year b2) = true /\
  (Benefits.stormwater_l_per_year b1 <=? Benefits.stormwater_l_per_year b2) = true /\
  (Benefits.pollution_g_per_year b1 <=? Benefits.pollution_g_per_year b2) = true.
Proof.
  unfold species_coefs_ok. rewrite !andb_true_iff.
  intros ((((_ & Hk) & Hc) & Hs) & Hp) L. cbn zeta.
  unfold snapshot_of. cbn [Benefits.canopy_area_m2 Benefits.carbon_kg_per_year
    Benefits.stormwater_l_per_year Benefits.pollution_g_per_year].
  destruct (radius_mono _ _ _ Hk L) as (Nr1 & Nr2 & Lr).
  destruct (area_mono _ _ Nr1 Nr2 Lr) as (Na1 & Na2 & La).
  destruct (const_mul_mono _ _ _ Hc (max0_nn d1) (max0_nn d2) (max0_mono _ _ L))
    as (Nc1 & Nc2 & Lc).
  destruct (const_mul_mono _ _ _ Hs Na1 Na2 La) as (Ns1 & Ns2 & Ls).
  destruct (const_mul_mono _ _ _ Hp Na1 Na2 La) as (Np1 & Np2 & Lp).
  rewrite !leb_fval by assumption. rewrite !Z.leb_le. auto.
Qed.

Lemma SFcompare_finite_Eq m e y :
  SFcompare (S754_finite false m e) y = Some Eq -> y = S754_finite false m e.
Proof.
  destruct y as [[|]|[|]| |[|] m2 e2]; try discriminate. cbn [SFcompare].
  destruct (Z.compare_spec e e2) as [E | L | G]; try discriminate.
  rewrite Pos.compare_cont_spec. intros [= H].
  destruct (m ?= m2)%positive eqn:C; try discriminate H.
  apply Pos.compare_eq in C. subst. reflexivity.
Qed.

Lemma max_half_spec y : Py.max 0.5 y = spec_max 0.5 y.
Proof.
  unfold Py.max, spec_max. rewrite ltb_spec, leb_spec. unfold SFltb, SFleb.
  destruct (SFcompare (Prim2SF 0.5) (Prim2SF y)) as [[| |]|] eqn:E; try reflexivity.
  change (Prim2SF 0.5) with (S754_finite false 4503599627370496 (-53)) in E.
  apply SFcompare_finite_Eq in E.
  symmetry. apply Prim2SF_inj. rewrite E. reflexivity.
Qed.

Lemma max0_neg d : (d <? 0) = true -> Py.max 0 d = 0.
Proof.
  unfold Py.max. rewrite !ltb_spec. change (Prim2SF 0) with (S754_zero false).
  destruct (Prim2SF d) as [[|]|[|]| |[|] m e]; try discriminate; reflexivity.
Qed.

Lemma max0_spec_same d : Prim2SF d <> S754_zero true -> Py.max 0 d = spec_max 0 d.
Proof.
  intro N. unfold Py.max, spec_max. rewrite ltb_spec, leb_spec.
  change (Prim2SF 0) with (S754_zero false).
  destruct (Prim2SF d) as [[|]|[|]| |[|] m e] eqn:D; try reflexivity.
  - contradiction.
  - cbn. symmetry. apply Prim2SF_inj. rewrite D. reflexivity.
Qed.

Lemma radius_formula k d : finite_pos k = true ->
  Py.max 0.5 (k * Py.max 0 d) = spec_max 0.5 (k * spec_max 0 d).
Proof.
  intro Hk. rewrite max_half_spec.
  destruct (Prim2SF d) as [[|]|[|]| |[|] m e] eqn:D.
  1:{ (* d = -0.0 : the inner maxima differ in the sign of zero only *)
    assert (H1 : Py.max 0 d = 0).
    { unfold Py.max. rewrite ltb_spec, D. reflexivity. }
    assert (H2 : spec_max 0 d = d).
    { unfold spec_max. rewrite leb_spec, D. reflexivity. }
    rewrite H1, H2. unfold spec_max. rewrite !leb_spec, !mul_spec, D.
    change (Prim2SF 0) with (S754_zero false).
    unfold finite_pos in Hk. destruct (Prim2SF k) as [[|]|[|]| |[|] mk ek]; try discriminate.
    reflexivity. }
  all: rewrite max0_spec_same; [reflexivity | rewrite D; discriminate].
Qed.

#[local] Open Scope string_scope.
#[local] Open Scope handler_scope.

(* ================================================================== *)
(** ** Dictionaries, handlers and traces *)

(* ---------------- definitions ---------------- *)


(* ---------------- dictionary lemmas ---------------- *)

Module PyDictFacts.
Section Facts.
Context {V : Type}.
Implicit Types (d : PyDict.t V) (k : string) (v : V).

Lemma contains_keys k d : PyDict.contains k d = true <-> In k (PyDict.keys d).
Proof.
  unfold PyDict.contains, PyDict.keys.
  induction d as [|[k' v'] d IH]; cbn [PyDict.get map fst In].
  - split; [discriminate | tauto].
  - destruct (String.eqb_spec k k') as [-> | N].
    + split; auto.
    + rewrite IH. split; [auto | intros [E | H]; congruence].
Qed.

Lemma contains_false_keys k d : PyDict.contains k d = false <-> ~ In k (PyDict.keys d).
Proof.
  rewrite <- contains_keys. destruct (PyDict.contains k d); split; congruence.
Qed.


Lemma set_fresh k v d : PyDict.contains k d = false -> PyDict.set k v d = (d ++ [(k, v)])%list.
Proof.
  unfold PyDict.contains.
  induction d as [|[k0 v0] d IH]; cbn [PyDict.set PyDict.get app]; [reflexivity|].
  destruct (String.eqb k k0); [discriminate|]. intro H. rewrite IH by exact H. reflexivity.
Qed.

Lemma len_set_present k v d : PyDict.contains k d = true ->
  PyDict.len (PyDict.set k v d) = PyDict.len d.
Proof.
  unfold PyDict.contains, PyDict.len.
  induction d as [|[k0 v0] d IH]; cbn [PyDict.set PyDict.get]; [discriminate|].
  destruct (String.eqb k k0); cbn [List.length]; [reflexivity|].
  intro H. rewrite IH by exact H. reflexivity.
Qed.

Lemma keys_set_present k v d : PyDict.contains k d = true ->
  PyDict.keys (PyDict.set k v d) = PyDict.keys d.
Proof.
  unfold PyDict.contains, PyDict.keys.
  induction d as [|[k0 v0] d IH]; cbn [PyDict.set PyDict.get]; [discriminate|].
  destruct (String.eqb k k0); cbn [map fst]; [reflexivity|].
  intro H. rewrite IH by exact H. reflexivity.
Qed.

Lemma keys_alter f k d : PyDict.keys (PyDict.alter f k d) = PyDict.keys d.
Proof.
  unfold PyDict.keys, PyDict.alter. rewrite map_map. apply map_ext.
  intros [k0 v0]. cbn [fst snd]. destruct (String.eqb k k0); reflexivity.
Qed.

Lemma get_alter f k k' d :
  PyDict.get k' (PyDict.alter f k d)
  = if String.eqb k k' then option_map f (PyDict.get k' d) else PyDict.get k' d.
Proof.
  unfold PyDict.alter.
  induction d as [|[k0 v0] d IH]; cbn [map PyDict.get fst snd].
  - destruct (String.eqb k k'); reflexivity.
  - destruct (String.eqb_spec k k0) as [-> | N]; cbn [PyDict.get];
      destruct (String.eqb_spec k' k0) as [-> | N']; rewrite ?IH.
    + rewrite String.eqb_refl. reflexivity.
    + reflexivity.
    + destruct (String.eqb_spec k k0); [congruence | reflexivity].
    + reflexivity.
Qed.

Lemma get_del k k' d :
  PyDict.get k' (PyDict.del k d) = if String.eqb k' k then None else PyDict.get k' d.
Proof.
  unfold PyDict.del.
  induction d as [|[k0 v0] d IH]; cbn [filter PyDict.get fst].
  - destruct (String.eqb k' k); reflexivity.
  - destruct (String.eqb_spec k k0) as [-> | N]; cbn [negb PyDict.get].
    + rewrite IH. destruct (String.eqb k' k0); reflexivity.
    + rewrite IH. destruct (String.eqb_spec k' k0) as [-> | N'].
      * destruct (String.eqb_spec k0 k); [congruence | reflexivity].
      * reflexivity.
Qed.

Lemma del_absent k d : PyDict.contains k d = false -> PyDict.del k d = d.
Proof.
  unfold PyDict.contains, PyDict.del.
  induction d as [|[k0 v0] d IH]; cbn [filter PyDict.get fst]; [reflexivity|].
  destruct (String.eqb k k0); [discriminate|]. cbn [negb]. intro H. rewrite IH by exact H.
  reflexivity.
Qed.

Lemma keys_del k d :
  PyDict.keys (PyDict.del k d) = filter (fun k' => negb (String.eqb k k')) (PyDict.keys d).
Proof.
  unfold PyDict.keys, PyDict.del.
  induction d as [|[k0 v0] d IH]; cbn [filter map fst]; [reflexivity|].
  destruct (String.eqb k k0); cbn [negb map fst]; rewrite IH; reflexivity.
Qed.

Lemma del_del k d : PyDict.del k (PyDict.del k d) = PyDict.del k d.
Proof.
  apply del_absent. apply contains_false_keys. rewrite keys_del.
  intro H. apply filter_In in H as [_ H]. rewrite String.eqb_refl in H. discriminate.
Qed.
End Facts.
End PyDictFacts.

(* ---------------- the add handler ---------------- *)

Section AddFacts.
Context {B : Py.Builtins}.

Lemma float_raises_uncaught v e : Py.float v = Raise e -> exists pe, e = Uncaught pe.
Proof.
  destruct v; cbn [Py.float]; try (intros [= <-]; eexists; reflexivity).
  - unfold Py.float_of_int.
    destruct (binary_normalize prec emax z 0 false); intros [= <-]; eexists; reflexivity.
  - destruct (Py.float_of_str s); intros [= <-]; eexists; reflexivity.
Qed.

Lemma int_raises_uncaught v e : Py.int v = Raise e -> exists pe, e = Uncaught pe.
Proof.
  destruct v; cbn [Py.int]; try (intros [= <-]; eexists; reflexivity).
  - unfold Py.int_of_float. destruct (Prim2SF f); intros [= <-]; eexists; reflexivity.
  - destruct (Py.int_of_str s); intros [= <-]; eexists; reflexivity.
Qed.

Lemma index_raises_uncaught p k e : Py.index p k = Raise e -> exists pe, e = Uncaught pe.
Proof. unfold Py.index. destruct (PyDict.get k p); intros [= <-]; eexists; reflexivity. Qed.

Lemma parse_raises_uncaught payload e :
  parse_add_payload payload = Raise e -> exists pe, e = Uncaught pe.
Proof.
  unfold parse_add_payload.
  destruct (Py.index payload "lon") as [v1|e1] eqn:I1; cbn [res_bind];
    [| intros [= <-]; eapply index_raises_uncaught; eassumption].
  destruct (Py.float v1) as [x|e1] eqn:F1; cbn [res_bind];
    [| intros [= <-]; eapply float_raises_uncaught; eassumption].
  destruct (Py.index payload "lat") as [v2|e2] eqn:I2; cbn [res_bind];
    [| intros [= <-]; eapply index_raises_uncaught; eassumption].
  destruct (Py.float v2) as [y|e2] eqn:F2; cbn [res_bind];
    [| intros [= <-]; eapply float_raises_uncaught; eassumption].
  destruct (Py.float (Py.get_default payload "dbh_in" (PyFloat 2.0))) as [d|e3] eqn:F3;
    cbn [res_bind];
    [| intros [= <-]; eapply float_raises_uncaught; eassumption].
  destruct (Py.int (Py.get_default payload "planting_year" (PyInt 2026))) as [z|e4] eqn:F4;
    cbn [res_bind];
    [discriminate | intros [= <-]; eapply int_raises_uncaught; eassumption].
Qed.



Lemma add_bad_payload now payload s pe :
  parse_add_payload payload = Raise (Uncaught pe) ->
  add_planted_tree now payload s = (Raise (HTTPException 400 (BadPayload pe)), s).
Proof. intro H. unfold add_planted_tree, bind. rewrite H. reflexivity. Qed.

Lemma add_unknown_species now payload s lon lat sid dbh year :
  parse_add_payload payload = Ok (lon, lat, sid, dbh, year) ->
  PyDict.contains sid SPECIES_BY_ID = false ->
  add_planted_tree now payload s = (Raise (HTTPException 400 UnknownSpecies), s).
Proof.
  intros H C. unfold add_planted_tree, bind. rewrite H. cbn [try_bad_payload ret].
  rewrite C. reflexivity.
Qed.

Lemma add_ok now payload s lon lat sid sp dbh year :
  parse_add_payload payload = Ok (lon, lat, sid, dbh, year) ->
  PyDict.get sid SPECIES_BY_ID = Some sp ->
  let tid := tree_id_of now (PyDict.len (Scenario.planted_trees s)) in
  let tree := new_tree tid lon lat sp sid dbh year in
  add_planted_tree now payload s
  = (Ok tree, Scenario.with_planted_trees (PyDict.set tid tree (Scenario.planted_trees s)) s).
Proof.
  intros H G tid tree. unfold add_planted_tree, bind. rewrite H. cbn [try_bad_payload ret].
  unfold PyDict.contains. rewrite G. cbn [negb read lift].
  rewrite (annual_benefits_ok _ _ _ G). reflexivity.
Qed.

(** Every run of [add_planted_tree] is one of the three above. *)
Lemma add_cases now payload s :
  (exists pe, parse_add_payload payload = Raise (Uncaught pe) /\
     add_planted_tree now payload s = (Raise (HTTPException 400 (BadPayload pe)), s))
  \/ (exists lon lat sid dbh year,
        parse_add_payload payload = Ok (lon, lat, sid, dbh, year) /\
        PyDict.contains sid SPECIES_BY_ID = false /\
        add_planted_tree now payload s = (Raise (HTTPException 400 UnknownSpecies), s))
  \/ (exists lon lat sid sp dbh year,
        parse_add_payload payload = Ok (lon, lat, sid, dbh, year) /\
        PyDict.get sid SPECIES_BY_ID = Some sp /\
        let tid := tree_id_of now (PyDict.len (Scenario.planted_trees s)) in
        let tree := new_tree tid lon lat sp sid dbh year in
        add_planted_tree now payload s
        = (Ok tree, Scenario.with_planted_trees
                      (PyDict.set tid tree (Scenario.planted_trees s)) s)).
Proof.
  destruct (parse_add_payload payload) as [[[[[lon lat] sid] dbh] year] | e] eqn:P.
  - destruct (PyDict.get sid SPECIES_BY_ID) as [sp|] eqn:G.
    + right; right. exists lon, lat, sid, sp, dbh, year.
      split; [reflexivity | split; [exact G |]]. apply add_ok; assumption.
    + right; left. exists lon, lat, sid, dbh, year.
      assert (C : PyDict.contains sid SPECIES_BY_ID = false)
        by (unfold PyDict.contains; rewrite G; reflexivity).
      split; [reflexivity | split; [exact C |]]. eapply add_unknown_species; eassumption.
  - left. destruct (parse_raises_uncaught _ _ P) as [pe ->]. exists pe.
    split; [reflexivity | apply add_bad_payload; exact P].
Qed.
End AddFacts.

(* ---------------- invariants kept by the handlers ---------------- *)

Section Preservation.
Context {B : Py.Builtins}.
Variable P : Scenario.t -> Prop.

Lemma preserves_ret {A} (a : A) : preserves P (ret a).
Proof. intros s H. exact H. Qed.

Lemma preserves_raise {A} e : preserves P (@raise A e).
Proof. intros s H. exact H. Qed.

Lemma preserves_lift {A} (r : Res A) : preserves P (lift r).
Proof. intros s H. exact H. Qed.

Lemma preserves_read : preserves P read.
Proof. intros s H. exact H. Qed.

Lemma preserves_bind {A C} (m : Handler A) (k : A -> Handler C) :
  preserves P m -> (forall a, preserves P (k a)) -> preserves P (bind m k).
Proof.
  intros Hm Hk s H. unfold bind. specialize (Hm s H).
  destruct (m s) as [[a|e] s']; cbn [snd] in *; [apply Hk; exact Hm | exact Hm].
Qed.

Lemma preserves_when_in k payload body :
  (forall v, preserves P (body v)) -> preserves P (when_in k payload body).
Proof.
  intro Hb. unfold when_in. destruct (PyDict.get k payload); [apply Hb | apply preserves_ret].
Qed.

Lemma preserves_write f :
  (forall s, P s -> P (Scenario.with_planted_trees (f (Scenario.planted_trees s)) s)) ->
  preserves P (write_trees f).
Proof. intros Hf s H. apply Hf. exact H. Qed.

Lemma preserves_deref tree_id : preserves P (deref tree_id).
Proof.
  intros s H. unfold deref, bind, read.
  destruct (PyDict.get tree_id (Scenario.planted_trees s)); exact H.
Qed.

(** [update_planted_tree] keeps every invariant that its six field writes keep. *)
Lemma preserves_update tree_id payload :
  (forall x, preserves P (assign tree_id (Tree.set_lon x))) ->
  (forall x, preserves P (assign tree_id (Tree.set_lat x))) ->
  (forall x, preserves P (assign tree_id (Tree.set_dbh_in x))) ->
  (forall x, preserves P (assign tree_id (Tree.set_planting_year x))) ->
  (forall sid, PyDict.contains sid SPECIES_BY_ID = true ->
               preserves P (assign tree_id (Tree.set_species_id sid))) ->
  (forall b, preserves P (assign tree_id (Tree.set_benefits b))) ->
  preserves P (update_planted_tree tree_id payload).
Proof.
  intros H1 H2 H3 H4 H5 H6. unfold update_planted_tree.
  apply preserves_bind; [apply preserves_read | intro s0].
  destruct (negb _); [apply preserves_raise|].
  repeat (apply preserves_bind;
          [ apply preserves_when_in; intro v;
            first [ apply preserves_bind; [apply preserves_lift | intro x; auto]
                  | destruct (negb _) eqn:E;
                    [ apply preserves_raise
                    | apply H5; apply negb_false_iff in E; exact E ] ]
          | intros _ ]).
  apply preserves_bind; [apply preserves_deref | intro t].
  apply preserves_bind; [apply preserves_lift | intro b].
  apply preserves_bind; [apply H6 | intros _; apply preserves_deref].
Qed.
End Preservation.

Section UpdateFacts.
Context {B : Py.Builtins}.

Lemma update_keeps_keys tree_id payload s :
  PyDict.keys (Scenario.planted_trees (snd (update_planted_tree tree_id payload s)))
  = PyDict.keys (Scenario.planted_trees s).
Proof.
  apply (preserves_update
           (fun s' => PyDict.keys (Scenario.planted_trees s')
                      = PyDict.keys (Scenario.planted_trees s)));
    try reflexivity;
    intros; apply preserves_write; intros s' Hs'; cbn [Scenario.with_planted_trees
      Scenario.planted_trees]; rewrite PyDictFacts.keys_alter; exact Hs'.
Qed.

Lemma Forall_values_alter (Q : Tree.t -> Prop) f k (d : PyDict.t Tree.t) :
  (forall t, Q t -> Q (f t)) ->
  Forall Q (PyDict.values d) -> Forall Q (PyDict.values (PyDict.alter f k d)).
Proof.
  intros Hf. unfold PyDict.values, PyDict.alter. rewrite !Forall_map.
  apply Forall_impl. intros [k0 t0]. cbn [fst snd].
  destruct (String.eqb k k0); cbn [snd]; auto.
Qed.

Lemma update_keeps_species_known tree_id payload s :
  Forall (fun t => species_known t = true) (PyDict.values (Scenario.planted_trees s)) ->
  Forall (fun t => species_known t = true)
         (PyDict.values (Scenario.planted_trees (snd (update_planted_tree tree_id payload s)))).
Proof.
  apply (preserves_update
           (fun s' => Forall (fun t => species_known t = true)
                             (PyDict.values (Scenario.planted_trees s'))));
    intros; apply preserves_write; intros s' H';
    cbn [Scenario.with_planted_trees Scenario.planted_trees];
    apply Forall_values_alter; auto.
Qed.
End UpdateFacts.

Lemma string_of_uint_no_underscore d : has_underscore (NilEmpty.string_of_uint d) = false.
Proof. induction d; cbn [NilEmpty.string_of_uint has_underscore]; auto. Qed.

Lemma str_of_int_no_underscore z : has_underscore (Py.str_of_int z) = false.
Proof.
  unfold Py.str_of_int, NilZero.string_of_int, NilZero.string_of_uint.
  destruct (Z.to_int z) as [d|d]; destruct d; cbn [has_underscore];
    try reflexivity; apply (string_of_uint_no_underscore (_ d)) || idtac.
Qed.

Lemma append_underscore_inj s1 t1 s2 t2 :
  has_underscore s1 = false -> has_underscore s2 = false ->
  s1 ++ String "_" t1 = s2 ++ String "_" t2 -> s1 = s2 /\ t1 = t2.
Proof.
  revert s2. induction s1 as [|c1 s1 IH]; intros [|c2 s2]; cbn [has_underscore append].
  - intros _ _ [= ->]. split; reflexivity.
  - intros _ H [= <- _]. rewrite Ascii.eqb_refl in H. discriminate.
  - intros H _ [= -> _]. rewrite Ascii.eqb_refl in H. discriminate.
  - intros H1 H2 [= -> E]. apply orb_false_iff in H1 as [_ H1], H2 as [_ H2].
    destruct (IH _ H1 H2 E) as [-> ->]. split; reflexivity.
Qed.

Lemma to_int_printable z : Z.to_int z <> Decimal.Pos Decimal.Nil /\ Z.to_int z <> Decimal.Neg Decimal.Nil.
Proof.
  destruct z as [|p|p]; cbn [Z.to_int]; split; try discriminate;
    intros [= H]; exact (Unsigned.to_uint_nonnil p H).
Qed.

Lemma str_of_int_inj a b : Py.str_of_int a = Py.str_of_int b -> a = b.
Proof.
  unfold Py.str_of_int. intro H. apply (f_equal NilZero.int_of_string) in H.
  destruct (to_int_printable a) as [A1 A2]. destruct (to_int_printable b) as [B1 B2].
  rewrite !NilZero.isi in H by assumption.
  injection H as H. apply DecimalZ.to_int_inj. exact H.
Qed.

Lemma tree_id_of_inj t1 n1 t2 n2 :
  tree_id_of t1 n1 = tree_id_of t2 n2 -> t1 = t2 /\ n1 = n2.
Proof.
  unfold tree_id_of. cbn [append]. intro H. injection H as H.
  apply append_underscore_inj in H; try apply str_of_int_no_underscore.
  destruct H as [H1 H2]. apply str_of_int_inj in H1, H2. split; [exact H1 | lia].
Qed.

(* ---------------- traces of requests ---------------- *)

Section TraceFacts.
Context {B : Py.Builtins}.

Lemma projection_pure horizon s : snd (scenario_projection horizon s) = s.
Proof.
  unfold scenario_projection. destruct (negb (horizon_allowed horizon)); [reflexivity|].
  unfold bind, read, lift, ret.
  destruct (projection_loop horizon _ Totals.zero []); reflexivity.
Qed.

Lemma get_scenario_pure s : snd (get_scenario s) = s.
Proof. reflexivity. Qed.

Lemma delete_run tree_id s :
  delete_planted_tree tree_id s
  = (Ok tt, Scenario.with_planted_trees (PyDict.del tree_id (Scenario.planted_trees s)) s).
Proof.
  unfold delete_planted_tree, bind, read, write_trees, ret.
  destruct (PyDict.contains tree_id (Scenario.planted_trees s)) eqn:C; [reflexivity|].
  rewrite (PyDictFacts.del_absent _ _ C). destruct s; reflexivity.
Qed.

Lemma serve_other_keys r s :
  (forall now payload, r <> ReqAdd now payload) ->
  fst (serve r s) = None /\
  incl (PyDict.keys (Scenario.planted_trees (snd (serve r s))))
       (PyDict.keys (Scenario.planted_trees s)).
Proof.
  intro N. destruct r as [now payload | tid payload | tid | h |]; cbn [serve fst snd].
  - exfalso. exact (N _ _ eq_refl).
  - split; [reflexivity|]. rewrite update_keeps_keys. apply incl_refl.
  - split; [reflexivity|]. rewrite delete_run. cbn [snd Scenario.with_planted_trees
      Scenario.planted_trees]. rewrite PyDictFacts.keys_del. intros k H.
    apply filter_In in H. tauto.
  - split; [reflexivity|]. rewrite projection_pure. apply incl_refl.
  - split; [reflexivity|]. apply incl_refl.
Qed.

Lemma stamped_outside_tail t ts k : stamped_outside (t :: ts) k -> stamped_outside ts k.
Proof.
  intros (t0 & n & -> & Ht). exists t0, n.
  split; [reflexivity | intro; apply Ht; right; assumption].
Qed.

Lemma run_fresh rs : forall s,
  NoDup (add_times rs) ->
  Forall (stamped_outside (add_times rs)) (PyDict.keys (Scenario.planted_trees s)) ->
  NoDup (map added_id (fst (run rs s))) /\
  Forall (fun e => overwrote e = false) (fst (run rs s)) /\
  Forall (fun e => exists t n, added_id e = tree_id_of t n /\ In t (add_times rs))
         (fst (run rs s)).
Proof.
  induction rs as [|r rest IH]; intros s ND HK.
  - cbn. repeat split; constructor.
  - assert (Other : (forall now payload, r <> ReqAdd now payload) ->
                    add_times (r :: rest) = add_times rest).
    { intro N. destruct r; try reflexivity. exfalso. exact (N _ _ eq_refl). }
    cbn [run].
    destruct r as [now payload | tid payload | tid | h |].
    1:{ (* add *)
      cbn [add_times] in ND, HK |- *. inversion ND as [|? ? Hnow ND']; subst.
      assert (Tail : forall e : AddLog,
                (exists t n, added_id e = tree_id_of t n /\ In t (add_times rest)) ->
                exists t n, added_id e = tree_id_of t n /\ In t (now :: add_times rest)).
      { intros e (t & n & E & Hin). exists t, n. split; [exact E | right; exact Hin]. }
      cbn [serve].
      destruct (add_cases now payload s)
        as [(pe & _ & E) | [(lon & lat & sid & dbh & year & _ & _ & E)
                           | (lon & lat & sid & sp & dbh & year & _ & _ & E)]];
        cbv zeta in E; rewrite E.
      - destruct (run rest s) as [log s''] eqn:R. cbn [fst].
        specialize (IH s ND'). rewrite R in IH. cbn [fst] in IH.
        destruct IH as (IH1 & IH2 & IH3).
        { eapply Forall_impl; [|exact HK]. intro k. apply stamped_outside_tail. }
        repeat split; try assumption. eapply Forall_impl; [|exact IH3]. exact Tail.
      - destruct (run rest s) as [log s''] eqn:R. cbn [fst].
        specialize (IH s ND'). rewrite R in IH. cbn [fst] in IH.
        destruct IH as (IH1 & IH2 & IH3).
        { eapply Forall_impl; [|exact HK]. intro k. apply stamped_outside_tail. }
        repeat split; try assumption. eapply Forall_impl; [|exact IH3]. exact Tail.
      - set (tid := tree_id_of now (PyDict.len (Scenario.planted_trees s))) in *.
        set (tree := new_tree tid lon lat sp sid dbh year) in *.
        assert (Fresh : ~ In tid (PyDict.keys (Scenario.planted_trees s))).
        { intro Hin. rewrite Forall_forall in HK.
          destruct (HK _ Hin) as (t & n & Etid & Ht).
          apply tree_id_of_inj in Etid as [<- _]. apply Ht. left. reflexivity. }
        assert (C : PyDict.contains tid (Scenario.planted_trees s) = false)
          by (apply PyDictFacts.contains_false_keys; exact Fresh).
        rewrite (PyDictFacts.set_fresh _ _ _ C).
        set (s' := Scenario.with_planted_trees _ s).
        assert (Ks' : PyDict.keys (Scenario.planted_trees s')
                      = (PyDict.keys (Scenario.planted_trees s) ++ [tid])%list).
        { unfold s', PyDict.keys. cbn [Scenario.with_planted_trees Scenario.planted_trees].
          rewrite map_app. reflexivity. }
        destruct (run rest s') as [log s''] eqn:R. cbn [fst].
        specialize (IH s' ND'). rewrite R in IH. cbn [fst] in IH.
        destruct IH as (IH1 & IH2 & IH3).
        { rewrite Ks'. apply Forall_app. split.
          - eapply Forall_impl; [|exact HK]. intro k. apply stamped_outside_tail.
          - constructor; [|constructor]. exists now, (PyDict.len (Scenario.planted_trees s)).
            split; [reflexivity | exact Hnow]. }
        cbn [map added_id Tree.id tree new_tree]. repeat split.
        + constructor; [|exact IH1]. intro Hin. apply in_map_iff in Hin as (e & Ee & He).
          rewrite Forall_forall in IH3. destruct (IH3 e He) as (t & n & Et & Hin).
          rewrite Ee in Et. apply tree_id_of_inj in Et as [-> _]. exact (Hnow Hin).
        + constructor; [exact C | exact IH2].
        + constructor.
          * exists now, (PyDict.len (Scenario.planted_trees s)).
            split; [reflexivity | left; reflexivity].
          * eapply Forall_impl; [|exact IH3]. exact Tail. }
    all: match goal with
         | |- context [serve ?r ?s0] =>
             rewrite (Other ltac:(discriminate)) in *;
             destruct (serve_other_keys r s0 ltac:(discriminate)) as [E I];
             destruct (serve r s0) as [entry s']; cbn [fst snd] in E, I; subst entry;
             destruct (run rest s') as [log s''] eqn:R; cbn [fst];
             specialize (IH s' ND); rewrite R in IH; cbn [fst] in IH; apply IH;
             apply Forall_forall; intros k Hk; rewrite Forall_forall in HK;
             apply HK, I, Hk
         end.
Qed.
End TraceFacts.

(** The species invariant of the store: every request keeps it, so every
    scenario reached from the empty store has it. *)
Section SpeciesInvariant.
Context {B : Py.Builtins}.

Lemma update_not_found tree_id payload s :
  PyDict.contains tree_id (Scenario.planted_trees s) = false ->
  update_planted_tree tree_id payload s = (Raise (HTTPException 404 TreeNotFound), s).
Proof. intro C. unfold update_planted_tree, bind, read. rewrite C. reflexivity. Qed.

Lemma Forall_values_set (Q : Tree.t -> Prop) k v (d : PyDict.t Tree.t) :
  Q v -> Forall Q (PyDict.values d) -> Forall Q (PyDict.values (PyDict.set k v d)).
Proof.
  intro Hv. unfold PyDict.values.
  induction d as [|[k0 v0] d IH]; cbn [PyDict.set map snd].
  - intros _. constructor; [exact Hv | constructor].
  - intro H. inversion H as [|? ? H0 Hd]; subst.
    destruct (String.eqb k k0); cbn [map snd]; constructor; auto.
Qed.

Lemma Forall_values_del (Q : Tree.t -> Prop) k (d : PyDict.t Tree.t) :
  Forall Q (PyDict.values d) -> Forall Q (PyDict.values (PyDict.del k d)).
Proof.
  unfold PyDict.values, PyDict.del. rewrite !Forall_map. intro H.
  apply Forall_forall. intros kv Hin. apply filter_In in Hin as [Hin _].
  rewrite Forall_forall in H. exact (H kv Hin).
Qed.

Lemma serve_keeps_species_known r s :
  Forall (fun t => species_known t = true) (PyDict.values (Scenario.planted_trees s)) ->
  Forall (fun t => species_known t = true)
         (PyDict.values (Scenario.planted_trees (snd (serve r s)))).
Proof.
  intro H. destruct r as [now payload | tid payload | tid | h |]; cbn [serve].
  - destruct (add_cases now payload s)
      as [(pe & _ & E) | [(lon & lat & sid & dbh & year & _ & _ & E)
                         | (lon & lat & sid & sp & dbh & year & _ & G & E)]];
      cbv zeta in E; rewrite E; cbn [snd]; try exact H.
    cbn [Scenario.with_planted_trees Scenario.planted_trees].
    apply Forall_values_set; [|exact H].
    unfold species_known, PyDict.contains. cbn [new_tree Tree.species_id].
    rewrite G. reflexivity.
  - cbn [snd]. apply update_keeps_species_known. exact H.
  - rewrite delete_run. cbn [snd Scenario.with_planted_trees Scenario.planted_trees].
    apply Forall_values_del. exact H.
  - cbn [snd]. rewrite projection_pure. exact H.
  - exact H.
Qed.

Lemma run_keeps_species_known rs : forall s,
  Forall (fun t => species_known t = true) (PyDict.values (Scenario.planted_trees s)) ->
  Forall (fun t => species_known t = true)
         (PyDict.values (Scenario.planted_trees (snd (run rs s)))).
Proof.
  induction rs as [|r rest IH]; intros s H; [exact H|].
  cbn [run]. pose proof (serve_keeps_species_known r s H) as H'.
  destruct (serve r s) as [entry s']. cbn [snd] in H'.
  specialize (IH s' H'). destruct (run rest s') as [log s'']. exact IH.
Qed.

Lemma reachable_species_known rs now :
  Forall (fun t => species_known t = true)
         (PyDict.values (Scenario.planted_trees (snd (run rs (Scenario.initial now))))).
Proof. apply run_keeps_species_known. constructor. Qed.
End SpeciesInvariant.

(* ================================================================== *)
(** ** The benefit model: radius floor, monotonicity, clamping *)

(** C5: for every species of the catalog and every non-negative diameter
    [d], [canopy_radius_m] returns a radius of at least 0.5 m; and for every
    diameter the radius is [max(0.5, k_canopy * max(0, d))], the maxima read
    as maxima in the order of the floats. *)
Theorem canopy_radius_floor (sid : string) (sp : Species.t) :
  PyDict.get sid SPECIES_BY_ID = Some sp ->
  (forall d, (0 <=? d)%float = true ->
     exists r, canopy_radius_m sid d = Ok r /\ (0.5 <=? r)%float = true) /\
  (forall d, canopy_radius_m sid d = Ok (spec_canopyRadius sp d)).
Proof.
  intro H. split.
  - intros d _. eexists. split; [apply canopy_radius_m_ok; exact H|].
    apply max_ge_left. reflexivity.
  - intro d. rewrite (canopy_radius_m_ok _ _ _ H). f_equal.
    apply radius_formula. pose proof (catalog_coefs_ok _ _ H) as C.
    unfold species_coefs_ok in C. rewrite !andb_true_iff in C. tauto.
Qed.

Lemma canopy_radius_floor_witness :
  (forall d, (0 <=? d)%float = true ->
     exists r, canopy_radius_m "ginkgo" d = Ok r /\ (0.5 <=? r)%float = true) /\
  (forall d, canopy_radius_m "ginkgo" d = Ok (spec_canopyRadius ginkgo d)).
Proof. apply (canopy_radius_floor "ginkgo" ginkgo). reflexivity. Defined.

(** C6: for a fixed species of the catalog, [annual_benefits] is
    non-decreasing in the diameter in canopy area, carbon, stormwater and
    pollution: [d1 <= d2] gives each field of the first snapshot [<=] the
    same field of the second.  The comparisons are those of binary64, and the
    products are the rounded products the code computes. *)
Theorem annual_benefits_monotone (sid : string) (sp : Species.t) (d1 d2 : float) :
  PyDict.get sid SPECIES_BY_ID = Some sp ->
  (d1 <=? d2)%float = true ->
  exists b1 b2,
    annual_benefits sid d1 = Ok b1 /\ annual_benefits sid d2 = Ok b2 /\
    (Benefits.canopy_area_m2 b1 <=? Benefits.canopy_area_m2 b2)%float = true /\
    (Benefits.carbon_kg_per_year b1 <=? Benefits.carbon_kg_per_year b2)%float = true /\
    (Benefits.stormwater_l_per_year b1 <=? Benefits.stormwater_l_per_year b2)%float = true /\
    (Benefits.pollution_g_per_year b1 <=? Benefits.pollution_g_per_year b2)%float = true.
Proof.
  intros H L. exists (snapshot_of sp d1), (snapshot_of sp d2).
  split; [apply annual_benefits_ok; exact H|].
  split; [apply annual_benefits_ok; exact H|].
  apply snapshot_mono; [apply (catalog_coefs_ok sid); exact H | exact L].
Qed.

Lemma annual_benefits_monotone_witness :
  exists b1 b2,
    annual_benefits "red_maple" 2.0 = Ok b1 /\ annual_benefits "red_maple" 5.5 = Ok b2 /\
    (Benefits.canopy_area_m2 b1 <=? Benefits.canopy_area_m2 b2)%float = true /\
    (Benefits.carbon_kg_per_year b1 <=? Benefits.carbon_kg_per_year b2)%float = true /\
    (Benefits.stormwater_l_per_year b1 <=? Benefits.stormwater_l_per_year b2)%float = true /\
    (Benefits.pollution_g_per_year b1 <=? Benefits.pollution_g_per_year b2)%float = true.
Proof.
  apply (annual_benefits_monotone "red_maple" red_maple 2.0 5.5); reflexivity.
Defined.

(** C7: for every species of the catalog [annual_benefits] returns a snapshot
    for every diameter (finite or not), and a negative diameter gives the
    snapshot of diameter zero. *)
Theorem annual_benefits_total_and_clamped (sid : string) (sp : Species.t) :
  PyDict.get sid SPECIES_BY_ID = Some sp ->
  (forall d, exists b, annual_benefits sid d = Ok b) /\
  (forall d, (d <? 0)%float = true -> annual_benefits sid d = annual_benefits sid 0).
Proof.
  intro H. split.
  - intro d. eexists. apply annual_benefits_ok. exact H.
  - intros d L. rewrite !(annual_benefits_ok _ _ _ H). f_equal.
    unfold snapshot_of. rewrite (max0_neg d L). reflexivity.
Qed.

Lemma annual_benefits_total_and_clamped_witness :
  (forall d, exists b, annual_benefits "london_plane" d = Ok b) /\
  (forall d, (d <? 0)%float = true ->
     annual_benefits "london_plane" d = annual_benefits "london_plane" 0).
Proof.
  apply (annual_benefits_total_and_clamped "london_plane" london_plane). reflexivity.
Defined.

(* ================================================================== *)
(** ** The projection aggregator *)

Lemma float_of_int_allowed h : In h [5; 10; 15; 20]%Z -> exists y, Py.float_of_int h = Ok y.
Proof.
  intros [<- | [<- | [<- | [<- | []]]]]; eexists; vm_compute; reflexivity.
Qed.

Lemma horizon_allowed_iff h : horizon_allowed h = true <-> In h [5; 10; 15; 20]%Z.
Proof.
  unfold horizon_allowed. rewrite existsb_exists. split.
  - intros (x & Hin & E). apply Z.eqb_eq in E. subst x. exact Hin.
  - intro Hin. exists h. split; [exact Hin | apply Z.eqb_refl].
Qed.

Lemma project_tree_ok t h y :
  species_known t = true -> Py.float_of_int h = Ok y ->
  exists p, project_tree (Tree.species_id t) (Tree.dbh_in t) h = Ok p.
Proof.
  unfold species_known, PyDict.contains. intros K Y.
  destruct (PyDict.get (Tree.species_id t) SPECIES_BY_ID) as [sp|] eqn:G; [|discriminate K].
  unfold project_tree. rewrite (species_lookup_ok _ _ G), Y. cbn [res_bind].
  rewrite (annual_benefits_ok _ _ _ G). eexists. reflexivity.
Qed.

Lemma projection_loop_ok h y trees : Py.float_of_int h = Ok y ->
  Forall (fun t => species_known t = true) trees ->
  exists projs,
    Forall2 (fun t p => project_tree (Tree.species_id t) (Tree.dbh_in t) h = Ok p) trees projs /\
    forall total per_tree,
      projection_loop h trees total per_tree
      = Ok (fold_left Totals.accumulate projs total,
            (per_tree ++ combine (map Tree.id trees) projs)%list).
Proof.
  intros Y. induction 1 as [|t trees Ht _ IH].
  - exists []. split; [constructor|]. intros. cbn. rewrite app_nil_r. reflexivity.
  - destruct (project_tree_ok t h y Ht Y) as [p Hp]. destruct IH as (projs & F & L).
    exists (p :: projs). split; [constructor; assumption|].
    intros total per_tree. cbn [projection_loop]. rewrite Hp. cbn [res_bind].
    rewrite L. cbn [fold_left map combine]. rewrite <- app_assoc. reflexivity.
Qed.

Lemma fold_accumulate projs : forall total,
  fold_left Totals.accumulate projs total
  = {| Totals.carbon_kg_per_year :=
         fold_left PrimFloat.add (map Benefits.carbon_kg_per_year projs)
                   (Totals.carbon_kg_per_year total);
       Totals.stormwater_l_per_year :=
         fold_left PrimFloat.add (map Benefits.stormwater_l_per_year projs)
                   (Totals.stormwater_l_per_year total);
       Totals.pollution_g_per_year :=
         fold_left PrimFloat.add (map Benefits.pollution_g_per_year projs)
                   (Totals.pollution_g_per_year total);
       Totals.canopy_area_m2 :=
         fold_left PrimFloat.add (map Benefits.canopy_area_m2 projs)
                   (Totals.canopy_area_m2 total) |}.
Proof.
  induction projs as [|p projs IH]; intro total; cbn [fold_left map].
  - destruct total; reflexivity.
  - rewrite IH. reflexivity.
Qed.

(** C2: [scenario_projection] fails with HTTP 400 "horizon must be one of
    5,10,15,20" for every horizon outside that set; for an allowed horizon
    and a store whose trees have catalog species it returns, tree by tree
    in the store's iteration order, the identifier paired with
    [project_tree] of the tree, and a total whose four fields are the sums
    of the per-tree fields accumulated from 0.0 in that order. *)
Theorem scenario_projection_totals (horizon : Z) (s : Scenario.t) :
  (~ In horizon [5; 10; 15; 20]%Z ->
     scenario_projection horizon s = (Raise (HTTPException 400 BadHorizon), s)) /\
  (In horizon [5; 10; 15; 20]%Z ->
   Forall (fun t => species_known t = true) (PyDict.values (Scenario.planted_trees s)) ->
   exists projs,
     Forall2 (fun t p => project_tree (Tree.species_id t) (Tree.dbh_in t) horizon = Ok p)
             (PyDict.values (Scenario.planted_trees s)) projs /\
     fst (scenario_projection horizon s)
     = Ok {| Projection.horizon_years := horizon;
             Projection.total :=
               {| Totals.carbon_kg_per_year :=
                    sum_in_order (map Benefits.carbon_kg_per_year projs);
                  Totals.stormwater_l_per_year :=
                    sum_in_order (map Benefits.stormwater_l_per_year projs);
                  Totals.pollution_g_per_year :=
                    sum_in_order (map Benefits.pollution_g_per_year projs);
                  Totals.canopy_area_m2 :=
                    sum_in_order (map Benefits.canopy_area_m2 projs) |};
             Projection.per_tree :=
               combine (map Tree.id (PyDict.values (Scenario.planted_trees s))) projs |}).
Proof.
  split.
  - intro N. unfold scenario_projection.
    destruct (horizon_allowed horizon) eqn:A; [|reflexivity].
    apply horizon_allowed_iff in A. contradiction.
  - intros A K. destruct (float_of_int_allowed _ A) as [y Y].
    destruct (projection_loop_ok horizon y _ Y K) as (projs & F & L).
    exists projs. split; [exact F|].
    unfold scenario_projection. apply horizon_allowed_iff in A. rewrite A.
    cbn [negb]. unfold bind, read, lift, ret. rewrite L. cbn [fst snd app].
    rewrite fold_accumulate. reflexivity.
Qed.

Lemma scenario_projection_totals_witness :
  exists projs,
    Forall2 (fun t p => project_tree (Tree.species_id t) (Tree.dbh_in t) 10 = Ok p)
            (PyDict.values (Scenario.planted_trees one_tree_scenario)) projs /\
    fst (scenario_projection 10 one_tree_scenario)
    = Ok {| Projection.horizon_years := 10;
            Projection.total :=
              {| Totals.carbon_kg_per_year :=
                   sum_in_order (map Benefits.carbon_kg_per_year projs);
                 Totals.stormwater_l_per_year :=
                   sum_in_order (map Benefits.stormwater_l_per_year projs);
                 Totals.pollution_g_per_year :=
                   sum_in_order (map Benefits.pollution_g_per_year projs);
                 Totals.canopy_area_m2 :=
                   sum_in_order (map Benefits.canopy_area_m2 projs) |};
            Projection.per_tree :=
              combine (map Tree.id (PyDict.values (Scenario.planted_trees one_tree_scenario)))
                      projs |}.
Proof.
  apply (proj2 (scenario_projection_totals 10 one_tree_scenario)).
  - right; left; reflexivity.
  - repeat constructor.
Defined.

(** C8: [scenario_projection] is a pure read: for every scenario and every
    horizon, allowed or not, the scenario it leaves behind is the scenario it
    was called on. *)
Theorem scenario_projection_pure_read (horizon : Z) (s : Scenario.t) :
  snd (scenario_projection horizon s) = s.
Proof. apply projection_pure. Qed.

(** C9: [delete_planted_tree] never fails; afterwards the identifier is
    absent and every other record is as it was, in the same order; deleting
    an absent identifier leaves the scenario unchanged, and deleting a second
    time changes nothing more. *)
Theorem delete_planted_tree_idempotent (tree_id : string) (s : Scenario.t) :
  let s' := snd (delete_planted_tree tree_id s) in
  fst (delete_planted_tree tree_id s) = Ok tt /\
  (forall k, PyDict.get k (Scenario.planted_trees s')
             = if String.eqb k tree_id then None else PyDict.get k (Scenario.planted_trees s)) /\
  PyDict.values (Scenario.planted_trees s')
  = map snd (filter (fun kv => negb (String.eqb tree_id (fst kv))) (Scenario.planted_trees s)) /\
  Scenario.id s' = Scenario.id s /\ Scenario.created_at s' = Scenario.created_at s /\
  (PyDict.contains tree_id (Scenario.planted_trees s) = false -> s' = s) /\
  delete_planted_tree tree_id s' = (Ok tt, s').
Proof.
  cbv zeta. rewrite delete_run. cbn [fst snd Scenario.with_planted_trees
    Scenario.planted_trees Scenario.id Scenario.created_at].
  repeat split.
  - intro k. apply PyDictFacts.get_del.
  - intro C. rewrite (PyDictFacts.del_absent _ _ C). destruct s; reflexivity.
  - rewrite delete_run. cbn [Scenario.with_planted_trees Scenario.planted_trees
      Scenario.id Scenario.created_at]. rewrite PyDictFacts.del_del. reflexivity.
Qed.

(* ================================================================== *)
(** ** Adding a tree *)

Section AddClaims.
Context {B : Py.Builtins}.

Lemma number_unusable_raises payload k :
  number_unusable payload k ->
  exists pe, res_bind (Py.index payload k) Py.float = Raise (Uncaught pe).
Proof.
  unfold number_unusable, Py.index.
  destruct (PyDict.get k payload) as [v|]; cbn [res_bind].
  - intro N. destruct (Py.float v) as [x|e] eqn:F; [exfalso; exact (N x eq_refl)|].
    destruct (float_raises_uncaught _ _ F) as [pe ->]. exists pe. reflexivity.
  - intros _. eexists. reflexivity.
Qed.

Lemma parse_fails_on_lon_lat payload :
  number_unusable payload "lon" \/ number_unusable payload "lat" ->
  exists pe, parse_add_payload payload = Raise (Uncaught pe).
Proof.
  intro H. destruct (parse_add_payload payload) as [r|e] eqn:P.
  - exfalso. revert P. unfold parse_add_payload.
    destruct H as [H | H]; apply number_unusable_raises in H as [pe H].
    + rewrite H. discriminate.
    + destruct (res_bind (Py.index payload "lon") Py.float); cbn [res_bind];
        [rewrite H|]; discriminate.
  - destruct (parse_raises_uncaught _ _ P) as [pe ->]. exists pe. reflexivity.
Qed.

(** C10: in [add_planted_tree] only [lon] and [lat] are required.  A payload
    in which one of them is missing or is rejected by [float] fails with
    HTTP 400 "Bad payload" and leaves the scenario unchanged; with both
    usable, a missing [species_id], [dbh_in] or [planting_year] does not fail
    and the new tree has "red_maple", 2.0 and 2026 in its place. *)
Theorem add_required_and_defaulted_fields (now_ms : Z) (payload : PyDict.t PyVal)
    (s : Scenario.t) :
  (number_unusable payload "lon" \/ number_unusable payload "lat" ->
     exists cause,
       add_planted_tree now_ms payload s = (Raise (HTTPException 400 (BadPayload cause)), s))
  /\
  (forall lon lat,
     res_bind (Py.index payload "lon") Py.float = Ok lon ->
     res_bind (Py.index payload "lat") Py.float = Ok lat ->
     (PyDict.get "species_id" payload = None \/
      exists v, PyDict.get "species_id" payload = Some v /\
                PyDict.contains (Py.str v) SPECIES_BY_ID = true) ->
     (PyDict.get "dbh_in" payload = None \/
      exists v d, PyDict.get "dbh_in" payload = Some v /\ Py.float v = Ok d) ->
     (PyDict.get "planting_year" payload = None \/
      exists v y, PyDict.get "planting_year" payload = Some v /\ Py.int v = Ok y) ->
     exists tree s',
       add_planted_tree now_ms payload s = (Ok tree, s') /\
       Tree.lon tree = lon /\ Tree.lat tree = lat /\
       (PyDict.get "species_id" payload = None -> Tree.species_id tree = "red_maple") /\
       (PyDict.get "dbh_in" payload = None -> Tree.dbh_in tree = 2.0%float) /\
       (PyDict.get "planting_year" payload = None -> Tree.planting_year tree = 2026%Z)).
Proof.
  split.
  - intro H. destruct (parse_fails_on_lon_lat _ H) as [pe P].
    exists pe. apply add_bad_payload. exact P.
  - intros lon lat Hlon Hlat Hsp Hdbh Hyear.
    set (sid := Py.str (Py.get_default payload "species_id" (PyStr "red_maple"))).
    assert (Ksid : PyDict.contains sid SPECIES_BY_ID = true).
    { unfold sid, Py.get_default.
      destruct Hsp as [-> | (v & -> & K)]; [reflexivity | exact K]. }
    assert (Hd : exists d, Py.float (Py.get_default payload "dbh_in" (PyFloat 2.0)) = Ok d
                           /\ (PyDict.get "dbh_in" payload = None -> d = 2.0%float)).
    { unfold Py.get_default. destruct Hdbh as [-> | (v & d & -> & F)].
      - exists 2.0%float. split; reflexivity.
      - exists d. split; [exact F | discriminate]. }
    assert (Hy : exists y, Py.int (Py.get_default payload "planting_year" (PyInt 2026)) = Ok y
                           /\ (PyDict.get "planting_year" payload = None -> y = 2026%Z)).
    { unfold Py.get_default. destruct Hyear as [-> | (v & y & -> & F)].
      - exists 2026%Z. split; reflexivity.
      - exists y. split; [exact F | discriminate]. }
    destruct Hd as (d & Fd & Dd). destruct Hy as (y & Fy & Dy).
    assert (P : parse_add_payload payload = Ok (lon, lat, sid, d, y)).
    { unfold parse_add_payload. rewrite Hlon. cbn [res_bind]. rewrite Hlat. cbn [res_bind].
      rewrite Fd. cbn [res_bind]. rewrite Fy. reflexivity. }
    unfold PyDict.contains in Ksid.
    destruct (PyDict.get sid SPECIES_BY_ID) as [sp|] eqn:G; [|discriminate Ksid].
    pose proof (add_ok now_ms payload s _ _ _ _ _ _ P G) as E. cbv zeta in E.
    eexists. eexists. split; [exact E|].
    cbn [new_tree Tree.lon Tree.lat Tree.species_id Tree.dbh_in Tree.planting_year].
    repeat split; try assumption.
    intro N. unfold sid, Py.get_default. rewrite N. reflexivity.
Qed.

End AddClaims.

Lemma add_required_and_defaulted_fields_witness :
  (exists cause,
     @add_planted_tree Py.numeric_builtins 1000 [("lon", PyStr "east"); ("lat", PyFloat 40.67)]
                       (Scenario.initial 0)
     = (Raise (HTTPException 400 (BadPayload cause)), Scenario.initial 0))
  /\
  (exists tree s',
     @add_planted_tree Py.numeric_builtins 1000 lon_lat_payload (Scenario.initial 0)
     = (Ok tree, s') /\
     Tree.lon tree = (-73.99)%float /\ Tree.lat tree = 40.67%float /\
     (PyDict.get "species_id" lon_lat_payload = None -> Tree.species_id tree = "red_maple") /\
     (PyDict.get "dbh_in" lon_lat_payload = None -> Tree.dbh_in tree = 2.0%float) /\
     (PyDict.get "planting_year" lon_lat_payload = None -> Tree.planting_year tree = 2026%Z)).
Proof.
  split.
  - apply (proj1 (@add_required_and_defaulted_fields Py.numeric_builtins 1000
                    [("lon", PyStr "east"); ("lat", PyFloat 40.67)] (Scenario.initial 0))).
    left. intros x. discriminate.
  - apply (proj2 (@add_required_and_defaulted_fields Py.numeric_builtins 1000
                    lon_lat_payload (Scenario.initial 0))).
    + reflexivity.
    + reflexivity.
    + left. reflexivity.
    + left. reflexivity.
    + left. reflexivity.
Defined.


(** C4, the code at a failing input: after two adds in the same millisecond
    and the removal of the first tree, a third add in that millisecond
    succeeds with a valid species, generates the identifier of the second
    tree, which is still stored, and replaces that tree: the store holds one
    tree before the add and one tree after it. *)
Lemma add_can_leave_size_unchanged :
  let s := snd (@run Py.numeric_builtins
                  [ReqAdd 1000 lon_lat_payload; ReqAdd 1000 lon_lat_payload;
                   ReqDelete "planted_1000_1"] (Scenario.initial 0)) in
  exists tree s',
    @add_planted_tree Py.numeric_builtins 1000 lon_lat_payload s = (Ok tree, s') /\
    PyDict.contains (Tree.species_id tree) SPECIES_BY_ID = true /\
    PyDict.len (Scenario.planted_trees s) = 1%nat /\
    PyDict.len (Scenario.planted_trees s') = 1%nat /\
    Tree.id tree = "planted_1000_2" /\
    PyDict.keys (Scenario.planted_trees s) = ["planted_1000_2"].
Proof.
  cbv zeta. eexists. eexists. split; [vm_compute; reflexivity|].
  split; [reflexivity|]. split; [reflexivity|]. split; [reflexivity|].
  split; reflexivity.
Qed.

Section IdClaims.
Context {B : Py.Builtins}.

(** X21: over any sequence of add, update, remove and read requests served
    one after the other from the empty store, if no two add requests read
    the same millisecond then the identifiers generated by the successful
    adds are pairwise distinct and no add overwrites a record. *)
Theorem added_identifiers_distinct (rs : list Request) (now : float) :
  NoDup (add_times rs) ->
  NoDup (map added_id (fst (run rs (Scenario.initial now)))) /\
  Forall (fun e => overwrote e = false) (fst (run rs (Scenario.initial now))).
Proof.
  intro ND. destruct (run_fresh rs (Scenario.initial now) ND) as (H1 & H2 & _).
  - constructor.
  - split; assumption.
Qed.
End IdClaims.

Lemma added_identifiers_distinct_witness :
  NoDup (map added_id (fst (@run Py.numeric_builtins distinct_ms_trace (Scenario.initial 0)))) /\
  Forall (fun e => overwrote e = false)
         (fst (@run Py.numeric_builtins distinct_ms_trace (Scenario.initial 0))).
Proof.
  apply (@added_identifiers_distinct Py.numeric_builtins distinct_ms_trace 0%float).
  cbn [add_times distinct_ms_trace].
  repeat (constructor; [cbn [In]; intuition discriminate|]). constructor.
Defined.

(** C3, the code at a failing input: three adds that read the same
    millisecond, with the first tree removed before the third, generate
    "planted_1000_2" twice, and the third add overwrites the second tree,
    which is still stored. *)
Lemma add_reuses_identifier :
  map (fun e => (added_id e, overwrote e))
      (fst (@run Py.numeric_builtins same_ms_trace (Scenario.initial 0)))
  = [("planted_1000_1", false); ("planted_1000_2", false); ("planted_1000_2", true)].
Proof. vm_compute. reflexivity. Qed.

(** C1, the code at a failing input: on a store with one consistent tree,
    an update that carries a new diameter and an unknown species is rejected
    with HTTP 400 "Unknown species_id", yet the stored diameter is already
    10.0 while the stored snapshot is still the old one, so the snapshot no
    longer equals [annual_benefits] of the stored species and diameter. *)
Theorem update_rejected_after_partial_write :
  let payload := [("dbh_in", PyFloat 10.0); ("species_id", PyStr "oak")] in
  let r := @update_planted_tree Py.numeric_builtins "planted_1000_1" payload one_tree_scenario in
  forallb snapshot_consistent (PyDict.values (Scenario.planted_trees one_tree_scenario)) = true /\
  fst r = Raise (HTTPException 400 UnknownSpecies) /\
  option_map Tree.dbh_in (PyDict.get "planted_1000_1" (Scenario.planted_trees (snd r)))
  = Some 10.0%float /\
  option_map Tree.benefits (PyDict.get "planted_1000_1" (Scenario.planted_trees (snd r)))
  = option_map Tree.benefits
      (PyDict.get "planted_1000_1" (Scenario.planted_trees one_tree_scenario)) /\
  forallb snapshot_consistent (PyDict.values (Scenario.planted_trees (snd r))) = false.
Proof. cbv zeta. repeat split; vm_compute; reflexivity. Qed.

(* ================================================================== *)
(** * Further properties of the code *)

(* ================================================================== *)
(** ** Rounded sums of non-negative floats are monotone *)

Section RoundingSums.
#[local] Open Scope Z_scope.

Lemma shl_align_spec m e e' :
  let '(m', e'') := shl_align m e e' in
  e'' = Z.min e e' /\ Z.pos m' = Z.pos m * 2 ^ (e - e'').
Proof.
  unfold shl_align. destruct (e' - e) as [|d|d] eqn:D.
  - split; [lia|]. rewrite Z.sub_diag, Z.pow_0_r. lia.
  - split; [lia|]. rewrite Z.sub_diag, Z.pow_0_r. lia.
  - split; [lia|]. change (Pos.iter xO m d) with (shift_pos d m).
    rewrite shift_pos_correct. change (Z.pow_pos 2 d) with (2 ^ Z.pos d).
    replace (e - e') with (Z.pos d) by lia. lia.
Qed.

Lemma digits2_pos_unique m k :
  2 ^ (k - 1) <= Z.pos m < 2 ^ k -> Z.pos (digits2_pos m) = k.
Proof.
  intros [Hl Hu]. pose proof (digits2_pos_bounds m) as [Dl Du].
  set (d := Z.pos (digits2_pos m)) in *.
  assert (0 < d) by (unfold d; lia).
  assert (0 < k).
  { destruct (Z.lt_ge_cases 0 k) as [L | G]; [exact L|].
    exfalso. assert (2 ^ k <= 2 ^ 0) by (apply Z.pow_le_mono_r; lia).
    change (2 ^ 0) with 1 in *. lia. }
  assert (d - 1 < k).
  { apply (Z.pow_lt_mono_r_iff 2); lia. }
  assert (k - 1 < d).
  { apply (Z.pow_lt_mono_r_iff 2); lia. }
  lia.
Qed.

Lemma digits2_pos_shift m m' j : 0 <= j -> Z.pos m' = Z.pos m * 2 ^ j ->
  Z.pos (digits2_pos m') = Z.pos (digits2_pos m) + j.
Proof.
  intros Hj E. apply digits2_pos_unique. rewrite E.
  pose proof (digits2_pos_bounds m) as [Dl Du].
  assert (0 < 2 ^ j) by (apply Z.pow_pos_nonneg; lia).
  replace (Z.pos (digits2_pos m) + j - 1) with (Z.pos (digits2_pos m) - 1 + j) by lia.
  rewrite !Z.pow_add_r by lia. split.
  - apply Z.mul_le_mono_nonneg_r; lia.
  - apply Zmult_lt_compat_r; lia.
Qed.

(** [binary_round] of a positive number is the rounding of the same value,
    presented at an exponent that [binary_round_aux] only shifts right. *)
Lemma binary_round_pos m e : -1074 <= e ->
  exists m' e',
    binary_round prec emax false m e = round_pos (Z.pos m') e' /\
    -1074 <= e' /\
    e' <= fexp prec emax (Zdigits2 (Z.pos m') + e') /\
    Z.pos m' * 2 ^ (e' + 1074) = Z.pos m * 2 ^ (e + 1074).
Proof.
  intro He. unfold binary_round.
  pose proof (shl_align_spec m e (fexp prec emax (Z.pos (digits2_pos m) + e))) as S.
  pose proof (fexp_ge_emin (Z.pos (digits2_pos m) + e)) as Hc.
  destruct (shl_align m e (fexp prec emax (Z.pos (digits2_pos m) + e))) as [m' e'].
  destruct S as [Ee Em].
  assert (Hd : Z.pos (digits2_pos m') = Z.pos (digits2_pos m) + (e - e')).
  { apply digits2_pos_shift; [lia | exact Em]. }
  assert (Hshift : e' <= fexp prec emax (Z.pos (digits2_pos m') + e')).
  { rewrite Hd. replace (Z.pos (digits2_pos m) + (e - e') + e')
      with (Z.pos (digits2_pos m) + e) by lia. lia. }
  exists m', e'. split; [apply binary_round_aux_pos; exact Hshift|].
  split; [lia|]. split; [exact Hshift|].
  rewrite Em. replace (e + 1074) with ((e - e') + (e' + 1074)) by lia.
  rewrite (Z.pow_add_r 2 (e - e')) by lia. ring.
Qed.

Lemma SFadd_finite_nn m1 e1 m2 e2 :
  bounded prec emax m1 e1 = true -> bounded prec emax m2 e2 = true ->
  exists m' e',
    SFadd prec emax (S754_finite false m1 e1) (S754_finite false m2 e2)
    = round_pos (Z.pos m') e' /\
    -1074 <= e' /\
    e' <= fexp prec emax (Zdigits2 (Z.pos m') + e') /\
    Z.pos m' * 2 ^ (e' + 1074)
    = nnval (S754_finite false m1 e1) + nnval (S754_finite false m2 e2).
Proof.
  intros B1 B2.
  destruct (bounded_facts _ _ B1) as (He1 & _). destruct (bounded_facts _ _ B2) as (He2 & _).
  cbn [SFadd cond_Zopp nnval].
  pose proof (shl_align_spec m1 e1 (Z.min e1 e2)) as S1.
  pose proof (shl_align_spec m2 e2 (Z.min e1 e2)) as S2.
  destruct (shl_align m1 e1 (Z.min e1 e2)) as [a1 x1].
  destruct (shl_align m2 e2 (Z.min e1 e2)) as [a2 x2].
  destruct S1 as [X1 A1]. destruct S2 as [X2 A2]. cbn [fst].
  change (Z.pos a1 + Z.pos a2) with (Z.pos (a1 + a2)). cbn [binary_normalize].
  destruct (binary_round_pos (a1 + a2) (Z.min e1 e2) ltac:(lia)) as (m' & e' & R & L & Sh & V).
  exists m', e'. split; [exact R|]. split; [exact L|]. split; [exact Sh|].
  rewrite V, Pos2Z.inj_add, A1, A2.
  replace x1 with (Z.min e1 e2) by lia. replace x2 with (Z.min e1 e2) by lia.
  replace (e1 + 1074) with ((e1 - Z.min e1 e2) + (Z.min e1 e2 + 1074)) by lia.
  replace (e2 + 1074) with ((e2 - Z.min e1 e2) + (Z.min e1 e2 + 1074)) by lia.
  rewrite (Z.pow_add_r 2 (e1 - Z.min e1 e2)) by lia.
  rewrite (Z.pow_add_r 2 (e2 - Z.min e1 e2)) by lia. ring.
Qed.

Lemma round_pos_canonical m e : bounded prec emax m e = true ->
  round_pos (Z.pos m) e = S754_finite false m e.
Proof.
  intro Bd. destruct (bounded_facts _ _ Bd) as (He & Hd & _).
  unfold bounded, canonical_mantissa in Bd. apply andb_true_iff in Bd as [C _].
  apply Z.eqb_eq in C. unfold round_pos. cbn [Zdigits2]. rewrite C, Z.sub_diag.
  assert (R : rne_at (Z.pos m) 0 = Z.pos m).
  { unfold rne_at. rewrite Z.pow_0_r, Z.div_1_r, Z.mod_1_r. reflexivity. }
  rewrite R. pose proof (digits2_pos_bounds m) as [_ Du].
  assert (Z.pos m < 2 ^ 53).
  { eapply Z.lt_le_trans; [exact Du|]. apply Z.pow_le_mono_r; lia. }
  destruct (Z.eqb_spec (Z.pos m) (2 ^ 53)) as [E | _]; [lia|].
  unfold pack. cbn [Z.eqb Z.to_pos].
  destruct (Z.leb_spec e 971); [reflexivity | lia].
Qed.

(** A float below an exact sum is below the rounded sum. *)
Lemma SFleb_finite_sum m1 e1 m2 e2 x :
  bounded prec emax m1 e1 = true -> bounded prec emax m2 e2 = true ->
  nn x = true -> valid_binary x = true -> x <> S754_infinity false ->
  nnval x <= nnval (S754_finite false m1 e1) + nnval (S754_finite false m2 e2) ->
  SFleb x (SFadd prec emax (S754_finite false m1 e1) (S754_finite false m2 e2)) = true.
Proof.
  intros B1 B2 Nx Vx Hinf Hx.
  destruct (SFadd_finite_nn m1 e1 m2 e2 B1 B2) as (m' & e' & -> & L & Sh & V).
  destruct x as [[|]|[|]| |[|] mx ex]; try discriminate Nx.
  - apply SFleb_zero_nn, nn_round_pos.
  - contradiction.
  - cbn [valid_binary] in Vx. destruct (bounded_facts _ _ Vx) as (Hex & _).
    rewrite <- (round_pos_canonical mx ex Vx).
    apply round_pos_mono with (E := -1074); try lia.
    + unfold bounded, canonical_mantissa in Vx. apply andb_true_iff in Vx as [C _].
      apply Z.eqb_eq in C. cbn [Zdigits2]. lia.
    + replace (ex - -1074) with (ex + 1074) by lia.
      replace (e' - -1074) with (e' + 1074) by lia. rewrite V. exact Hx.
Qed.

Lemma SFadd_finite_sums_mono m1 e1 m2 e2 m3 e3 m4 e4 :
  bounded prec emax m1 e1 = true -> bounded prec emax m2 e2 = true ->
  bounded prec emax m3 e3 = true -> bounded prec emax m4 e4 = true ->
  nnval (S754_finite false m1 e1) + nnval (S754_finite false m2 e2)
  <= nnval (S754_finite false m3 e3) + nnval (S754_finite false m4 e4) ->
  SFleb (SFadd prec emax (S754_finite false m1 e1) (S754_finite false m2 e2))
        (SFadd prec emax (S754_finite false m3 e3) (S754_finite false m4 e4)) = true.
Proof.
  intros B1 B2 B3 B4 H.
  destruct (SFadd_finite_nn m1 e1 m2 e2 B1 B2) as (ma & ea & -> & La & Sa & Va).
  destruct (SFadd_finite_nn m3 e3 m4 e4 B3 B4) as (mb & eb & -> & Lb & Sb & Vb).
  apply round_pos_mono with (E := -1074); try lia; try assumption.
  replace (ea - -1074) with (ea + 1074) by lia.
  replace (eb - -1074) with (eb + 1074) by lia. rewrite Va, Vb. exact H.
Qed.

Lemma nn_SFadd_finite m1 e1 m2 e2 :
  bounded prec emax m1 e1 = true -> bounded prec emax m2 e2 = true ->
  nn (SFadd prec emax (S754_finite false m1 e1) (S754_finite false m2 e2)) = true.
Proof.
  intros B1 B2. destruct (SFadd_finite_nn m1 e1 m2 e2 B1 B2) as (m' & e' & -> & _).
  apply nn_round_pos.
Qed.

Lemma SFadd_nn_mono a a' b b' :
  valid_binary a = true -> valid_binary a' = true ->
  valid_binary b = true -> valid_binary b' = true ->
  nn a = true -> nn a' = true -> nn b = true -> nn b' = true ->
  SFleb a a' = true -> SFleb b b' = true ->
  nn (SFadd prec emax a b) = true /\ nn (SFadd prec emax a' b') = true /\
  SFleb (SFadd prec emax a b) (SFadd prec emax a' b') = true.
Proof.
  intros Va Va' Vb Vb' Na Na' Nb Nb' Laa Lbb.
  pose proof (SFleb_nnval a a' Na Na' Va Va') as Haa. rewrite Laa in Haa.
  pose proof (SFleb_nnval b b' Nb Nb' Vb Vb') as Hbb. rewrite Lbb in Hbb.
  symmetry in Haa, Hbb. apply Z.leb_le in Haa, Hbb.
  destruct a as [[|]|[|]| |[|] ma ea]; try discriminate Na;
  destruct a' as [[|]|[|]| |[|] ma' ea']; try discriminate Na'; try discriminate Laa;
  destruct b as [[|]|[|]| |[|] mb eb]; try discriminate Nb;
  destruct b' as [[|]|[|]| |[|] mb' eb']; try discriminate Nb'; try discriminate Lbb;
  cbn [valid_binary] in Va, Va', Vb, Vb';
  (split; [| split]);
  try reflexivity; try assumption;
  try (apply nn_SFadd_finite; assumption);
  try (apply SFleb_nn_inf, nn_SFadd_finite; assumption);
  try (apply SFadd_finite_sums_mono; try assumption; lia);
  try change (SFadd prec emax (S754_zero false) (S754_zero false)) with (S754_zero false);
  try change (SFadd prec emax (S754_zero false) (S754_finite false mb eb))
        with (S754_finite false mb eb);
  try change (SFadd prec emax (S754_finite false ma ea) (S754_zero false))
        with (S754_finite false ma ea);
  try (apply SFleb_finite_sum; try assumption; try reflexivity; try discriminate;
       pose proof (nnval_finite_lt_big false ma' ea');
       pose proof (nnval_finite_lt_big false mb' eb');
       cbn [nnval] in *; lia).
Qed.
End RoundingSums.

Section RoundedValid.
#[local] Open Scope Z_scope.

Lemma valid_round_pos m e : 0 < m -> e <= fexp prec emax (Zdigits2 m + e) ->
  valid_binary (round_pos m e) = true.
Proof.
  intros Hm Hc. destruct m as [|p|p]; [lia | | lia]. cbn [Zdigits2] in Hc.
  pose proof (digits2_pos_bounds p) as [Dl Du].
  unfold round_pos. cbn [Zdigits2]. rewrite fexp_eq in *.
  set (d := Z.pos (digits2_pos p)) in *. assert (0 < d) by (unfold d; lia).
  set (c := Z.max (d + e - 53) (-1074)) in *.
  pose proof (rne_at_small (Z.pos p) (c - e) d ltac:(lia) ltac:(lia) Du ltac:(lia)) as Hk.
  pose proof (rne_at_bounds (Z.pos p) (c - e)) as Hb.
  set (k := rne_at (Z.pos p) (c - e)) in *.
  assert (P52 : 2 ^ 52 = 4503599627370496) by reflexivity.
  assert (P53 : 2 ^ 53 = 9007199254740992) by reflexivity.
  destruct (Z.eqb_spec k (2 ^ 53)) as [K | K].
  - unfold pack. change (2 ^ 52 =? 0) with false. cbv iota.
    destruct (Z.leb_spec (c + 1) 971); [|reflexivity].
    cbn [valid_binary]. unfold bounded, canonical_mantissa.
    change (Z.pos (digits2_pos (Z.to_pos (2 ^ 52)))) with 53. rewrite fexp_eq.
    apply andb_true_iff. split; [apply Z.eqb_eq; lia | apply Z.leb_le].
    change (emax - prec) with 971. lia.
  - unfold pack. destruct (Z.eqb_spec k 0) as [K0 | K0]; [reflexivity|].
    destruct (Z.leb_spec c 971); [|reflexivity].
    cbn [valid_binary]. unfold bounded, canonical_mantissa.
    destruct k as [|kp|kp]; [lia | | lia]. cbn [Z.to_pos].
    apply andb_true_iff. split; [|apply Z.leb_le; change (emax - prec) with 971; lia].
    apply Z.eqb_eq. rewrite fexp_eq.
    destruct (Z.eq_dec c (-1074)) as [C | C].
    + pose proof (digits2_pos_bounds kp) as [Kl _].
      assert (Z.pos (digits2_pos kp) <= 53).
      { destruct (Z.le_gt_cases (Z.pos (digits2_pos kp)) 53) as [L | G]; [exact L|].
        exfalso.
        assert (2 ^ 53 <= 2 ^ (Z.pos (digits2_pos kp) - 1)) by (apply Z.pow_le_mono_r; lia).
        lia. }
      lia.
    + assert (Hn : c - e = d - 53) by lia.
      assert (2 ^ 52 <= Z.pos p / 2 ^ (c - e)).
      { rewrite Hn. apply Z.div_le_lower_bound; [apply Z.pow_pos_nonneg; lia|].
        rewrite <- Z.pow_add_r by lia. replace (d - 53 + 52) with (d - 1) by lia. exact Dl. }
      rewrite (digits2_pos_unique kp 53); [lia|].
      change (53 - 1) with 52. lia.
Qed.

Lemma binary_normalize_nn z : 0 <= z ->
  nn (binary_normalize prec emax z 0 false) = true /\
  valid_binary (binary_normalize prec emax z 0 false) = true.
Proof.
  intro Hz. destruct z as [|p|p]; [split; reflexivity | | lia].
  cbn [binary_normalize].
  destruct (binary_round_pos p 0 ltac:(lia)) as (m' & e' & -> & L & Sh & V).
  split; [apply nn_round_pos | apply valid_round_pos; [lia | exact Sh]].
Qed.

Lemma binary_normalize_mono z1 z2 : 0 <= z1 <= z2 ->
  SFleb (binary_normalize prec emax z1 0 false) (binary_normalize prec emax z2 0 false) = true.
Proof.
  intros [H1 H2]. destruct z2 as [|p2|p2]; [ | | lia].
  - assert (z1 = 0) by lia. subst. reflexivity.
  - destruct z1 as [|p1|p1]; [ | | lia].
    + apply SFleb_zero_nn. apply binary_normalize_nn. lia.
    + cbn [binary_normalize].
      destruct (binary_round_pos p1 0 ltac:(lia)) as (m1 & e1 & -> & L1 & S1 & V1).
      destruct (binary_round_pos p2 0 ltac:(lia)) as (m2 & e2 & -> & L2 & S2 & V2).
      apply round_pos_mono with (E := -1074); try lia; try assumption.
      replace (e1 - -1074) with (e1 + 1074) by lia.
      replace (e2 - -1074) with (e2 + 1074) by lia. rewrite V1, V2.
      apply Z.mul_le_mono_nonneg_r; [apply Z.pow_nonneg|]; lia.
Qed.
End RoundedValid.

Section FloatSums.
#[local] Open Scope float_scope.

Lemma add_mono a a' b b' : nn_le a a' -> nn_le b b' -> nn_le (a + b) (a' + b').
Proof.
  intros (Na & Na' & La) (Nb & Nb' & Lb).
  destruct (SFadd_nn_mono (Prim2SF a) (Prim2SF a') (Prim2SF b) (Prim2SF b'))
    as (N1 & N2 & L); auto using Prim2SF_valid.
  - rewrite <- leb_spec, leb_fval by assumption. apply Z.leb_le; assumption.
  - rewrite <- leb_spec, leb_fval by assumption. apply Z.leb_le; assumption.
  - unfold nn_le, fnn. rewrite !add_spec. unfold SF64add.
    split; [exact N1 | split; [exact N2 |]].
    apply Z.leb_le. rewrite <- leb_fval by (unfold fnn; rewrite add_spec; assumption).
    rewrite leb_spec, !add_spec. exact L.
Qed.

Lemma nn_le_leb x y : nn_le x y -> (x <=? y) = true.
Proof. intros (Nx & Ny & L). rewrite leb_fval by assumption. apply Z.leb_le. exact L. Qed.

Lemma nn_le_refl x : fnn x = true -> nn_le x x.
Proof. intro N. repeat split; try assumption. lia. Qed.

Lemma float_of_int_ok z Y : Py.float_of_int z = Ok Y ->
  Y = SF2Prim (binary_normalize prec emax z 0 false).
Proof.
  unfold Py.float_of_int. destruct (binary_normalize prec emax z 0 false); congruence.
Qed.

Lemma float_of_int_mono y1 y2 Y1 Y2 : (0 <= y1 <= y2)%Z ->
  Py.float_of_int y1 = Ok Y1 -> Py.float_of_int y2 = Ok Y2 -> nn_le Y1 Y2.
Proof.
  intros H E1 E2. apply float_of_int_ok in E1, E2.
  pose proof (binary_normalize_mono y1 y2 H) as L.
  destruct (binary_normalize_nn y1 ltac:(lia)) as [N1 V1].
  destruct (binary_normalize_nn y2 ltac:(lia)) as [N2 V2].
  assert (P1 : Prim2SF Y1 = binary_normalize prec emax y1 0 false).
  { rewrite E1. apply Prim2SF_SF2Prim. exact V1. }
  assert (P2 : Prim2SF Y2 = binary_normalize prec emax y2 0 false).
  { rewrite E2. apply Prim2SF_SF2Prim. exact V2. }
  assert (F1 : fnn Y1 = true) by (unfold fnn; rewrite P1; exact N1).
  assert (F2 : fnn Y2 = true) by (unfold fnn; rewrite P2; exact N2).
  split; [exact F1 | split; [exact F2|]].
  apply Z.leb_le. rewrite <- leb_fval by assumption. rewrite leb_spec, P1, P2. exact L.
Qed.
End FloatSums.

(* ================================================================== *)
(** ** Growth projections *)

Section Growth.
#[local] Open Scope float_scope.

Lemma project_tree_run sid sp d years Y :
  PyDict.get sid SPECIES_BY_ID = Some sp -> Py.float_of_int years = Ok Y ->
  project_tree sid d years
  = Ok (snapshot_of sp (d + Species.dbh_growth_in_per_year sp * Y)).
Proof.
  intros G E. unfold project_tree. rewrite (species_lookup_ok _ _ G), E. cbn [res_bind].
  apply annual_benefits_ok. exact G.
Qed.

Lemma max0_add_zero d : Py.max 0 (d + 0) = Py.max 0 d.
Proof.
  assert (H : d + 0 = d \/ (d + 0 = 0 /\ exists s, Prim2SF d = S754_zero s)).
  { destruct (Prim2SF d) as [s|s| |s m e] eqn:D.
    - right. split; [|exists s; reflexivity]. apply Prim2SF_inj. rewrite add_spec, D.
      destruct s; reflexivity.
    - left. apply Prim2SF_inj. rewrite add_spec, D. reflexivity.
    - left. apply Prim2SF_inj. rewrite add_spec, D. reflexivity.
    - left. apply Prim2SF_inj. rewrite add_spec, D. reflexivity. }
  destruct H as [-> | (-> & s & D)]; [reflexivity|].
  unfold Py.max. rewrite (ltb_spec 0 d), D. destruct s; reflexivity.
Qed.

Lemma mul_zero_right g : finite_pos g = true -> g * 0 = 0.
Proof.
  unfold finite_pos. intro H. apply Prim2SF_inj. rewrite mul_spec.
  destruct (Prim2SF g) as [s|s| |[|] m e]; try discriminate H. reflexivity.
Qed.

Lemma snapshot_nn_le sp d1 d2 : species_coefs_ok sp = true -> (d1 <=? d2) = true ->
  nn_le (Benefits.canopy_area_m2 (snapshot_of sp d1)) (Benefits.canopy_area_m2 (snapshot_of sp d2)) /\
  nn_le (Benefits.carbon_kg_per_year (snapshot_of sp d1))
        (Benefits.carbon_kg_per_year (snapshot_of sp d2)) /\
  nn_le (Benefits.stormwater_l_per_year (snapshot_of sp d1))
        (Benefits.stormwater_l_per_year (snapshot_of sp d2)) /\
  nn_le (Benefits.pollution_g_per_year (snapshot_of sp d1))
        (Benefits.pollution_g_per_year (snapshot_of sp d2)).
Proof.
  unfold species_coefs_ok. rewrite !andb_true_iff.
  intros ((((_ & Hk) & Hc) & Hs) & Hp) L.
  unfold snapshot_of, nn_le. cbn [Benefits.canopy_area_m2 Benefits.carbon_kg_per_year
    Benefits.stormwater_l_per_year Benefits.pollution_g_per_year].
  destruct (radius_mono _ _ _ Hk L) as (Nr1 & Nr2 & Lr).
  destruct (area_mono _ _ Nr1 Nr2 Lr) as (Na1 & Na2 & La).
  pose proof (const_mul_mono _ _ _ Hc (max0_nn d1) (max0_nn d2) (max0_mono _ _ L)).
  pose proof (const_mul_mono _ _ _ Hs Na1 Na2 La).
  pose proof (const_mul_mono _ _ _ Hp Na1 Na2 La).
  auto.
Qed.

Lemma neg_zero_add d z : Prim2SF d = S754_zero true -> fnn z = true -> d + z = 0 + z.
Proof.
  unfold fnn. intros D N. apply Prim2SF_inj. rewrite !add_spec, D.
  change (Prim2SF 0) with (S754_zero false).
  destruct (Prim2SF z) as [[|]|[|]| |[|] m e]; try discriminate N; reflexivity.
Qed.

Lemma grown_dbh_mono g d Y1 Y2 : finite_pos g = true -> (0 <=? d) = true ->
  nn_le Y1 Y2 -> (d + g * Y1 <=? d + g * Y2) = true.
Proof.
  intros Hg Hd (N1 & N2 & L).
  destruct (const_mul_mono g Y1 Y2 Hg N1 N2 L) as (M1 & M2 & LM).
  assert (Hz : nn_le (0 + g * Y1) (0 + g * Y2)).
  { apply add_mono; [apply nn_le_refl; reflexivity | repeat split; assumption]. }
  rewrite leb_spec in Hd. change (Prim2SF 0) with (S754_zero false) in Hd.
  destruct (Prim2SF d) as [[|]|[|]| |[|] m e] eqn:D; try discriminate Hd.
  - rewrite !(neg_zero_add d) by assumption. apply nn_le_leb. exact Hz.
  - apply nn_le_leb, add_mono; [apply nn_le_refl; unfold fnn; rewrite D; reflexivity
                               | repeat split; assumption].
  - apply nn_le_leb, add_mono; [apply nn_le_refl; unfold fnn; rewrite D; reflexivity
                               | repeat split; assumption].
  - apply nn_le_leb, add_mono; [apply nn_le_refl; unfold fnn; rewrite D; reflexivity
                               | repeat split; assumption].
Qed.

Lemma float_of_int_below y1 y2 Y2 : (0 <= y1 <= y2)%Z -> Py.float_of_int y2 = Ok Y2 ->
  exists Y1, Py.float_of_int y1 = Ok Y1.
Proof.
  intros H E2. pose proof (binary_normalize_mono y1 y2 H) as L.
  destruct (binary_normalize_nn y1 ltac:(lia)) as [N1 _].
  unfold Py.float_of_int in *.
  destruct (binary_normalize prec emax y1 0 false) as [s|[|]| |s m e];
    try (eexists; reflexivity); try discriminate N1.
  destruct (binary_normalize prec emax y2 0 false) as [s|[|]| |[|] m e];
    try discriminate L; discriminate E2.
Qed.

(** X1: for a catalog species and any diameter, [project_tree] over zero
    years returns exactly what [annual_benefits] returns today. *)
Theorem project_tree_zero_years (sid : string) (sp : Species.t) (d : float) :
  PyDict.get sid SPECIES_BY_ID = Some sp ->
  project_tree sid d 0 = annual_benefits sid d.
Proof.
  intro G. rewrite (project_tree_run sid sp d 0 0 G eq_refl), (annual_benefits_ok _ _ _ G).
  f_equal. pose proof (catalog_coefs_ok _ _ G) as C. unfold species_coefs_ok in C.
  rewrite !andb_true_iff in C. destruct C as ((((Hg & _) & _) & _) & _).
  rewrite (mul_zero_right _ Hg). unfold snapshot_of. rewrite max0_add_zero. reflexivity.
Qed.

Lemma project_tree_zero_years_witness :
  project_tree "ginkgo" 3.5%float 0 = annual_benefits "ginkgo" 3.5%float.
Proof.
  apply (project_tree_zero_years "ginkgo" ginkgo 3.5%float). reflexivity.
Defined.

(** X2: for a catalog species and a diameter that is not negative,
    [project_tree] succeeds for both of two horizons [0 <= y1 <= y2]
    (provided [y2] converts to a float) and the canopy area, the carbon,
    the stormwater and the pollution figures at [y1] are at most those at
    [y2]. *)
Theorem project_tree_monotone_in_years (sid : string) (sp : Species.t) (d : float)
    (y1 y2 : Z) (Y2 : float) :
  PyDict.get sid SPECIES_BY_ID = Some sp ->
  (0 <=? d) = true -> (0 <= y1 <= y2)%Z -> Py.float_of_int y2 = Ok Y2 ->
  exists b1 b2,
    project_tree sid d y1 = Ok b1 /\ project_tree sid d y2 = Ok b2 /\
    (Benefits.canopy_area_m2 b1 <=? Benefits.canopy_area_m2 b2) = true /\
    (Benefits.carbon_kg_per_year b1 <=? Benefits.carbon_kg_per_year b2) = true /\
    (Benefits.stormwater_l_per_year b1 <=? Benefits.stormwater_l_per_year b2) = true /\
    (Benefits.pollution_g_per_year b1 <=? Benefits.pollution_g_per_year b2) = true.
Proof.
  intros G Hd Hy E2. destruct (float_of_int_below y1 y2 Y2 Hy E2) as [Y1 E1].
  eexists. eexists. split; [apply (project_tree_run _ _ _ _ _ G E1)|].
  split; [apply (project_tree_run _ _ _ _ _ G E2)|].
  pose proof (catalog_coefs_ok _ _ G) as C.
  apply snapshot_mono; [exact C|].
  unfold species_coefs_ok in C. rewrite !andb_true_iff in C.
  destruct C as ((((Hg & _) & _) & _) & _).
  apply grown_dbh_mono; [exact Hg | exact Hd | exact (float_of_int_mono _ _ _ _ Hy E1 E2)].
Qed.

Lemma project_tree_monotone_in_years_witness :
  exists b1 b2,
    project_tree "london_plane" 2.0%float 5 = Ok b1 /\
    project_tree "london_plane" 2.0%float 20 = Ok b2 /\
    (Benefits.canopy_area_m2 b1 <=? Benefits.canopy_area_m2 b2)%float = true /\
    (Benefits.carbon_kg_per_year b1 <=? Benefits.carbon_kg_per_year b2)%float = true /\
    (Benefits.stormwater_l_per_year b1 <=? Benefits.stormwater_l_per_year b2)%float = true /\
    (Benefits.pollution_g_per_year b1 <=? Benefits.pollution_g_per_year b2)%float = true.
Proof.
  apply (project_tree_monotone_in_years "london_plane" london_plane 2.0%float 5 20 20.0%float);
    [reflexivity | reflexivity | lia | reflexivity].
Defined.
End Growth.

(* ================================================================== *)
(** ** Scenario totals over the horizon *)

Section ProjectionGrowth.

Lemma project_tree_nn_le t h1 h2 Y1 Y2 :
  plantable t -> Py.float_of_int h1 = Ok Y1 -> Py.float_of_int h2 = Ok Y2 -> nn_le Y1 Y2 ->
  exists p1 p2,
    project_tree (Tree.species_id t) (Tree.dbh_in t) h1 = Ok p1 /\
    project_tree (Tree.species_id t) (Tree.dbh_in t) h2 = Ok p2 /\
    nn_le (Benefits.carbon_kg_per_year p1) (Benefits.carbon_kg_per_year p2) /\
    nn_le (Benefits.stormwater_l_per_year p1) (Benefits.stormwater_l_per_year p2) /\
    nn_le (Benefits.pollution_g_per_year p1) (Benefits.pollution_g_per_year p2) /\
    nn_le (Benefits.canopy_area_m2 p1) (Benefits.canopy_area_m2 p2).
Proof.
  intros [K D] E1 E2 L. unfold species_known, PyDict.contains in K.
  destruct (PyDict.get (Tree.species_id t) SPECIES_BY_ID) as [sp|] eqn:G; [|discriminate K].
  eexists. eexists. split; [apply (project_tree_run _ _ _ _ _ G E1)|].
  split; [apply (project_tree_run _ _ _ _ _ G E2)|].
  pose proof (catalog_coefs_ok _ _ G) as C.
  assert (Hg : finite_pos (Species.dbh_growth_in_per_year sp) = true).
  { unfold species_coefs_ok in C. rewrite !andb_true_iff in C. tauto. }
  destruct (snapshot_nn_le sp _ _ C (grown_dbh_mono _ _ _ _ Hg D L)) as (A & Cb & S & P).
  auto.
Qed.

Lemma projection_loop_mono h1 h2 Y1 Y2 trees :
  Py.float_of_int h1 = Ok Y1 -> Py.float_of_int h2 = Ok Y2 -> nn_le Y1 Y2 ->
  Forall plantable trees ->
  forall tot1 tot2 per1 per2, totals_le tot1 tot2 ->
  exists r1 r2,
    projection_loop h1 trees tot1 per1 = Ok r1 /\
    projection_loop h2 trees tot2 per2 = Ok r2 /\
    totals_le (fst r1) (fst r2).
Proof.
  intros E1 E2 L. induction 1 as [|t trees Ht _ IH]; intros tot1 tot2 per1 per2 T.
  - eexists. eexists. split; [reflexivity|]. split; [reflexivity | exact T].
  - destruct (project_tree_nn_le t h1 h2 Y1 Y2 Ht E1 E2 L)
      as (p1 & p2 & P1 & P2 & Lc & Ls & Lp & La).
    cbn [projection_loop]. rewrite P1, P2. cbn [res_bind]. apply IH.
    destruct T as (Tc & Ts & Tp & Ta).
    unfold totals_le, Totals.accumulate. cbn [Totals.carbon_kg_per_year
      Totals.stormwater_l_per_year Totals.pollution_g_per_year Totals.canopy_area_m2].
    split; [|split; [|split]]; apply add_mono; assumption.
Qed.

Lemma totals_le_zero : totals_le Totals.zero Totals.zero.
Proof. unfold totals_le, nn_le. cbn. repeat split; reflexivity || lia. Qed.

Lemma allowed_horizons_nn_le h1 h2 : In h1 [5; 10; 15; 20]%Z -> In h2 [5; 10; 15; 20]%Z ->
  (h1 <= h2)%Z ->
  exists Y1 Y2, Py.float_of_int h1 = Ok Y1 /\ Py.float_of_int h2 = Ok Y2 /\ nn_le Y1 Y2.
Proof.
  intros A1 A2 L. destruct (float_of_int_allowed _ A1) as [Y1 E1].
  destruct (float_of_int_allowed _ A2) as [Y2 E2]. exists Y1, Y2.
  split; [exact E1 | split; [exact E2|]].
  apply (float_of_int_mono h1 h2); try assumption.
  cbn [In] in A1. lia.
Qed.

(** X3: when every stored tree has a catalog species and a diameter that is
    not negative, [scenario_projection] succeeds for two allowed horizons
    [h1 <= h2] and each of the four totals at [h1] is at most the total at
    [h2]. *)
Theorem scenario_projection_monotone_in_horizon (h1 h2 : Z) (s : Scenario.t) :
  In h1 [5; 10; 15; 20]%Z -> In h2 [5; 10; 15; 20]%Z -> (h1 <= h2)%Z ->
  Forall plantable (PyDict.values (Scenario.planted_trees s)) ->
  exists r1 r2,
    fst (scenario_projection h1 s) = Ok r1 /\
    fst (scenario_projection h2 s) = Ok r2 /\
    (Totals.carbon_kg_per_year (Projection.total r1)
       <=? Totals.carbon_kg_per_year (Projection.total r2))%float = true /\
    (Totals.stormwater_l_per_year (Projection.total r1)
       <=? Totals.stormwater_l_per_year (Projection.total r2))%float = true /\
    (Totals.pollution_g_per_year (Projection.total r1)
       <=? Totals.pollution_g_per_year (Projection.total r2))%float = true /\
    (Totals.canopy_area_m2 (Projection.total r1)
       <=? Totals.canopy_area_m2 (Projection.total r2))%float = true.
Proof.
  intros A1 A2 L F.
  destruct (allowed_horizons_nn_le h1 h2 A1 A2 L) as (Y1 & Y2 & E1 & E2 & LY).
  destruct (projection_loop_mono h1 h2 Y1 Y2 _ E1 E2 LY F Totals.zero Totals.zero [] []
              totals_le_zero) as (r1 & r2 & R1 & R2 & (Tc & Ts & Tp & Ta)).
  unfold scenario_projection.
  apply horizon_allowed_iff in A1, A2. rewrite A1, A2. cbn [negb].
  unfold bind, read, lift, ret. rewrite R1, R2. cbn [fst snd Projection.total].
  eexists. eexists. split; [reflexivity|]. split; [reflexivity|].
  split; [|split; [|split]]; apply nn_le_leb; assumption.
Qed.

Lemma scenario_projection_monotone_in_horizon_witness :
  exists r1 r2,
    fst (scenario_projection 5 one_tree_scenario) = Ok r1 /\
    fst (scenario_projection 20 one_tree_scenario) = Ok r2 /\
    (Totals.carbon_kg_per_year (Projection.total r1)
       <=? Totals.carbon_kg_per_year (Projection.total r2))%float = true /\
    (Totals.stormwater_l_per_year (Projection.total r1)
       <=? Totals.stormwater_l_per_year (Projection.total r2))%float = true /\
    (Totals.pollution_g_per_year (Projection.total r1)
       <=? Totals.pollution_g_per_year (Projection.total r2))%float = true /\
    (Totals.canopy_area_m2 (Projection.total r1)
       <=? Totals.canopy_area_m2 (Projection.total r2))%float = true.
Proof.
  apply (scenario_projection_monotone_in_horizon 5 20 one_tree_scenario).
  - left; reflexivity.
  - right; right; right; left; reflexivity.
  - lia.
  - constructor; [split; reflexivity | constructor].
Defined.
End ProjectionGrowth.

(* ================================================================== *)
(** ** Updating, adding and removing planted trees *)

Section HandlerRuns.
Context {B : Py.Builtins}.

Lemma bind_run {A C} (m : Handler A) (k : A -> Handler C) s a s1 :
  m s = (Ok a, s1) -> bind m k s = k a s1.
Proof. intro H. unfold bind. rewrite H. reflexivity. Qed.

Lemma bind_ok {A C} (m : Handler A) (k : A -> Handler C) s c s' :
  bind m k s = (Ok c, s') -> exists a s1, m s = (Ok a, s1) /\ k a s1 = (Ok c, s').
Proof.
  unfold bind. destruct (m s) as [[a|e] s1]; [|discriminate].
  intro H. exists a, s1. split; [reflexivity | exact H].
Qed.

Lemma assign_run tree_id f s :
  assign tree_id f s
  = (Ok tt, Scenario.with_planted_trees (PyDict.alter f tree_id (Scenario.planted_trees s)) s).
Proof. reflexivity. Qed.

Lemma get_after_assign tree_id f s t :
  PyDict.get tree_id (Scenario.planted_trees s) = Some t ->
  PyDict.get tree_id (Scenario.planted_trees (snd (assign tree_id f s))) = Some (f t).
Proof.
  intro G. rewrite assign_run. cbn [snd Scenario.with_planted_trees Scenario.planted_trees].
  rewrite PyDictFacts.get_alter, String.eqb_refl, G. reflexivity.
Qed.

(** One [if k in payload: t[k] = conv(payload[k])] statement, followed on the
    tree stored under [tree_id]. *)
Lemma when_in_track {A} (conv : PyVal -> Res A) (setter : A -> Tree.t -> Tree.t)
    (proj : Tree.t -> A) k payload tree_id s1 t1 x :
  PyDict.get tree_id (Scenario.planted_trees s1) = Some t1 ->
  field_or conv payload k (proj t1) = Ok x ->
  setter (proj t1) t1 = t1 ->
  exists s2,
    when_in k payload (fun v => y <- lift (conv v) ;; assign tree_id (setter y)) s1 = (Ok tt, s2) /\
    PyDict.get tree_id (Scenario.planted_trees s2) = Some (setter x t1).
Proof.
  intros G F Eta. unfold field_or in F. unfold when_in.
  destruct (PyDict.get k payload) as [v|].
  - unfold bind, lift. rewrite F. eexists. split; [apply assign_run|].
    apply (get_after_assign tree_id (setter x) s1 t1 G).
  - injection F as <-. exists s1. split; [reflexivity|]. rewrite Eta. exact G.
Qed.

(** The closing statements of [update_planted_tree]: recompute the snapshot,
    store it, return the tree. *)
Lemma update_tail_ok tree_id s1 t s' :
  (t1 <- deref tree_id ;;
   benefits <- lift (annual_benefits (Tree.species_id t1) (Tree.dbh_in t1)) ;;
   assign tree_id (Tree.set_benefits benefits) ;;;
   deref tree_id) s1 = (Ok t, s') ->
  exists t1 b,
    PyDict.get tree_id (Scenario.planted_trees s1) = Some t1 /\
    annual_benefits (Tree.species_id t1) (Tree.dbh_in t1) = Ok b /\
    t = Tree.set_benefits b t1 /\
    s' = Scenario.with_planted_trees
           (PyDict.alter (Tree.set_benefits b) tree_id (Scenario.planted_trees s1)) s1.
Proof.
  unfold deref at 1. unfold bind at 1. unfold bind at 1. cbn [read].
  destruct (PyDict.get tree_id (Scenario.planted_trees s1)) as [t1|] eqn:G; [|discriminate].
  cbn [ret]. unfold bind at 1. unfold lift.
  destruct (annual_benefits (Tree.species_id t1) (Tree.dbh_in t1)) as [b|e] eqn:Ab;
    [|discriminate].
  unfold bind at 1. rewrite assign_run. unfold deref, bind, read.
  cbn [Scenario.with_planted_trees Scenario.planted_trees].
  rewrite PyDictFacts.get_alter, String.eqb_refl, G. cbn [option_map ret].
  intros [= <- <-]. exists t1, b. repeat split; assumption || reflexivity.
Qed.
End HandlerRuns.

Section UpdateProperties.
Context {B : Py.Builtins}.

Lemma update_frame_get tree_id payload s k : k <> tree_id ->
  PyDict.get k (Scenario.planted_trees (snd (update_planted_tree tree_id payload s)))
  = PyDict.get k (Scenario.planted_trees s).
Proof.
  intro N.
  apply (preserves_update
           (fun s' => PyDict.get k (Scenario.planted_trees s')
                      = PyDict.get k (Scenario.planted_trees s)));
    try reflexivity;
    intros; apply preserves_write; intros s' Hs';
    cbn [Scenario.with_planted_trees Scenario.planted_trees];
    rewrite PyDictFacts.get_alter;
    (destruct (String.eqb_spec tree_id k) as [E | _]; [congruence | exact Hs']).
Qed.

Lemma update_frame_id tree_id payload s :
  option_map Tree.id
    (PyDict.get tree_id (Scenario.planted_trees (snd (update_planted_tree tree_id payload s))))
  = option_map Tree.id (PyDict.get tree_id (Scenario.planted_trees s)).
Proof.
  apply (preserves_update
           (fun s' => option_map Tree.id (PyDict.get tree_id (Scenario.planted_trees s'))
                      = option_map Tree.id (PyDict.get tree_id (Scenario.planted_trees s))));
    try reflexivity;
    intros; apply preserves_write; intros s' Hs';
    cbn [Scenario.with_planted_trees Scenario.planted_trees];
    rewrite PyDictFacts.get_alter, String.eqb_refl; rewrite <- Hs';
    destruct (PyDict.get tree_id (Scenario.planted_trees s')); reflexivity.
Qed.

Lemma update_frame_scenario tree_id payload s :
  Scenario.id (snd (update_planted_tree tree_id payload s)) = Scenario.id s /\
  Scenario.created_at (snd (update_planted_tree tree_id payload s)) = Scenario.created_at s.
Proof.
  apply (preserves_update
           (fun s' => Scenario.id s' = Scenario.id s /\
                      Scenario.created_at s' = Scenario.created_at s));
    try (split; reflexivity);
    intros; apply preserves_write; intros s' Hs'; exact Hs'.
Qed.

(** X4: whether [update_planted_tree] returns or raises, it leaves the keys
    of the store and their order, every tree stored under another
    identifier, the identifier of the addressed tree, and the scenario's
    own id and creation time as they were. *)
Theorem update_touches_one_record (tree_id : string) (payload : PyDict.t PyVal)
    (s : Scenario.t) :
  let s' := snd (update_planted_tree tree_id payload s) in
  PyDict.keys (Scenario.planted_trees s') = PyDict.keys (Scenario.planted_trees s) /\
  (forall k, k <> tree_id ->
     PyDict.get k (Scenario.planted_trees s') = PyDict.get k (Scenario.planted_trees s)) /\
  option_map Tree.id (PyDict.get tree_id (Scenario.planted_trees s'))
  = option_map Tree.id (PyDict.get tree_id (Scenario.planted_trees s)) /\
  Scenario.id s' = Scenario.id s /\ Scenario.created_at s' = Scenario.created_at s.
Proof.
  cbv zeta. split; [apply update_keeps_keys|]. split; [intros k N; apply update_frame_get; exact N|].
  split; [apply update_frame_id | apply update_frame_scenario].
Qed.

Lemma update_ok_tail tree_id payload s t s' :
  update_planted_tree tree_id payload s = (Ok t, s') ->
  exists s1 t1 b,
    PyDict.get tree_id (Scenario.planted_trees s1) = Some t1 /\
    annual_benefits (Tree.species_id t1) (Tree.dbh_in t1) = Ok b /\
    t = Tree.set_benefits b t1 /\
    s' = Scenario.with_planted_trees
           (PyDict.alter (Tree.set_benefits b) tree_id (Scenario.planted_trees s1)) s1.
Proof.
  unfold update_planted_tree. intro H.
  apply bind_ok in H as (s0 & s00 & R & H). injection R as <- <-.
  destruct (negb (PyDict.contains tree_id (Scenario.planted_trees s))); [discriminate|].
  do 5 (apply bind_ok in H as (? & ? & _ & H)).
  apply update_tail_ok in H as (t1 & b & G & Ab & -> & ->).
  eexists. exists t1, b. repeat split; try eassumption; reflexivity.
Qed.

Lemma update_ok_stored tree_id payload s s' t :
  update_planted_tree tree_id payload s = (Ok t, s') ->
  PyDict.get tree_id (Scenario.planted_trees s') = Some t /\
  annual_benefits (Tree.species_id t) (Tree.dbh_in t) = Ok (Tree.benefits t).
Proof.
  intro H. apply update_ok_tail in H as (s1 & t1 & b & G & Ab & -> & ->).
  cbn [Scenario.with_planted_trees Scenario.planted_trees].
  rewrite PyDictFacts.get_alter, String.eqb_refl, G.
  split; [reflexivity | exact Ab].
Qed.

(** X5: when [update_planted_tree] returns a tree, that tree is the one now
    stored under the identifier, and its snapshot is [annual_benefits] of
    its own species and diameter as they are after the update. *)
Theorem update_ok_recomputes_snapshot (tree_id : string) (payload : PyDict.t PyVal)
    (s s' : Scenario.t) (t : Tree.t) :
  update_planted_tree tree_id payload s = (Ok t, s') ->
  PyDict.get tree_id (Scenario.planted_trees s') = Some t /\
  annual_benefits (Tree.species_id t) (Tree.dbh_in t) = Ok (Tree.benefits t).
Proof.
  intro H. apply update_ok_tail in H as (s1 & t1 & b & G & Ab & -> & ->).
  cbn [Scenario.with_planted_trees Scenario.planted_trees].
  rewrite PyDictFacts.get_alter, String.eqb_refl, G.
  split; [reflexivity | exact Ab].
Qed.
End UpdateProperties.

Lemma update_ok_recomputes_snapshot_witness :
  exists t s',
    @update_planted_tree Py.numeric_builtins "planted_1000_1" [("dbh_in", PyFloat 4.0)]
      one_tree_scenario = (Ok t, s') /\
    PyDict.get "planted_1000_1" (Scenario.planted_trees s') = Some t /\
    annual_benefits (Tree.species_id t) (Tree.dbh_in t) = Ok (Tree.benefits t).
Proof.
  eexists. eexists. split; [vm_compute; reflexivity|].
  apply (@update_ok_recomputes_snapshot Py.numeric_builtins "planted_1000_1"
           [("dbh_in", PyFloat 4.0)] one_tree_scenario).
  vm_compute. reflexivity.
Defined.

Section UpdateSuccess.
Context {B : Py.Builtins}.

(** X6: for a stored tree, when each of [lon], [lat], [dbh_in] and
    [planting_year] that the payload names converts and the species the
    payload names (or, without one, the stored species) is in the catalog,
    [update_planted_tree] returns and stores the tree with the named fields
    replaced by the converted values, the other fields and the identifier
    kept, and the snapshot computed from the resulting species and
    diameter. *)
Theorem update_replaces_supplied_fields (tree_id : string) (payload : PyDict.t PyVal)
    (s : Scenario.t) (t0 : Tree.t) (lon lat dbh : float) (year : Z) (sp : Species.t) :
  PyDict.get tree_id (Scenario.planted_trees s) = Some t0 ->
  field_or Py.float payload "lon" (Tree.lon t0) = Ok lon ->
  field_or Py.float payload "lat" (Tree.lat t0) = Ok lat ->
  field_or Py.float payload "dbh_in" (Tree.dbh_in t0) = Ok dbh ->
  field_or Py.int payload "planting_year" (Tree.planting_year t0) = Ok year ->
  PyDict.get (match PyDict.get "species_id" payload with
              | Some v => Py.str v
              | None => Tree.species_id t0
              end) SPECIES_BY_ID = Some sp ->
  let t' := {| Tree.id := Tree.id t0; Tree.lon := lon; Tree.lat := lat;
               Tree.species_id := match PyDict.get "species_id" payload with
                                  | Some v => Py.str v
                                  | None => Tree.species_id t0
                                  end;
               Tree.dbh_in := dbh; Tree.planting_year := year;
               Tree.benefits := snapshot_of sp dbh |} in
  exists s',
    update_planted_tree tree_id payload s = (Ok t', s') /\
    PyDict.get tree_id (Scenario.planted_trees s') = Some t'.
Proof.
  intros G Flon Flat Fdbh Fyear Gsp t'.
  assert (C : PyDict.contains tree_id (Scenario.planted_trees s) = true)
    by (unfold PyDict.contains; rewrite G; reflexivity).
  destruct (when_in_track Py.float Tree.set_lon Tree.lon "lon" payload tree_id s t0 lon
              G Flon ltac:(destruct t0; reflexivity)) as (s1 & R1 & G1).
  destruct (when_in_track Py.float Tree.set_lat Tree.lat "lat" payload tree_id s1 _ lat
              G1 Flat ltac:(destruct t0; reflexivity)) as (s2 & R2 & G2).
  destruct (when_in_track Py.float Tree.set_dbh_in Tree.dbh_in "dbh_in" payload tree_id s2 _ dbh
              G2 Fdbh ltac:(destruct t0; reflexivity)) as (s3 & R3 & G3).
  destruct (when_in_track Py.int Tree.set_planting_year Tree.planting_year "planting_year"
              payload tree_id s3 _ year G3 Fyear ltac:(destruct t0; reflexivity))
    as (s4 & R4 & G4).
  set (t4 := Tree.set_planting_year year
               (Tree.set_dbh_in dbh (Tree.set_lat lat (Tree.set_lon lon t0)))) in *.
  set (sid := match PyDict.get "species_id" payload with
              | Some v => Py.str v
              | None => Tree.species_id t0
              end) in *.
  assert (R5 : exists s5,
             when_in "species_id" payload (fun v =>
               let sid := Py.str v in
               if negb (PyDict.contains sid SPECIES_BY_ID)
               then raise (HTTPException 400 UnknownSpecies)
               else assign tree_id (Tree.set_species_id sid)) s4 = (Ok tt, s5) /\
             PyDict.get tree_id (Scenario.planted_trees s5)
             = Some (Tree.set_species_id sid t4)).
  { unfold when_in, sid in *. destruct (PyDict.get "species_id" payload) as [v|].
    - cbv zeta. unfold PyDict.contains at 1. rewrite Gsp. cbn [negb].
      eexists. split; [apply assign_run|].
      apply (get_after_assign tree_id (Tree.set_species_id (Py.str v)) s4 t4 G4).
    - exists s4. split; [reflexivity|]. rewrite G4. reflexivity. }
  destruct R5 as (s5 & R5 & G5).
  set (t5 := Tree.set_species_id sid t4) in *.
  assert (Ab : annual_benefits (Tree.species_id t5) (Tree.dbh_in t5) = Ok (snapshot_of sp dbh)).
  { apply annual_benefits_ok. exact Gsp. }
  exists (Scenario.with_planted_trees
            (PyDict.alter (Tree.set_benefits (snapshot_of sp dbh)) tree_id
                          (Scenario.planted_trees s5)) s5).
  split.
  - unfold update_planted_tree. unfold bind at 1. cbn [read]. rewrite C. cbn [negb].
    rewrite (bind_run _ _ _ _ _ R1), (bind_run _ _ _ _ _ R2), (bind_run _ _ _ _ _ R3),
      (bind_run _ _ _ _ _ R4), (bind_run _ _ _ _ _ R5).
    unfold deref at 1. unfold bind at 1. unfold bind at 1. cbn [read]. rewrite G5. cbn [ret].
    unfold bind at 1. unfold lift. rewrite Ab.
    unfold bind at 1. rewrite assign_run. unfold deref, bind, read.
    cbn [Scenario.with_planted_trees Scenario.planted_trees].
    rewrite PyDictFacts.get_alter, String.eqb_refl, G5. reflexivity.
  - cbn [Scenario.with_planted_trees Scenario.planted_trees].
    rewrite PyDictFacts.get_alter, String.eqb_refl, G5. reflexivity.
Qed.
End UpdateSuccess.

Lemma update_replaces_supplied_fields_witness :
  exists s',
    @update_planted_tree Py.numeric_builtins "planted_1000_1"
      [("dbh_in", PyInt 6); ("species_id", PyStr "ginkgo")] one_tree_scenario
    = (Ok {| Tree.id := "planted_1000_1"; Tree.lon := (-73.99)%float; Tree.lat := 40.67%float;
             Tree.species_id := "ginkgo"; Tree.dbh_in := 6.0%float;
             Tree.planting_year := 2026; Tree.benefits := snapshot_of ginkgo 6.0%float |}, s') /\
    PyDict.get "planted_1000_1" (Scenario.planted_trees s')
    = Some {| Tree.id := "planted_1000_1"; Tree.lon := (-73.99)%float; Tree.lat := 40.67%float;
              Tree.species_id := "ginkgo"; Tree.dbh_in := 6.0%float;
              Tree.planting_year := 2026; Tree.benefits := snapshot_of ginkgo 6.0%float |}.
Proof.
  apply (@update_replaces_supplied_fields Py.numeric_builtins "planted_1000_1"
           [("dbh_in", PyInt 6); ("species_id", PyStr "ginkgo")] one_tree_scenario
           (new_tree "planted_1000_1" (-73.99)%float 40.67%float red_maple "red_maple"
                     2.0%float 2026)
           (-73.99)%float 40.67%float 6.0%float 2026%Z ginkgo); reflexivity.
Defined.

Section AddDeleteProperties.
Context {B : Py.Builtins}.

(** X7: whenever [add_planted_tree] raises, the exception is an HTTP 400,
    either [Unknown species_id] or [Bad payload: ...], and the scenario is
    exactly as it was before the call. *)
Theorem add_rejections_are_400 (now_ms : Z) (payload : PyDict.t PyVal) (s s' : Scenario.t)
    (e : Exn) :
  add_planted_tree now_ms payload s = (Raise e, s') ->
  s' = s /\
  (e = HTTPException 400 UnknownSpecies \/ exists cause, e = HTTPException 400 (BadPayload cause)).
Proof.
  destruct (add_cases now_ms payload s)
    as [(pe & _ & E) | [(lon & lat & sid & dbh & year & _ & _ & E)
                       | (lon & lat & sid & sp & dbh & year & _ & _ & E)]];
    cbv zeta in E; rewrite E; intros [= <- <-].
  - split; [reflexivity | right; exists pe; reflexivity].
  - split; [reflexivity | left; reflexivity].
Qed.

(** X8: when [add_planted_tree] returns a tree whose identifier was not in
    the store before, [delete_planted_tree] of that identifier brings back
    exactly the scenario the add started from. *)
Theorem add_then_delete_restores (now_ms : Z) (payload : PyDict.t PyVal) (s s' : Scenario.t)
    (t : Tree.t) :
  add_planted_tree now_ms payload s = (Ok t, s') ->
  PyDict.contains (Tree.id t) (Scenario.planted_trees s) = false ->
  delete_planted_tree (Tree.id t) s' = (Ok tt, s).
Proof.
  destruct (add_cases now_ms payload s)
    as [(pe & _ & E) | [(lon & lat & sid & dbh & year & _ & _ & E)
                       | (lon & lat & sid & sp & dbh & year & _ & _ & E)]];
    cbv zeta in E; rewrite E; intros [= <- <-].
  cbn [new_tree Tree.id]. intro C. rewrite delete_run. f_equal.
  cbn [Scenario.with_planted_trees Scenario.planted_trees Scenario.id Scenario.created_at].
  rewrite (PyDictFacts.set_fresh _ _ _ C).
  unfold PyDict.del. rewrite filter_app. cbn [filter fst]. rewrite String.eqb_refl.
  cbn [negb]. rewrite app_nil_r.
  fold (PyDict.del (tree_id_of now_ms (PyDict.len (Scenario.planted_trees s)))
                   (Scenario.planted_trees s)).
  rewrite (PyDictFacts.del_absent _ _ C). destruct s; reflexivity.
Qed.

(** X9: after [delete_planted_tree] of an identifier, whether or not it
    was stored, [update_planted_tree] of that identifier raises HTTP 404
    [Tree not found] without changing the scenario, and the identifier is
    not among the keys of the store. *)
Theorem delete_then_update_not_found (tree_id : string) (payload : PyDict.t PyVal)
    (s : Scenario.t) :
  let s' := snd (delete_planted_tree tree_id s) in
  update_planted_tree tree_id payload s' = (Raise (HTTPException 404 TreeNotFound), s') /\
  ~ In tree_id (PyDict.keys (Scenario.planted_trees s')).
Proof.
  cbv zeta. rewrite delete_run. cbn [snd].
  assert (C : PyDict.contains tree_id
                (Scenario.planted_trees
                   (Scenario.with_planted_trees
                      (PyDict.del tree_id (Scenario.planted_trees s)) s)) = false).
  { cbn [Scenario.with_planted_trees Scenario.planted_trees].
    unfold PyDict.contains. rewrite PyDictFacts.get_del, String.eqb_refl. reflexivity. }
  split; [apply update_not_found; exact C | apply PyDictFacts.contains_false_keys; exact C].
Qed.
End AddDeleteProperties.

Lemma add_rejections_are_400_witness :
  one_tree_scenario = one_tree_scenario /\
  (HTTPException 400 UnknownSpecies = HTTPException 400 UnknownSpecies \/
   exists cause, HTTPException 400 UnknownSpecies = HTTPException 400 (BadPayload cause)).
Proof.
  apply (@add_rejections_are_400 Py.numeric_builtins 2000
           (lon_lat_payload ++ [("species_id", PyStr "oak")])%list one_tree_scenario).
  reflexivity.
Defined.

Lemma add_then_delete_restores_witness :
  delete_planted_tree "planted_1000_1" one_tree_scenario = (Ok tt, Scenario.initial 0).
Proof.
  apply (@add_then_delete_restores Py.numeric_builtins 1000 lon_lat_payload
           (Scenario.initial 0) one_tree_scenario
           (new_tree "planted_1000_1" (-73.99)%float 40.67%float red_maple "red_maple"
                     2.0%float 2026)); reflexivity.
Defined.

Section DictEntries.
Context {V : Type}.

Lemma get_In (d : PyDict.t V) k v : PyDict.get k d = Some v -> In (k, v) d.
Proof.
  induction d as [|[k0 v0] d IH]; cbn [PyDict.get In]; [discriminate|].
  destruct (String.eqb_spec k k0) as [-> | N]; [intros [= ->]; left; reflexivity | auto].
Qed.

Lemma In_get (d : PyDict.t V) k v : NoDup (PyDict.keys d) -> In (k, v) d ->
  PyDict.get k d = Some v.
Proof.
  unfold PyDict.keys. induction d as [|[k0 v0] d IH]; cbn [PyDict.get In map fst]; [tauto|].
  intros ND [E | Hin].
  - injection E as -> ->. rewrite String.eqb_refl. reflexivity.
  - inversion ND as [|? ? Hk ND']; subst.
    destruct (String.eqb_spec k k0) as [-> | N]; [|auto].
    exfalso. apply Hk. apply (in_map fst) in Hin. exact Hin.
Qed.

Lemma Forall_values_entries (Q : V -> Prop) (d : PyDict.t V) :
  Forall Q (PyDict.values d) <-> (forall k v, In (k, v) d -> Q v).
Proof.
  unfold PyDict.values. rewrite Forall_map, Forall_forall. split.
  - intros H k v Hin. exact (H (k, v) Hin).
  - intros H [k v] Hin. exact (H k v Hin).
Qed.

Lemma NoDup_keys_set k v (d : PyDict.t V) :
  NoDup (PyDict.keys d) -> NoDup (PyDict.keys (PyDict.set k v d)).
Proof.
  intro ND. destruct (PyDict.contains k d) eqn:C.
  - rewrite PyDictFacts.keys_set_present by exact C. exact ND.
  - rewrite (PyDictFacts.set_fresh _ _ _ C). unfold PyDict.keys. rewrite map_app.
    cbn [map fst]. apply NoDup_app; [exact ND | constructor; [intros [] | constructor] |].
    intros a Ha [<- | []]. apply PyDictFacts.contains_false_keys in C. exact (C Ha).
Qed.

Lemma In_set (d : PyDict.t V) k v k0 v0 :
  In (k0, v0) (PyDict.set k v d) -> (k0 = k /\ v0 = v) \/ In (k0, v0) d.
Proof.
  induction d as [|[k1 v1] d IH]; cbn [PyDict.set In].
  - intros [[= <- <-] | []]. left. split; reflexivity.
  - destruct (String.eqb_spec k k1) as [-> | N]; cbn [In].
    + intros [[= <- <-] | H]; [left; split; reflexivity | right; right; exact H].
    + intros [E | H]; [right; left; exact E|].
      destruct (IH H) as [L | R]; [left; exact L | right; right; exact R].
Qed.
End DictEntries.

Section Invariants.
Context {B : Py.Builtins}.

Lemma keyed_by_id_alter f k (d : PyDict.t Tree.t) :
  (forall t, Tree.id (f t) = Tree.id t) -> keyed_by_id d -> keyed_by_id (PyDict.alter f k d).
Proof.
  intros Hf [F ND]. split; [|rewrite PyDictFacts.keys_alter; exact ND].
  unfold PyDict.alter. rewrite Forall_map. eapply Forall_impl; [|exact F].
  intros [k0 t0]. cbn [fst snd]. destruct (String.eqb k k0); cbn [fst snd]; [|auto].
  intro E. rewrite Hf. exact E.
Qed.

Lemma update_keeps_keyed_by_id tree_id payload s :
  keyed_by_id (Scenario.planted_trees s) ->
  keyed_by_id (Scenario.planted_trees (snd (update_planted_tree tree_id payload s))).
Proof.
  apply (preserves_update (fun s' => keyed_by_id (Scenario.planted_trees s')));
    intros; apply preserves_write; intros s' Hs';
    cbn [Scenario.with_planted_trees Scenario.planted_trees];
    (apply keyed_by_id_alter; [intro t; reflexivity | exact Hs']).
Qed.

Lemma serve_keeps_keyed_by_id r s :
  keyed_by_id (Scenario.planted_trees s) ->
  keyed_by_id (Scenario.planted_trees (snd (serve r s))).
Proof.
  intro H. destruct r as [now payload | tid payload | tid | h |]; cbn [serve].
  - destruct (add_cases now payload s)
      as [(pe & _ & E) | [(lon & lat & sid & dbh & year & _ & _ & E)
                         | (lon & lat & sid & sp & dbh & year & _ & _ & E)]];
      cbv zeta in E; rewrite E; cbn [snd]; try exact H.
    cbn [Scenario.with_planted_trees Scenario.planted_trees].
    destruct H as [F ND]. split; [|apply NoDup_keys_set; exact ND].
    apply Forall_forall. intros [k0 v0] Hin. cbn [fst snd].
    apply In_set in Hin as [[-> ->] | Hin]; [reflexivity|].
    rewrite Forall_forall in F. exact (F _ Hin).
  - cbn [snd]. apply update_keeps_keyed_by_id. exact H.
  - rewrite delete_run. cbn [snd Scenario.with_planted_trees Scenario.planted_trees].
    destruct H as [F ND]. split.
    + unfold PyDict.del. apply Forall_forall. intros kv Hin. apply filter_In in Hin as [Hin _].
      rewrite Forall_forall in F. exact (F _ Hin).
    + rewrite PyDictFacts.keys_del. apply NoDup_filter. exact ND.
  - cbn [snd]. rewrite projection_pure. exact H.
  - exact H.
Qed.

Lemma run_keeps_keyed_by_id rs : forall s,
  keyed_by_id (Scenario.planted_trees s) ->
  keyed_by_id (Scenario.planted_trees (snd (run rs s))).
Proof.
  induction rs as [|r rest IH]; intros s H; [exact H|].
  cbn [run]. pose proof (serve_keeps_keyed_by_id r s H) as H'.
  destruct (serve r s) as [entry s']. cbn [snd] in H'.
  specialize (IH s' H'). destruct (run rest s') as [log s'']. exact IH.
Qed.

(** X10: after any sequence of requests on the initial scenario,
    [get_scenario] lists trees whose [id] fields are, in order, the keys of
    the store; in particular no identifier is listed twice. *)
Theorem listed_identifiers_distinct (rs : list Request) (now : float) :
  let s := snd (run rs (Scenario.initial now)) in
  exists view,
    get_scenario s = (Ok view, s) /\
    map Tree.id (ScenarioView.planted_trees view) = PyDict.keys (Scenario.planted_trees s) /\
    NoDup (map Tree.id (ScenarioView.planted_trees view)).
Proof.
  cbv zeta. pose proof (run_keeps_keyed_by_id rs (Scenario.initial now)) as H.
  destruct H as [F ND]; [split; constructor|].
  eexists. split; [reflexivity|].
  cbn [ScenarioView.planted_trees].
  assert (E : map Tree.id
                (PyDict.values (Scenario.planted_trees (snd (run rs (Scenario.initial now)))))
              = PyDict.keys (Scenario.planted_trees (snd (run rs (Scenario.initial now))))).
  { unfold PyDict.values, PyDict.keys. rewrite map_map. apply map_ext_in.
    intros kv Hin. rewrite Forall_forall in F. exact (F kv Hin). }
  split; [exact E | rewrite E; exact ND].
Qed.

(** X11: if every stored tree is stored under its own identifier, no
    identifier is stored twice, and every stored tree has a snapshot equal
    to [annual_benefits] of its stored species and diameter, then all of
    this still holds after any request, provided that a request to update
    either returns a tree or names an identifier that is not stored. *)
Theorem accepted_requests_keep_snapshots (r : Request) (s : Scenario.t) :
  keyed_by_id (Scenario.planted_trees s) ->
  Forall consistent (PyDict.values (Scenario.planted_trees s)) ->
  match r with
  | ReqUpdate tree_id payload =>
      (exists t, fst (update_planted_tree tree_id payload s) = Ok t) \/
      PyDict.contains tree_id (Scenario.planted_trees s) = false
  | _ => True
  end ->
  keyed_by_id (Scenario.planted_trees (snd (serve r s))) /\
  Forall consistent (PyDict.values (Scenario.planted_trees (snd (serve r s)))).
Proof.
  intros K H A. split; [apply serve_keeps_keyed_by_id; exact K|].
  destruct r as [now payload | tid payload | tid | h |]; cbn [serve].
  - destruct (add_cases now payload s)
      as [(pe & _ & E) | [(lon & lat & sid & dbh & year & _ & _ & E)
                         | (lon & lat & sid & sp & dbh & year & _ & G & E)]];
      cbv zeta in E; rewrite E; cbn [snd]; try exact H.
    cbn [Scenario.with_planted_trees Scenario.planted_trees].
    apply Forall_values_set; [|exact H].
    unfold consistent. cbn [new_tree Tree.species_id Tree.dbh_in Tree.benefits].
    apply annual_benefits_ok. exact G.
  - cbn [snd]. destruct A as [[t Ht] | C].
    + destruct (update_planted_tree tid payload s) as [r s'] eqn:U. cbn [fst snd] in *. subst r.
      destruct (update_ok_stored tid payload s s' t U) as [Gt Ct].
      pose proof (update_keeps_keyed_by_id tid payload s K) as [_ ND'].
      rewrite U in ND'. cbn [snd] in ND'.
      apply Forall_values_entries. intros k v Hin.
      pose proof (In_get _ _ _ ND' Hin) as Gk.
      destruct (String.eqb_spec k tid) as [-> | Nk].
      * rewrite Gt in Gk. injection Gk as <-. exact Ct.
      * pose proof (update_frame_get tid payload s k Nk) as Fr. rewrite U in Fr.
        cbn [snd] in Fr. rewrite Fr in Gk. apply get_In in Gk.
        rewrite Forall_values_entries in H. exact (H k v Gk).
    + rewrite (update_not_found _ payload _ C). exact H.
  - rewrite delete_run. cbn [snd Scenario.with_planted_trees Scenario.planted_trees].
    apply Forall_values_del. exact H.
  - cbn [snd]. rewrite projection_pure. exact H.
  - exact H.
Qed.
End Invariants.

Lemma accepted_requests_keep_snapshots_witness :
  keyed_by_id
    (Scenario.planted_trees
       (snd (@serve Py.numeric_builtins
               (ReqUpdate "planted_1000_1" [("dbh_in", PyFloat 4.0)]) one_tree_scenario))) /\
  Forall consistent
    (PyDict.values (Scenario.planted_trees
       (snd (@serve Py.numeric_builtins
               (ReqUpdate "planted_1000_1" [("dbh_in", PyFloat 4.0)]) one_tree_scenario)))).
Proof.
  apply (@accepted_requests_keep_snapshots Py.numeric_builtins
           (ReqUpdate "planted_1000_1" [("dbh_in", PyFloat 4.0)]) one_tree_scenario).
  - split; [constructor; [reflexivity | constructor]|].
    constructor; [intros [] | constructor].
  - constructor; [reflexivity | constructor].
  - left. eexists. vm_compute. reflexivity.
Defined.

(* ================================================================== *)
(** ** Projections of reachable scenarios *)

Section ProjectionComposition.
Context {B : Py.Builtins}.

Lemma projection_loop_app h l1 : forall l2 total per_tree,
  projection_loop h (l1 ++ l2) total per_tree
  = res_bind (projection_loop h l1 total per_tree)
             (fun acc => projection_loop h l2 (fst acc) (snd acc)).
Proof.
  induction l1 as [|t l1 IH]; intros l2 total per_tree; [reflexivity|].
  cbn [app projection_loop].
  destruct (project_tree (Tree.species_id t) (Tree.dbh_in t) h) as [p|e]; [|reflexivity].
  cbn [res_bind]. apply IH.
Qed.

Lemma projection_ok_inv h s r :
  fst (scenario_projection h s) = Ok r ->
  horizon_allowed h = true /\
  projection_loop h (PyDict.values (Scenario.planted_trees s)) Totals.zero []
  = Ok (Projection.total r, Projection.per_tree r) /\
  Projection.horizon_years r = h.
Proof.
  unfold scenario_projection. destruct (horizon_allowed h); [|discriminate].
  cbn [negb]. unfold bind, read, lift, ret.
  destruct (projection_loop h _ Totals.zero []) as [[tot pt]|e]; [|discriminate].
  cbn [fst snd]. intros [= <-]. cbn. repeat split; reflexivity.
Qed.

(** X12: after any sequence of requests on the initial scenario,
    [scenario_projection] with an allowed horizon returns, leaves the
    scenario as it is, reports that horizon, and lists one projection per
    stored tree, under the trees' identifiers in store order. *)
Theorem scenario_projection_succeeds_when_reachable (rs : list Request) (now : float)
    (h : Z) :
  In h [5; 10; 15; 20]%Z ->
  let s := snd (run rs (Scenario.initial now)) in
  exists r,
    scenario_projection h s = (Ok r, s) /\
    Projection.horizon_years r = h /\
    map fst (Projection.per_tree r) = map Tree.id (PyDict.values (Scenario.planted_trees s)).
Proof.
  intros A s. destruct (float_of_int_allowed h A) as [y Y].
  destruct (projection_loop_ok h y _ Y (reachable_species_known rs now))
    as (projs & F & L). fold s in F, L.
  unfold scenario_projection. apply horizon_allowed_iff in A. rewrite A. cbn [negb].
  unfold bind, read, lift, ret. rewrite L. cbn [fst snd app].
  eexists. split; [reflexivity|]. cbn [Projection.horizon_years Projection.per_tree].
  split; [reflexivity|].
  apply Forall2_length in F. clear L.
  rewrite <- (length_map Tree.id) in F.
  revert projs F. generalize (map Tree.id (PyDict.values (Scenario.planted_trees s))).
  induction l as [|a l IH]; intros [|p projs] F; try discriminate F; [reflexivity|].
  cbn. f_equal. apply IH. cbn in F. lia.
Qed.

(** X13: when [add_planted_tree] returns a tree stored under a new key and
    [scenario_projection] returned [r] before the add, then after the add
    it returns [r] extended by that tree: its projection is appended to
    [per_tree] and added, field by field, to the totals of [r]. *)
Theorem scenario_projection_after_add (now_ms : Z) (payload : PyDict.t PyVal)
    (s s' : Scenario.t) (t : Tree.t) (h : Z) (r : Projection.t) :
  add_planted_tree now_ms payload s = (Ok t, s') ->
  PyDict.contains (Tree.id t) (Scenario.planted_trees s) = false ->
  fst (scenario_projection h s) = Ok r ->
  exists p,
    project_tree (Tree.species_id t) (Tree.dbh_in t) h = Ok p /\
    fst (scenario_projection h s')
    = Ok {| Projection.horizon_years := h;
            Projection.total := Totals.accumulate (Projection.total r) p;
            Projection.per_tree := (Projection.per_tree r ++ [(Tree.id t, p)])%list |}.
Proof.
  destruct (add_cases now_ms payload s)
    as [(pe & _ & E) | [(lon & lat & sid & dbh & year & _ & _ & E)
                       | (lon & lat & sid & sp & dbh & year & _ & G & E)]];
    cbv zeta in E; rewrite E; intros [= <- <-].
  cbn [new_tree Tree.id Tree.species_id Tree.dbh_in]. intros C P.
  apply projection_ok_inv in P as (A & L & _).
  pose proof A as A'. apply horizon_allowed_iff in A'.
  destruct (float_of_int_allowed h A') as [y Y].
  set (tid := tree_id_of now_ms (PyDict.len (Scenario.planted_trees s))) in *.
  set (t := new_tree tid lon lat sp sid dbh year).
  assert (K : species_known t = true).
  { unfold species_known, PyDict.contains. cbn [t new_tree Tree.species_id]. rewrite G.
    reflexivity. }
  destruct (project_tree_ok t h y K Y) as [p Hp].
  cbn [t new_tree Tree.species_id Tree.dbh_in] in Hp.
  exists p. split; [exact Hp|].
  unfold scenario_projection. rewrite A. cbn [negb]. unfold bind, read, lift, ret.
  cbn [Scenario.with_planted_trees Scenario.planted_trees].
  rewrite (PyDictFacts.set_fresh _ _ _ C). unfold PyDict.values. rewrite map_app.
  rewrite projection_loop_app. fold (PyDict.values (Scenario.planted_trees s)).
  rewrite L. cbn [res_bind fst snd map projection_loop t new_tree Tree.species_id Tree.dbh_in Tree.id].
  rewrite Hp. cbn [res_bind fst snd]. reflexivity.
Qed.
End ProjectionComposition.

Lemma scenario_projection_succeeds_when_reachable_witness :
  exists r,
    scenario_projection 10
      (snd (@run Py.numeric_builtins same_ms_trace (Scenario.initial 0)))
    = (Ok r, snd (@run Py.numeric_builtins same_ms_trace (Scenario.initial 0))) /\
    Projection.horizon_years r = 10%Z /\
    map fst (Projection.per_tree r)
    = map Tree.id
        (PyDict.values (Scenario.planted_trees
           (snd (@run Py.numeric_builtins same_ms_trace (Scenario.initial 0))))).
Proof.
  apply (@scenario_projection_succeeds_when_reachable Py.numeric_builtins same_ms_trace
           0%float 10).
  right; left; reflexivity.
Defined.

Lemma scenario_projection_after_add_witness :
  exists p,
    project_tree "red_maple" 2.0%float 10 = Ok p /\
    fst (scenario_projection 10 one_tree_scenario)
    = Ok {| Projection.horizon_years := 10;
            Projection.total := Totals.accumulate Totals.zero p;
            Projection.per_tree := [("planted_1000_1", p)] |}.
Proof.
  apply (@scenario_projection_after_add Py.numeric_builtins 1000 lon_lat_payload
           (Scenario.initial 0) one_tree_scenario
           (new_tree "planted_1000_1" (-73.99)%float 40.67%float red_maple "red_maple"
                     2.0%float 2026)
           10 {| Projection.horizon_years := 10; Projection.total := Totals.zero;
                 Projection.per_tree := [] |}); reflexivity.
Defined.

(* ================================================================== *)
(** ** Rejected updates *)

Section Outcomes.
Context {B : Py.Builtins}.
Variable P : Scenario.t -> Prop.
Variable Q : Exn -> Prop.

Lemma raises_only_bind {A C} (m : Handler A) (k : A -> Handler C) :
  raises_only P Q m -> (forall a, raises_only P Q (k a)) -> raises_only P Q (bind m k).
Proof.
  intros Hm Hk s H. unfold bind. specialize (Hm s H).
  destruct (m s) as [[a|e] s1]; cbn [fst snd] in *; [apply Hk; exact Hm | exact Hm].
Qed.

Lemma raises_only_ret {A} (a : A) : raises_only P Q (ret a).
Proof. intros s H. exact H. Qed.

Lemma raises_only_raise {A} e : Q e -> raises_only P Q (@raise A e).
Proof. intros H s _. exact H. Qed.

Lemma raises_only_lift {A} (r : Res A) :
  (forall e, r = Raise e -> Q e) -> raises_only P Q (lift r).
Proof. intros H s Hs. unfold lift. cbn [fst snd]. destruct r; [exact Hs | apply H; reflexivity]. Qed.

Lemma raises_only_write f :
  (forall s, P s -> P (Scenario.with_planted_trees (f (Scenario.planted_trees s)) s)) ->
  raises_only P Q (write_trees f).
Proof. intros Hf s H. apply Hf. exact H. Qed.

Lemma raises_only_when_in k payload body :
  (forall v, PyDict.get k payload = Some v -> raises_only P Q (body v)) ->
  raises_only P Q (when_in k payload body).
Proof.
  intro Hb. unfold when_in. destruct (PyDict.get k payload) as [v|];
    [apply Hb; reflexivity | apply raises_only_ret].
Qed.
End Outcomes.

Section UpdateRejections.
Context {B : Py.Builtins}.

Lemma update_ready_assign tree_id f s :
  (forall t, species_known t = true -> species_known (f t) = true) ->
  update_ready tree_id s ->
  update_ready tree_id
    (Scenario.with_planted_trees (PyDict.alter f tree_id (Scenario.planted_trees s)) s).
Proof.
  intros Hf [C F]. split; cbn [Scenario.with_planted_trees Scenario.planted_trees].
  - apply PyDictFacts.contains_keys. rewrite PyDictFacts.keys_alter.
    apply PyDictFacts.contains_keys. exact C.
  - apply Forall_values_alter; assumption.
Qed.

Lemma update_body_raises_only tree_id payload :
  raises_only (update_ready tree_id) (update_rejection payload)
    (when_in "lon" payload (fun v =>
       x <- lift (Py.float v) ;; assign tree_id (Tree.set_lon x)) ;;;
     when_in "lat" payload (fun v =>
       x <- lift (Py.float v) ;; assign tree_id (Tree.set_lat x)) ;;;
     when_in "dbh_in" payload (fun v =>
       x <- lift (Py.float v) ;; assign tree_id (Tree.set_dbh_in x)) ;;;
     when_in "planting_year" payload (fun v =>
       x <- lift (Py.int v) ;; assign tree_id (Tree.set_planting_year x)) ;;;
     when_in "species_id" payload (fun v =>
       let sid := Py.str v in
       if negb (PyDict.contains sid SPECIES_BY_ID)
       then raise (HTTPException 400 UnknownSpecies)
       else assign tree_id (Tree.set_species_id sid)) ;;;
     t <- deref tree_id ;;
     benefits <- lift (annual_benefits (Tree.species_id t) (Tree.dbh_in t)) ;;
     assign tree_id (Tree.set_benefits benefits) ;;;
     deref tree_id).
Proof.
  assert (Hfloat : forall k (setter : float -> Tree.t -> Tree.t),
             In k ["lon"; "lat"; "dbh_in"] ->
             (forall x t, species_known (setter x t) = species_known t) ->
             raises_only (update_ready tree_id) (update_rejection payload)
               (when_in k payload (fun v =>
                  x <- lift (Py.float v) ;; assign tree_id (setter x)))).
  { intros k setter Hk Hs. apply raises_only_when_in. intros v G.
    apply raises_only_bind.
    - apply raises_only_lift. intros e E.
      destruct (float_raises_uncaught v e E) as [pe ->].
      right; left. exists k, v, pe. repeat split; assumption.
    - intro x. apply raises_only_write. intros s Hs'. apply update_ready_assign; [|exact Hs'].
      intros t Ht. rewrite Hs. exact Ht. }
  apply raises_only_bind; [apply Hfloat; [left; reflexivity | reflexivity] | intros _].
  apply raises_only_bind;
    [apply Hfloat; [right; left; reflexivity | reflexivity] | intros _].
  apply raises_only_bind;
    [apply Hfloat; [right; right; left; reflexivity | reflexivity] | intros _].
  apply raises_only_bind.
  { apply raises_only_when_in. intros v G. apply raises_only_bind.
    - apply raises_only_lift. intros e E.
      destruct (int_raises_uncaught v e E) as [pe ->].
      right; right. exists v, pe. repeat split; assumption.
    - intro x. apply raises_only_write. intros s Hs'. apply update_ready_assign; [|exact Hs'].
      intros t Ht. exact Ht. }
  intros _. apply raises_only_bind.
  { apply raises_only_when_in. intros v G. cbv zeta.
    destruct (negb (PyDict.contains (Py.str v) SPECIES_BY_ID)) eqn:E.
    - apply raises_only_raise. left. split; [reflexivity|]. exists v.
      split; [exact G | apply negb_true_iff; exact E].
    - apply raises_only_write. intros s Hs'. apply update_ready_assign; [|exact Hs'].
      intros t _. unfold species_known. cbn [Tree.set_species_id Tree.species_id].
      apply negb_false_iff. exact E. }
  intros _ s [C F].
  unfold PyDict.contains in C.
  destruct (PyDict.get tree_id (Scenario.planted_trees s)) as [t1|] eqn:G; [|discriminate C].
  assert (K : species_known t1 = true).
  { rewrite Forall_forall in F. apply F. apply get_In in G.
    unfold PyDict.values. apply (in_map snd) in G. exact G. }
  unfold species_known, PyDict.contains in K.
  destruct (PyDict.get (Tree.species_id t1) SPECIES_BY_ID) as [sp|] eqn:Gs; [|discriminate K].
  set (b := snapshot_of sp (Tree.dbh_in t1)).
  assert (E : (t <- deref tree_id ;;
               benefits <- lift (annual_benefits (Tree.species_id t) (Tree.dbh_in t)) ;;
               assign tree_id (Tree.set_benefits benefits) ;;;
               deref tree_id) s
              = (Ok (Tree.set_benefits b t1),
                 Scenario.with_planted_trees
                   (PyDict.alter (Tree.set_benefits b) tree_id (Scenario.planted_trees s)) s)).
  { unfold deref at 1. unfold bind at 1. unfold bind at 1. cbn [read]. rewrite G.
    cbn [ret]. unfold bind at 1. unfold lift. rewrite (annual_benefits_ok _ _ _ Gs).
    unfold bind at 1. rewrite assign_run. unfold deref, bind, read.
    cbn [Scenario.with_planted_trees Scenario.planted_trees].
    rewrite PyDictFacts.get_alter, String.eqb_refl, G. reflexivity. }
  rewrite E. cbn [fst snd].
  apply update_ready_assign; [intros t Ht; exact Ht|].
  split; [unfold PyDict.contains; rewrite G; reflexivity | exact F].
Qed.

(** X14: on a scenario whose stored trees all have a catalog species,
    [update_planted_tree] raises in three ways only: HTTP 404 when the
    identifier is not stored, and then nothing is written; HTTP 400
    [Unknown species_id] when the payload names a species outside the
    catalog; and the uncaught error of [float] or [int] on the value the
    payload gives for [lon], [lat], [dbh_in] or [planting_year]. *)
Theorem update_rejections (tree_id : string) (payload : PyDict.t PyVal)
    (s s' : Scenario.t) (e : Exn) :
  Forall (fun t => species_known t = true) (PyDict.values (Scenario.planted_trees s)) ->
  update_planted_tree tree_id payload s = (Raise e, s') ->
  (e = HTTPException 404 TreeNotFound /\
   PyDict.contains tree_id (Scenario.planted_trees s) = false /\ s' = s)
  \/ (PyDict.contains tree_id (Scenario.planted_trees s) = true /\
      update_rejection payload e).
Proof.
  intros F. unfold update_planted_tree. unfold bind at 1. cbn [read].
  destruct (PyDict.contains tree_id (Scenario.planted_trees s)) eqn:C; cbn [negb].
  - intro H. right. split; [reflexivity|].
    pose proof (update_body_raises_only tree_id payload s (conj C F)) as R.
    cbv beta zeta in H, R. rewrite H in R. exact R.
  - intros [= <- <-]. left. repeat split; reflexivity.
Qed.
End UpdateRejections.

Lemma update_rejections_witness :
  (Uncaught TypeError = HTTPException 404 TreeNotFound /\
   PyDict.contains "planted_1000_1" (Scenario.planted_trees one_tree_scenario) = false /\
   snd (@update_planted_tree Py.numeric_builtins "planted_1000_1"
          [("lon", PyFloat 1.0); ("dbh_in", PyNone)] one_tree_scenario) = one_tree_scenario)
  \/ (PyDict.contains "planted_1000_1" (Scenario.planted_trees one_tree_scenario) = true /\
      @update_rejection Py.numeric_builtins [("lon", PyFloat 1.0); ("dbh_in", PyNone)]
        (Uncaught TypeError)).
Proof.
  apply (@update_rejections Py.numeric_builtins "planted_1000_1"
           [("lon", PyFloat 1.0); ("dbh_in", PyNone)] one_tree_scenario
           (snd (@update_planted_tree Py.numeric_builtins "planted_1000_1"
                   [("lon", PyFloat 1.0); ("dbh_in", PyNone)] one_tree_scenario))
           (Uncaught TypeError)).
  - constructor; [reflexivity | constructor].
  - reflexivity.
Defined.

(* ================================================================== *)
(** ** The census listing *)

Section CensusFacts.
Context {B : Py.Builtins}.

Lemma mem_add x y s : PySet.mem x (PySet.add y s) = (String.eqb x y || PySet.mem x s)%bool.
Proof.
  unfold PySet.add. destruct (PySet.mem y s) eqn:M; [|reflexivity].
  destruct (String.eqb_spec x y) as [-> | N]; [|reflexivity].
  rewrite M. reflexivity.
Qed.

Lemma census_loop_spec removed rows : forall features,
  census_loop removed rows features
  = if forallb is_object rows
    then inl (features ++ flat_map (row_features removed) rows)%list
    else inr AttributeError.
Proof.
  induction rows as [|r rows IH]; intro features.
  - cbn. rewrite app_nil_r. reflexivity.
  - destruct r as [| | | | |items|f]; try reflexivity.
    cbn [census_loop forallb is_object andb flat_map row_features].
    destruct (is_removed removed (Py.get_default f "tree_id" PyNone));
      [rewrite IH; reflexivity|].
    destruct (Py.float (Py.get_default f "latitude" PyNone)) as [lat|e1];
      [|rewrite IH; reflexivity].
    destruct (Py.float (Py.get_default f "longitude" PyNone)) as [lon|e2];
      [|rewrite IH; reflexivity].
    rewrite IH. destruct (forallb is_object rows); [|reflexivity].
    rewrite <- app_assoc. reflexivity.
Qed.

Lemma row_features_shape removed r :
  Forall census_feature (row_features removed r) /\
  (List.length (row_features removed r) <= 1)%nat.
Proof.
  destruct r as [| | | | |items|f]; cbn [row_features]; try (split; [constructor | cbn; lia]).
  destruct (is_removed removed _); [split; [constructor | cbn; lia]|].
  destruct (Py.float (Py.get_default f "latitude" PyNone)) as [lat|e1];
    [|split; [constructor | cbn; lia]].
  destruct (Py.float (Py.get_default f "longitude" PyNone)) as [lon|e2];
    [|split; [constructor | cbn; lia]].
  split; [|cbn; lia]. constructor; [|constructor].
  exists lon, lat, (props_of f). repeat split; reflexivity.
Qed.

Lemma flat_map_shape removed rows :
  Forall census_feature (flat_map (row_features removed) rows) /\
  (List.length (flat_map (row_features removed) rows) <= List.length rows)%nat.
Proof.
  induction rows as [|r rows [F L]]; [split; [constructor | cbn; lia]|].
  cbn [flat_map]. destruct (row_features_shape removed r) as [F1 L1].
  split; [apply Forall_app; split; assumption|].
  rewrite length_app. cbn [List.length]. lia.
Qed.

Lemma feature_tree_id_make lon lat f :
  feature_tree_id (make_feature lon lat (props_of f)) = Py.get_default f "tree_id" PyNone.
Proof. reflexivity. Qed.

Lemma row_features_hidden removed x r :
  PySet.mem x removed = true ->
  Forall (fun f => names_tree x f = false) (row_features removed r).
Proof.
  intro M. destruct r as [| | | | |items|f]; cbn [row_features]; try constructor.
  destruct (is_removed removed (Py.get_default f "tree_id" PyNone)) eqn:R; [constructor|].
  destruct (Py.float (Py.get_default f "latitude" PyNone)) as [lat|e1]; [|constructor].
  destruct (Py.float (Py.get_default f "longitude" PyNone)) as [lon|e2]; [|constructor].
  constructor; [|constructor].
  unfold names_tree. rewrite feature_tree_id_make.
  unfold is_removed in R.
  destruct (Py.get_default f "tree_id" PyNone) as [|b|z|fl|str|items|o]; try reflexivity;
    match goal with
    | |- context [String.eqb ?a x] =>
        destruct (String.eqb_spec a x) as [E|N]; [rewrite E in R; congruence | reflexivity]
    end.
Qed.

Lemma row_features_add removed tid r :
  row_features (PySet.add tid removed) r
  = filter (fun f => negb (names_tree tid f)) (row_features removed r).
Proof.
  destruct r as [| | | | |items|f]; cbn [row_features filter]; try reflexivity.
  assert (R : is_removed (PySet.add tid removed) (Py.get_default f "tree_id" PyNone)
              = (match Py.get_default f "tree_id" PyNone with
                 | PyNone => false
                 | v => String.eqb (Py.str v) tid
                 end
                 || is_removed removed (Py.get_default f "tree_id" PyNone))%bool).
  { unfold is_removed. destruct (Py.get_default f "tree_id" PyNone); try reflexivity;
      apply mem_add. }
  rewrite R. clear R.
  destruct (is_removed removed (Py.get_default f "tree_id" PyNone));
    [rewrite orb_true_r; reflexivity|].
  rewrite orb_false_r.
  destruct (Py.float (Py.get_default f "latitude" PyNone)) as [lat|e1];
    [|destruct (match Py.get_default f "tree_id" PyNone with
                | PyNone => false | v => String.eqb (Py.str v) tid end); reflexivity].
  destruct (Py.float (Py.get_default f "longitude" PyNone)) as [lon|e2];
    [|destruct (match Py.get_default f "tree_id" PyNone with
                | PyNone => false | v => String.eqb (Py.str v) tid end); reflexivity].
  cbn [filter]. unfold names_tree at 1. rewrite feature_tree_id_make.
  destruct (match Py.get_default f "tree_id" PyNone with
            | PyNone => false | v => String.eqb (Py.str v) tid end); reflexivity.
Qed.

Lemma flat_map_add removed tid rows :
  flat_map (row_features (PySet.add tid removed)) rows
  = filter (fun f => negb (names_tree tid f)) (flat_map (row_features removed) rows).
Proof.
  induction rows as [|r rows IH]; [reflexivity|].
  cbn [flat_map]. rewrite filter_app, row_features_add, IH. reflexivity.
Qed.

(** The removals of a list of identifiers, one call each. *)
Lemma removals_mem ids : forall removed x,
  In x ids \/ PySet.mem x removed = true ->
  PySet.mem x (fold_left (fun s i => snd (remove_existing_tree i s)) ids removed) = true.
Proof.
  induction ids as [|i ids IH]; intros removed x H; cbn [fold_left].
  - destruct H as [[] | H]; exact H.
  - apply IH. cbn [remove_existing_tree snd]. rewrite mem_add.
    destruct H as [[-> | H] | H].
    + right. rewrite String.eqb_refl. reflexivity.
    + left. exact H.
    + right. rewrite H. apply orb_true_r.
Qed.

Lemma in_row_features removed r feature :
  In feature (row_features removed r) <->
  exists f lon lat,
    r = PyObj f /\
    is_removed removed (Py.get_default f "tree_id" PyNone) = false /\
    Py.float (Py.get_default f "latitude" PyNone) = Ok lat /\
    Py.float (Py.get_default f "longitude" PyNone) = Ok lon /\
    feature = make_feature lon lat (props_of f).
Proof.
  split.
  - destruct r as [| | | | |items|f]; cbn [row_features In]; try tauto.
    destruct (is_removed removed (Py.get_default f "tree_id" PyNone)) eqn:R; [intros []|].
    destruct (Py.float (Py.get_default f "latitude" PyNone)) as [lat|e1] eqn:Elat;
      [|intros []].
    destruct (Py.float (Py.get_default f "longitude" PyNone)) as [lon|e2] eqn:Elon;
      [|intros []].
    intros [<- | []]. exists f, lon, lat. repeat split; assumption || reflexivity.
  - intros (f & lon & lat & -> & R & Elat & Elon & ->). cbn [row_features].
    rewrite R, Elat, Elon. left. reflexivity.
Qed.

(** X15: when the census endpoint answers with success and a JSON list of
    objects, [existing_trees] returns a feature collection, whatever the
    rows hold.  The features are, in the order of the rows, those of the
    rows that are not removed and whose latitude and longitude [float]
    both accepts: a feature is listed exactly when it is
    [make_feature lon lat props] of such a row, so a row with a missing or
    unconvertible latitude or longitude is left out and is never an error.
    At most one feature per row is listed, each a GeoJSON point with the
    twelve census properties. *)
Theorem existing_trees_skips_unusable_rows (resp : Response.t) (removed : PySet.t)
    (rows : list PyVal) :
  Response.ok resp = true ->
  Response.json resp = Some (PyList rows) ->
  forallb is_object rows = true ->
  exists features,
    existing_trees resp removed
    = inl (PyObj [("type", PyStr "FeatureCollection"); ("features", PyList features)]) /\
    features = flat_map (row_features removed) rows /\
    (forall feature,
       In feature features <->
       exists f lon lat,
         In (PyObj f) rows /\
         is_removed removed (Py.get_default f "tree_id" PyNone) = false /\
         Py.float (Py.get_default f "latitude" PyNone) = Ok lat /\
         Py.float (Py.get_default f "longitude" PyNone) = Ok lon /\
         feature = make_feature lon lat (props_of f)) /\
    (List.length features <= List.length rows)%nat /\
    Forall census_feature features.
Proof.
  intros Hok Hjson Hobj. unfold existing_trees. rewrite Hok, Hjson. cbn [negb iterate].
  rewrite census_loop_spec, Hobj. cbn [app].
  destruct (flat_map_shape removed rows) as [F L].
  eexists. split; [reflexivity|]. split; [reflexivity|].
  split; [|split; assumption].
  intro feature. rewrite in_flat_map. split.
  - intros (r & Hr & Hin). apply in_row_features in Hin
      as (f & lon & lat & -> & R & Elat & Elon & ->).
    exists f, lon, lat. repeat split; assumption || reflexivity.
  - intros (f & lon & lat & Hr & R & Elat & Elon & ->).
    exists (PyObj f). split; [exact Hr|]. apply in_row_features.
    exists f, lon, lat. repeat split; assumption || reflexivity.
Qed.

(** X16: once [remove_existing_tree] has been called for an identifier, no
    later listing by [existing_trees] holds a feature whose [tree_id]
    prints as that identifier, whichever removals came before or after and
    whatever the census endpoint answers. *)
Theorem removed_census_trees_stay_hidden (resp : Response.t) (removed : PySet.t)
    (ids : list string) (tree_id : string) (collection : PyVal) :
  In tree_id ids \/ PySet.mem tree_id removed = true ->
  existing_trees resp (fold_left (fun s i => snd (remove_existing_tree i s)) ids removed)
  = inl collection ->
  Forall (fun f => names_tree tree_id f = false) (features_of collection).
Proof.
  intros H. apply removals_mem in H. revert H.
  generalize (fold_left (fun s i => snd (remove_existing_tree i s)) ids removed).
  intros removed' M. unfold existing_trees.
  destruct (negb (Response.ok resp)); [discriminate|].
  destruct (Response.json resp) as [body|]; [|discriminate].
  destruct (iterate body) as [rows|e]; [|discriminate].
  rewrite census_loop_spec. destruct (forallb is_object rows); [|discriminate].
  intros [= <-]. cbn [app features_of PyDict.get String.eqb Ascii.eqb Bool.eqb].
  change (features_of (PyObj [("type", PyStr "FeatureCollection");
                              ("features", PyList (flat_map (row_features removed') rows))]))
    with (flat_map (row_features removed') rows).
  induction rows as [|r rows IH]; [constructor|].
  cbn [flat_map]. apply Forall_app. split; [apply row_features_hidden; exact M | exact IH].
Qed.

(** X17: for one and the same response of the census endpoint,
    [existing_trees] after [remove_existing_tree tree_id] raises what it
    raised before, or returns the listing it returned before without the
    features whose [tree_id] prints as [tree_id], the others in the same
    order. *)
Theorem removal_filters_listing (resp : Response.t) (removed : PySet.t) (tree_id : string) :
  existing_trees resp (snd (remove_existing_tree tree_id removed))
  = match existing_trees resp removed with
    | inl collection =>
        inl (PyObj [("type", PyStr "FeatureCollection");
                    ("features",
                     PyList (filter (fun f => negb (names_tree tree_id f))
                                    (features_of collection)))])
    | inr e => inr e
    end.
Proof.
  cbn [remove_existing_tree snd]. unfold existing_trees.
  destruct (negb (Response.ok resp)); [reflexivity|].
  destruct (Response.json resp) as [body|]; [|reflexivity].
  destruct (iterate body) as [rows|e]; [|reflexivity].
  rewrite !census_loop_spec. destruct (forallb is_object rows); [|reflexivity].
  cbn [app]. rewrite flat_map_add. reflexivity.
Qed.
End CensusFacts.

Lemma existing_trees_skips_unusable_rows_witness :
  exists features,
    @existing_trees Py.numeric_builtins sample_response PySet.empty
    = inl (PyObj [("type", PyStr "FeatureCollection"); ("features", PyList features)]) /\
    features = flat_map (@row_features Py.numeric_builtins PySet.empty) sample_rows /\
    (forall feature,
       In feature features <->
       exists f lon lat,
         In (PyObj f) sample_rows /\
         @is_removed Py.numeric_builtins PySet.empty (Py.get_default f "tree_id" PyNone)
         = false /\
         @Py.float Py.numeric_builtins (Py.get_default f "latitude" PyNone) = Ok lat /\
         @Py.float Py.numeric_builtins (Py.get_default f "longitude" PyNone) = Ok lon /\
         feature = make_feature lon lat (props_of f)) /\
    (List.length features <= 3)%nat /\
    Forall census_feature features.
Proof.
  apply (@existing_trees_skips_unusable_rows Py.numeric_builtins sample_response PySet.empty
           sample_rows); reflexivity.
Defined.

Lemma removed_census_trees_stay_hidden_witness :
  exists collection,
    @existing_trees Py.numeric_builtins sample_response
      (snd (remove_existing_tree "180683" PySet.empty)) = inl collection /\
    List.length (features_of collection) = 1%nat /\
    Forall (fun f => @names_tree Py.numeric_builtins "180683" f = false)
           (features_of collection).
Proof.
  eexists. split; [vm_compute; reflexivity|]. split; [reflexivity|].
  apply (@removed_census_trees_stay_hidden Py.numeric_builtins sample_response PySet.empty
           ["180683"] "180683").
  - left; left; reflexivity.
  - vm_compute. reflexivity.
Defined.

(* ================================================================== *)
(** ** Repeating an update *)

Section UpdateRuns.
Context {B : Py.Builtins}.

Lemma alter_alter {V} (f g : V -> V) k (d : PyDict.t V) :
  PyDict.alter g k (PyDict.alter f k d) = PyDict.alter (fun t => g (f t)) k d.
Proof.
  unfold PyDict.alter. rewrite map_map. apply map_ext. intros [k0 v0]. cbn [fst snd].
  destruct (String.eqb k k0) eqn:E; cbn [fst snd]; rewrite E; reflexivity.
Qed.

Lemma alter_ext {V} (f g : V -> V) k (d : PyDict.t V) :
  (forall t, f t = g t) -> PyDict.alter f k d = PyDict.alter g k d.
Proof.
  intro H. unfold PyDict.alter. apply map_ext. intros [k0 v0]. cbn [fst snd].
  destruct (String.eqb k k0); [rewrite H|]; reflexivity.
Qed.

Lemma alter_same {V} k (d : PyDict.t V) : PyDict.alter (fun t => t) k d = d.
Proof.
  unfold PyDict.alter. rewrite <- (map_id d) at 2. apply map_ext. intros [k0 v0].
  cbn [fst snd]. destruct (String.eqb k k0); reflexivity.
Qed.

Lemma with_with d1 d2 s :
  Scenario.with_planted_trees d2 (Scenario.with_planted_trees d1 s)
  = Scenario.with_planted_trees d2 s.
Proof. reflexivity. Qed.

Lemma planted_with d s : Scenario.planted_trees (Scenario.with_planted_trees d s) = d.
Proof. reflexivity. Qed.

(** One [if k in payload: t[k] = conv(payload[k])] statement that succeeds. *)
Lemma when_in_run {A} (conv : PyVal -> Res A) (setter : A -> Tree.t -> Tree.t)
    k payload tree_id s old x :
  field_or conv payload k old = Ok x ->
  when_in k payload (fun v => y <- lift (conv v) ;; assign tree_id (setter y)) s
  = (Ok tt, Scenario.with_planted_trees
              (PyDict.alter (when_named payload k (setter x)) tree_id
                            (Scenario.planted_trees s)) s).
Proof.
  unfold field_or, when_in, when_named, PyDict.contains.
  destruct (PyDict.get k payload) as [v|]; intro F.
  - unfold bind, lift. rewrite F. apply assign_run.
  - cbv beta iota. rewrite alter_same. destruct s; reflexivity.
Qed.

Lemma when_in_ok_inv {A} (conv : PyVal -> Res A) (setter : A -> Tree.t -> Tree.t)
    k payload tree_id s s1 old :
  when_in k payload (fun v => y <- lift (conv v) ;; assign tree_id (setter y)) s = (Ok tt, s1) ->
  exists x, field_or conv payload k old = Ok x.
Proof.
  unfold field_or, when_in. destruct (PyDict.get k payload) as [v|]; [|eexists; reflexivity].
  unfold bind, lift. destruct (conv v) as [x|e]; [eexists; reflexivity | discriminate].
Qed.

Lemma species_step_run payload tree_id s old :
  PyDict.contains (species_after payload old) SPECIES_BY_ID = true ->
  when_in "species_id" payload (fun v =>
    let sid := Py.str v in
    if negb (PyDict.contains sid SPECIES_BY_ID)
    then raise (HTTPException 400 UnknownSpecies)
    else assign tree_id (Tree.set_species_id sid)) s
  = (Ok tt, Scenario.with_planted_trees
              (PyDict.alter (when_named payload "species_id"
                               (Tree.set_species_id (species_after payload old)))
                            tree_id (Scenario.planted_trees s)) s).
Proof.
  intro K. unfold when_in, when_named.
  replace (PyDict.contains "species_id" payload)
    with (match PyDict.get "species_id" payload with Some _ => true | None => false end)
    by reflexivity.
  unfold species_after in *.
  destruct (PyDict.get "species_id" payload) as [v|].
  - cbv zeta. rewrite K. cbn [negb]. apply assign_run.
  - cbv beta iota. rewrite alter_same. destruct s; reflexivity.
Qed.

Lemma species_step_inv payload tree_id s s1 :
  when_in "species_id" payload (fun v =>
    let sid := Py.str v in
    if negb (PyDict.contains sid SPECIES_BY_ID)
    then raise (HTTPException 400 UnknownSpecies)
    else assign tree_id (Tree.set_species_id sid)) s = (Ok tt, s1) ->
  forall v, PyDict.get "species_id" payload = Some v ->
            PyDict.contains (Py.str v) SPECIES_BY_ID = true.
Proof.
  unfold when_in. intros H v G. rewrite G in H. cbv zeta in H.
  destruct (PyDict.contains (Py.str v) SPECIES_BY_ID); [reflexivity | discriminate H].
Qed.

Lemma field_after {A} (conv : PyVal -> Res A) payload k (g : Tree.t -> Tree.t)
    (proj : Tree.t -> A) t old x :
  field_or conv payload k old = Ok x ->
  (forall t', proj (g t') = x) -> proj t = old ->
  proj (when_named payload k g t) = x.
Proof.
  unfold field_or, when_named, PyDict.contains.
  destruct (PyDict.get k payload); intros F Hg Ht; [apply Hg | congruence].
Qed.

(** The whole run of an update whose conversions and species check pass. *)
Lemma update_run tree_id payload s t0 lon lat dbh year sp :
  PyDict.get tree_id (Scenario.planted_trees s) = Some t0 ->
  field_or Py.float payload "lon" (Tree.lon t0) = Ok lon ->
  field_or Py.float payload "lat" (Tree.lat t0) = Ok lat ->
  field_or Py.float payload "dbh_in" (Tree.dbh_in t0) = Ok dbh ->
  field_or Py.int payload "planting_year" (Tree.planting_year t0) = Ok year ->
  PyDict.get (species_after payload (Tree.species_id t0)) SPECIES_BY_ID = Some sp ->
  let F := update_writes payload lon lat dbh year (species_after payload (Tree.species_id t0))
             (snapshot_of sp dbh) in
  update_planted_tree tree_id payload s
  = (Ok (F t0),
     Scenario.with_planted_trees (PyDict.alter F tree_id (Scenario.planted_trees s)) s).
Proof.
  intros G Flon Flat Fdbh Fyear Gsp F.
  assert (C : PyDict.contains tree_id (Scenario.planted_trees s) = true)
    by (unfold PyDict.contains; rewrite G; reflexivity).
  assert (K : PyDict.contains (species_after payload (Tree.species_id t0)) SPECIES_BY_ID = true)
    by (unfold PyDict.contains; rewrite Gsp; reflexivity).
  set (sid := species_after payload (Tree.species_id t0)) in *.
  unfold update_planted_tree. unfold bind at 1. cbn [read]. rewrite C. cbn [negb].
  rewrite (bind_run _ _ _ _ _ (when_in_run _ _ _ _ _ _ _ _ Flon)).
  rewrite (bind_run _ _ _ _ _ (when_in_run _ _ _ _ _ _ _ _ Flat)).
  rewrite (bind_run _ _ _ _ _ (when_in_run _ _ _ _ _ _ _ _ Fdbh)).
  rewrite (bind_run _ _ _ _ _ (when_in_run _ _ _ _ _ _ _ _ Fyear)).
  rewrite (bind_run _ _ _ _ _ (species_step_run _ _ _ _ K)).
  rewrite !planted_with, !alter_alter, !with_with. fold sid.
  set (F5 := fun t : Tree.t =>
               when_named payload "species_id" (Tree.set_species_id sid)
                 (when_named payload "planting_year" (Tree.set_planting_year year)
                    (when_named payload "dbh_in" (Tree.set_dbh_in dbh)
                       (when_named payload "lat" (Tree.set_lat lat)
                          (when_named payload "lon" (Tree.set_lon lon) t))))).
  assert (Hsid : Tree.species_id (F5 t0) = sid).
  { unfold F5, when_named at 1, sid, species_after, PyDict.contains.
    destruct (PyDict.get "species_id" payload); [reflexivity|].
    unfold when_named. repeat destruct (PyDict.contains _ payload); reflexivity. }
  assert (Hdbh : Tree.dbh_in (F5 t0) = dbh).
  { unfold F5. unfold when_named at 1 2.
    assert (E : Tree.dbh_in (when_named payload "dbh_in" (Tree.set_dbh_in dbh)
                  (when_named payload "lat" (Tree.set_lat lat)
                     (when_named payload "lon" (Tree.set_lon lon) t0))) = dbh).
    { apply (field_after Py.float payload "dbh_in" _ Tree.dbh_in _ (Tree.dbh_in t0) dbh Fdbh);
        [reflexivity|].
      unfold when_named. repeat destruct (PyDict.contains _ payload); reflexivity. }
    repeat destruct (PyDict.contains _ payload); cbn [Tree.set_species_id
      Tree.set_planting_year Tree.dbh_in]; exact E. }
  unfold deref at 1. unfold bind at 1. unfold bind at 1. cbn [read].
  rewrite planted_with, PyDictFacts.get_alter, String.eqb_refl, G. cbn [option_map ret].
  unfold bind at 1. unfold lift. rewrite Hsid, Hdbh, (annual_benefits_ok _ _ _ Gsp).
  unfold bind at 1. rewrite assign_run. unfold deref, bind, read.
  rewrite with_with, !planted_with, alter_alter, PyDictFacts.get_alter, String.eqb_refl, G.
  reflexivity.
Qed.
End UpdateRuns.

Section UpdateIdempotence.
Context {B : Py.Builtins}.

Lemma annual_benefits_ok_inv sid d b :
  annual_benefits sid d = Ok b -> exists sp, PyDict.get sid SPECIES_BY_ID = Some sp.
Proof.
  unfold annual_benefits, species_lookup.
  destruct (PyDict.get sid SPECIES_BY_ID) as [sp|]; [eexists; reflexivity | discriminate].
Qed.

(** The tree an accepted update leaves under the identifier. *)
Lemma update_writes_record payload t0 lon lat dbh year b :
  field_or Py.float payload "lon" (Tree.lon t0) = Ok lon ->
  field_or Py.float payload "lat" (Tree.lat t0) = Ok lat ->
  field_or Py.float payload "dbh_in" (Tree.dbh_in t0) = Ok dbh ->
  field_or Py.int payload "planting_year" (Tree.planting_year t0) = Ok year ->
  update_writes payload lon lat dbh year (species_after payload (Tree.species_id t0)) b t0
  = {| Tree.id := Tree.id t0; Tree.lon := lon; Tree.lat := lat;
       Tree.species_id := species_after payload (Tree.species_id t0);
       Tree.dbh_in := dbh; Tree.planting_year := year; Tree.benefits := b |}.
Proof.
  unfold field_or, update_writes, when_named, species_after, PyDict.contains.
  destruct (PyDict.get "lon" payload); destruct (PyDict.get "lat" payload);
    destruct (PyDict.get "dbh_in" payload); destruct (PyDict.get "planting_year" payload);
    destruct (PyDict.get "species_id" payload); intros Flon Flat Fdbh Fyear;
    repeat match goal with H : Ok _ = Ok _ |- _ => injection H as <- end;
    destruct t0; reflexivity.
Qed.

Lemma update_writes_twice payload lon lat dbh year sid b t :
  update_writes payload lon lat dbh year sid b
    (update_writes payload lon lat dbh year sid b t)
  = update_writes payload lon lat dbh year sid b t.
Proof.
  unfold update_writes, when_named.
  destruct (PyDict.contains "lon" payload); destruct (PyDict.contains "lat" payload);
    destruct (PyDict.contains "dbh_in" payload);
    destruct (PyDict.contains "planting_year" payload);
    destruct (PyDict.contains "species_id" payload); destruct t; reflexivity.
Qed.

Lemma field_or_again {A} (conv : PyVal -> Res A) payload k old x :
  field_or conv payload k old = Ok x -> field_or conv payload k x = Ok x.
Proof. unfold field_or. destruct (PyDict.get k payload); [tauto | reflexivity]. Qed.

Lemma species_after_again payload old :
  species_after payload (species_after payload old) = species_after payload old.
Proof. unfold species_after. destruct (PyDict.get "species_id" payload); reflexivity. Qed.

(** What an accepted update tells about its payload and the stored tree. *)
Lemma update_ok_inv tree_id payload s t s' :
  update_planted_tree tree_id payload s = (Ok t, s') ->
  exists t0 lon lat dbh year sp,
    PyDict.get tree_id (Scenario.planted_trees s) = Some t0 /\
    field_or Py.float payload "lon" (Tree.lon t0) = Ok lon /\
    field_or Py.float payload "lat" (Tree.lat t0) = Ok lat /\
    field_or Py.float payload "dbh_in" (Tree.dbh_in t0) = Ok dbh /\
    field_or Py.int payload "planting_year" (Tree.planting_year t0) = Ok year /\
    PyDict.get (species_after payload (Tree.species_id t0)) SPECIES_BY_ID = Some sp.
Proof.
  unfold update_planted_tree. intro H.
  apply bind_ok in H as (s0 & s00 & R & H). injection R as <- <-.
  unfold PyDict.contains at 1 in H.
  destruct (PyDict.get tree_id (Scenario.planted_trees s)) as [t0|] eqn:G; [|discriminate H].
  cbn [negb] in H. exists t0.
  apply bind_ok in H as ([] & s1 & R1 & H).
  destruct (when_in_ok_inv _ _ _ _ _ _ _ (Tree.lon t0) R1) as [lon Flon].
  rewrite (when_in_run _ _ _ _ _ _ _ _ Flon) in R1. injection R1 as <-.
  apply bind_ok in H as ([] & s2 & R2 & H).
  destruct (when_in_ok_inv _ _ _ _ _ _ _ (Tree.lat t0) R2) as [lat Flat].
  rewrite (when_in_run _ _ _ _ _ _ _ _ Flat) in R2. injection R2 as <-.
  apply bind_ok in H as ([] & s3 & R3 & H).
  destruct (when_in_ok_inv _ _ _ _ _ _ _ (Tree.dbh_in t0) R3) as [dbh Fdbh].
  rewrite (when_in_run _ _ _ _ _ _ _ _ Fdbh) in R3. injection R3 as <-.
  apply bind_ok in H as ([] & s4 & R4 & H).
  destruct (when_in_ok_inv _ _ _ _ _ _ _ (Tree.planting_year t0) R4) as [year Fyear].
  rewrite (when_in_run _ _ _ _ _ _ _ _ Fyear) in R4. injection R4 as <-.
  apply bind_ok in H as ([] & s5 & R5 & H).
  exists lon, lat, dbh, year.
  assert (K : exists sp, PyDict.get (species_after payload (Tree.species_id t0)) SPECIES_BY_ID
                         = Some sp).
  { pose proof (species_step_inv _ _ _ _ R5) as S. unfold species_after.
    destruct (PyDict.get "species_id" payload) as [v|] eqn:Gv.
    - specialize (S v eq_refl). unfold PyDict.contains in S.
      destruct (PyDict.get (Py.str v) SPECIES_BY_ID) as [sp|]; [eexists; reflexivity|].
      discriminate S.
    - unfold when_in in R5. rewrite Gv in R5. injection R5 as <-.
      apply update_tail_ok in H as (t1 & b & G1 & Ab & _ & _).
      rewrite !planted_with, !alter_alter, PyDictFacts.get_alter, String.eqb_refl, G in G1.
      injection G1 as <-. apply annual_benefits_ok_inv in Ab.
      replace (Tree.species_id _) with (Tree.species_id t0) in Ab; [exact Ab|].
      unfold when_named. repeat destruct (PyDict.contains _ payload); reflexivity. }
  destruct K as [sp K]. exists sp. repeat split; assumption.
Qed.

(** X18: an update that returned is idempotent: the same request again, on
    the scenario the first one left, returns the same tree and leaves that
    scenario as it is. *)
Theorem update_planted_tree_idempotent (tree_id : string) (payload : PyDict.t PyVal)
    (s s' : Scenario.t) (t : Tree.t) :
  update_planted_tree tree_id payload s = (Ok t, s') ->
  update_planted_tree tree_id payload s' = (Ok t, s').
Proof.
  intro H.
  destruct (update_ok_inv _ _ _ _ _ H)
    as (t0 & lon & lat & dbh & year & sp & G & Flon & Flat & Fdbh & Fyear & Gsp).
  pose proof (update_run tree_id payload s t0 lon lat dbh year sp G Flon Flat Fdbh Fyear Gsp)
    as R. cbv zeta in R. rewrite R in H. injection H as <- <-. clear R.
  set (sid := species_after payload (Tree.species_id t0)) in *.
  set (b := snapshot_of sp dbh).
  pose proof (update_writes_record payload t0 lon lat dbh year b Flon Flat Fdbh Fyear) as Rec.
  fold sid in Rec.
  set (F := update_writes payload lon lat dbh year sid b) in *.
  assert (G' : PyDict.get tree_id
                 (Scenario.planted_trees
                    (Scenario.with_planted_trees
                       (PyDict.alter F tree_id (Scenario.planted_trees s)) s))
               = Some (F t0)).
  { rewrite planted_with, PyDictFacts.get_alter, String.eqb_refl, G. reflexivity. }
  assert (Hlon : Tree.lon (F t0) = lon) by (rewrite Rec; reflexivity).
  assert (Hlat : Tree.lat (F t0) = lat) by (rewrite Rec; reflexivity).
  assert (Hdbh : Tree.dbh_in (F t0) = dbh) by (rewrite Rec; reflexivity).
  assert (Hyear : Tree.planting_year (F t0) = year) by (rewrite Rec; reflexivity).
  assert (Hsid : Tree.species_id (F t0) = sid) by (rewrite Rec; reflexivity).
  pose proof (update_run tree_id payload _ (F t0) lon lat dbh year sp G') as R.
  rewrite Hlon, Hlat, Hdbh, Hyear, Hsid in R. unfold sid in R at 1 2.
  rewrite species_after_again in R. fold sid in R.
  specialize (R (field_or_again _ _ _ _ _ Flon) (field_or_again _ _ _ _ _ Flat)
                (field_or_again _ _ _ _ _ Fdbh) (field_or_again _ _ _ _ _ Fyear) Gsp).
  cbv zeta in R. fold b F in R. rewrite R.
  unfold F at 1. rewrite update_writes_twice. fold F.
  rewrite planted_with, alter_alter, with_with.
  rewrite (alter_ext (fun t => F (F t)) F)
    by (intro t; unfold F; apply update_writes_twice).
  reflexivity.
Qed.
End UpdateIdempotence.

Lemma update_planted_tree_idempotent_witness :
  exists t s',
    @update_planted_tree Py.numeric_builtins "planted_1000_1"
      [("dbh_in", PyFloat 4.0); ("species_id", PyStr "ginkgo")] one_tree_scenario
    = (Ok t, s') /\
    @update_planted_tree Py.numeric_builtins "planted_1000_1"
      [("dbh_in", PyFloat 4.0); ("species_id", PyStr "ginkgo")] s' = (Ok t, s').
Proof.
  eexists. eexists. split; [vm_compute; reflexivity|].
  apply (@update_planted_tree_idempotent Py.numeric_builtins "planted_1000_1"
           [("dbh_in", PyFloat 4.0); ("species_id", PyStr "ginkgo")] one_tree_scenario).
  vm_compute. reflexivity.
Defined.

(* ================================================================== *)
(** ** Removing a tree from the listing *)

Section DeleteListing.
Context {B : Py.Builtins}.

Lemma values_del_keyed tree_id (d : PyDict.t Tree.t) :
  Forall (fun kv => Tree.id (snd kv) = fst kv) d ->
  PyDict.values (PyDict.del tree_id d)
  = filter (fun t => negb (String.eqb tree_id (Tree.id t))) (PyDict.values d).
Proof.
  unfold PyDict.values, PyDict.del. induction 1 as [|[k t] d E _ IH]; [reflexivity|].
  cbn [filter map fst snd] in *. rewrite E.
  destruct (String.eqb tree_id k); cbn [negb map snd]; rewrite IH; reflexivity.
Qed.

(** X19: on a scenario reached by any sequence of requests,
    [delete_planted_tree] takes out of the listing of [get_scenario]
    exactly the trees with that identifier: the other trees stay, in the
    same order, and no listed tree carries the identifier any more. *)
Theorem delete_removes_from_listing (rs : list Request) (now : float) (tree_id : string) :
  let s := snd (run rs (Scenario.initial now)) in
  exists before after,
    fst (get_scenario s) = Ok before /\
    fst (get_scenario (snd (delete_planted_tree tree_id s))) = Ok after /\
    ScenarioView.planted_trees after
    = filter (fun t => negb (String.eqb tree_id (Tree.id t)))
             (ScenarioView.planted_trees before) /\
    Forall (fun t => Tree.id t <> tree_id) (ScenarioView.planted_trees after).
Proof.
  cbv zeta. destruct (run_keeps_keyed_by_id rs (Scenario.initial now)) as [K _];
    [split; constructor|].
  eexists. eexists. split; [reflexivity|]. split; [reflexivity|].
  rewrite delete_run. cbn [snd ScenarioView.planted_trees Scenario.with_planted_trees
                           Scenario.planted_trees].
  rewrite (values_del_keyed tree_id _ K). split; [reflexivity|].
  apply Forall_forall. intros t Hin. apply filter_In in Hin as [_ Hin].
  intros <-. rewrite String.eqb_refl in Hin. discriminate Hin.
Qed.
End DeleteListing.

(* ================================================================== *)
(** ** Identifiers when no tree is removed *)

Section NoRemoval.
Context {B : Py.Builtins}.

Lemma len_keys {V} (d : PyDict.t V) : PyDict.len d = List.length (PyDict.keys d).
Proof. unfold PyDict.len, PyDict.keys. rewrite length_map. reflexivity. Qed.

Lemma sized_keys_same_keys s s' :
  PyDict.keys (Scenario.planted_trees s') = PyDict.keys (Scenario.planted_trees s) ->
  sized_keys s -> sized_keys s'.
Proof. unfold sized_keys. rewrite !len_keys. intros ->. exact (fun H => H). Qed.

Lemma sized_keys_fresh now s :
  sized_keys s ->
  PyDict.contains (tree_id_of now (PyDict.len (Scenario.planted_trees s)))
                  (Scenario.planted_trees s) = false.
Proof.
  intro I. apply PyDictFacts.contains_false_keys. intro Hin.
  unfold sized_keys in I. rewrite Forall_forall in I.
  destruct (I _ Hin) as (t & n & E & L). apply tree_id_of_inj in E as [_ E]. lia.
Qed.

Lemma run_without_removal rs : forall s,
  no_removals rs = true -> sized_keys s ->
  NoDup (map added_id (fst (run rs s))) /\
  Forall (fun e => overwrote e = false) (fst (run rs s)) /\
  Forall (fun e => ~ In (added_id e) (PyDict.keys (Scenario.planted_trees s)))
         (fst (run rs s)).
Proof.
  induction rs as [|r rest IH]; intros s N I.
  - cbn. repeat split; constructor.
  - cbn [no_removals forallb] in N. apply andb_true_iff in N as [Nr N].
    fold (no_removals rest) in N.
    assert (Same : forall s',
               PyDict.keys (Scenario.planted_trees s') = PyDict.keys (Scenario.planted_trees s) ->
               serve r s = (None, s') ->
               NoDup (map added_id (fst (run (r :: rest) s))) /\
               Forall (fun e => overwrote e = false) (fst (run (r :: rest) s)) /\
               Forall (fun e => ~ In (added_id e) (PyDict.keys (Scenario.planted_trees s)))
                      (fst (run (r :: rest) s))).
    { intros s' K E. cbn [run]. rewrite E.
      destruct (IH s' N (sized_keys_same_keys _ _ K I)) as (H1 & H2 & H3).
      destruct (run rest s') as [log s'']. cbn [fst] in *. rewrite K in H3.
      repeat split; assumption. }
    destruct r as [now payload | tid payload | tid | h |].
    + destruct (add_cases now payload s)
        as [(pe & _ & E) | [(lon & lat & sid & dbh & year & _ & _ & E)
                           | (lon & lat & sid & sp & dbh & year & _ & _ & E)]];
        cbv zeta in E.
      * apply (Same s); [reflexivity | cbn [serve]; rewrite E; reflexivity].
      * apply (Same s); [reflexivity | cbn [serve]; rewrite E; reflexivity].
      * pose proof (sized_keys_fresh now s I) as C.
        set (tid := tree_id_of now (PyDict.len (Scenario.planted_trees s))) in *.
        set (tree := new_tree tid lon lat sp sid dbh year) in *.
        set (s' := Scenario.with_planted_trees
                     (PyDict.set tid tree (Scenario.planted_trees s)) s) in *.
        assert (K : PyDict.keys (Scenario.planted_trees s')
                    = (PyDict.keys (Scenario.planted_trees s) ++ [tid])%list).
        { cbn [s' Scenario.with_planted_trees Scenario.planted_trees].
          rewrite (PyDictFacts.set_fresh _ _ _ C). unfold PyDict.keys. rewrite map_app.
          reflexivity. }
        assert (I' : sized_keys s').
        { unfold sized_keys. rewrite K, len_keys, K, length_app. cbn [List.length].
          apply Forall_app. split.
          - unfold sized_keys in I. rewrite len_keys in I.
            eapply Forall_impl; [|exact I]. cbv beta. intros k (t & n & -> & L).
            exists t, n. split; [reflexivity | lia].
          - constructor; [|constructor]. exists now, (PyDict.len (Scenario.planted_trees s)).
            split; [reflexivity | rewrite len_keys; lia]. }
        destruct (IH s' N I') as (H1 & H2 & H3).
        cbn [run serve]. rewrite E. cbn [Tree.id tree new_tree]. fold tid. rewrite C.
        destruct (run rest s') as [log s'']. cbn [fst map added_id overwrote] in *.
        rewrite K in H3.
        split; [|split].
        -- constructor; [|exact H1]. intro Hin. apply in_map_iff in Hin as (e & Ee & Hin).
           rewrite Forall_forall in H3. apply (H3 e Hin). rewrite Ee.
           apply in_or_app. right. left. reflexivity.
        -- constructor; [reflexivity | exact H2].
        -- constructor.
           ++ cbn [added_id]. apply PyDictFacts.contains_false_keys. exact C.
           ++ eapply Forall_impl; [|exact H3]. cbv beta. intros e He Hin. apply He.
              apply in_or_app. left. exact Hin.
    + apply (Same (snd (update_planted_tree tid payload s)));
        [apply update_keeps_keys | reflexivity].
    + discriminate Nr.
    + apply (Same (snd (scenario_projection h s)));
        [rewrite projection_pure; reflexivity | reflexivity].
    + apply (Same s); reflexivity.
Qed.

(** X22: over any sequence of add, update and read requests served one
    after the other from the empty store, with no request to remove a tree,
    the identifiers generated by the successful adds are pairwise distinct
    and no add overwrites a record, also when adds read the same
    millisecond: the size part of the identifier tells them apart. *)
Theorem identifiers_distinct_without_removal (rs : list Request) (now : float) :
  no_removals rs = true ->
  NoDup (map added_id (fst (run rs (Scenario.initial now)))) /\
  Forall (fun e => overwrote e = false) (fst (run rs (Scenario.initial now))).
Proof.
  intro N. destruct (run_without_removal rs (Scenario.initial now) N) as (H1 & H2 & _).
  - constructor.
  - split; assumption.
Qed.
End NoRemoval.

Lemma identifiers_distinct_without_removal_witness :
  NoDup (map added_id
           (fst (@run Py.numeric_builtins
                   [ReqAdd 1000 lon_lat_payload; ReqAdd 1000 lon_lat_payload;
                    ReqAdd 1000 lon_lat_payload] (Scenario.initial 0)))) /\
  Forall (fun e => overwrote e = false)
         (fst (@run Py.numeric_builtins
                 [ReqAdd 1000 lon_lat_payload; ReqAdd 1000 lon_lat_payload;
                  ReqAdd 1000 lon_lat_payload] (Scenario.initial 0))).
Proof.
  apply (@identifiers_distinct_without_removal Py.numeric_builtins
           [ReqAdd 1000 lon_lat_payload; ReqAdd 1000 lon_lat_payload;
            ReqAdd 1000 lon_lat_payload] 0%float).
  reflexivity.
Defined.
